(** * karpiu.planning.optim.budget_optimizer

    A shallow embedding of the three budget allocators of
    [karpiu/planning/optim/budget_optimizer.py] ([BudgetOptimizer],
    [ChannelBudgetOptimizer], [TimeBudgetOptimizer]) and the properties
    stated about them.

    Numbers.  The program computes on IEEE binary64 values held in numpy
    arrays.  They are modelled by [float]: a rational for every finite
    value, with exact arithmetic, plus the three special values
    [+inf], [-inf] and [nan] with numpy's rules for them (a division by
    zero yields an infinity or [nan] and no exception).  Rounding to the
    nearest binary64, overflow, the sign of zero and the order in which
    numpy adds the terms of a sum are not modelled.  The properties below
    are therefore stated on the operations the program performs, in the
    order it performs them; where one uses more of the arithmetic than
    that (the sign of a product, the monotonicity of rounding, [x * 1 = x],
    an exact sum), its statement shows it.

    Collaborators.  The parent class [MMMShell] and [scipy.optimize.minimize]
    are not part of the file; they are parameters ([ModelShell], [Solver]). *)

From Stdlib Require Import String.
From Stdlib Require Import QArith Qround ZArith Lia Lqa List Bool.
From Stdlib Require Import Morphisms Setoid Sorted Permutation.
From Stdlib Require OrderedTypeEx.
Import ListNotations.

Open Scope Q_scope.

(* ================================================================== *)
(** ** Scalars *)

Inductive float : Type :=
| Fin (q : Q)
| PInf
| NInf
| NaN.

Definition fzero : float := Fin 0.
Definition fone : float := Fin 1.

(** [np.inf] *)
Definition np_inf : float := PInf.

(** The infinity (or [nan]) whose sign is that of a finite number compared
    with zero. *)
Definition inf_signed (c : comparison) : float :=
  match c with
  | Gt => PInf
  | Lt => NInf
  | Eq => NaN
  end.

Definition fadd (a b : float) : float :=
  match a, b with
  | NaN, _ | _, NaN => NaN
  | PInf, NInf | NInf, PInf => NaN
  | PInf, _ | _, PInf => PInf
  | NInf, _ | _, NInf => NInf
  | Fin x, Fin y => Fin (x + y)
  end.

Definition fmul (a b : float) : float :=
  match a, b with
  | NaN, _ | _, NaN => NaN
  | Fin x, Fin y => Fin (x * y)
  | Fin x, PInf | PInf, Fin x => inf_signed (Qcompare x 0)
  | Fin x, NInf | NInf, Fin x => inf_signed (CompOpp (Qcompare x 0))
  | PInf, PInf | NInf, NInf => PInf
  | PInf, NInf | NInf, PInf => NInf
  end.

(** numpy true division: no exception on a zero divisor. *)
Definition fdiv (a b : float) : float :=
  match a, b with
  | NaN, _ | _, NaN => NaN
  | Fin x, Fin y =>
      if Qeq_bool y 0 then inf_signed (Qcompare x 0) else Fin (x / y)
  | Fin _, PInf | Fin _, NInf => Fin 0
  | PInf, Fin y => if Qle_bool 0 y then PInf else NInf
  | NInf, Fin y => if Qle_bool 0 y then NInf else PInf
  | PInf, PInf | PInf, NInf | NInf, PInf | NInf, NInf => NaN
  end.

(** [a <= b]; every comparison with [nan] is false. *)
Definition fle (a b : float) : bool :=
  match a, b with
  | NaN, _ | _, NaN => false
  | NInf, _ => true
  | _, PInf => true
  | Fin x, Fin y => Qle_bool x y
  | _, _ => false
  end.

(** [a > b] *)
Definition fgt (a b : float) : bool :=
  match a, b with
  | NaN, _ | _, NaN => false
  | PInf, PInf => false
  | PInf, _ => true
  | NInf, _ => false
  | Fin _, NInf => true
  | Fin _, PInf => false
  | Fin x, Fin y => negb (Qle_bool x y)
  end.

(** The same value: rationals are compared as fractions, the special
    values by name. *)
Definition feq (a b : float) : Prop :=
  match a, b with
  | Fin x, Fin y => x == y
  | PInf, PInf | NInf, NInf | NaN, NaN => True
  | _, _ => False
  end.

Infix "=f=" := feq (at level 70, no associativity).

(** [rint]: the nearest integer, ties to the even one. *)
Definition rint (q : Q) : Z :=
  let f := Qfloor q in
  match Qcompare (q - inject_Z f) (1 # 2) with
  | Lt => f
  | Gt => (f + 1)%Z
  | Eq => if Z.even f then f else (f + 1)%Z
  end.

Definition frint (a : float) : float :=
  match a with
  | Fin q => Fin (inject_Z (rint q))
  | _ => a
  end.

Definition pow10 (decimals : nat) : float :=
  Fin (inject_Z (10 ^ Z.of_nat decimals)).

(** [np.round(a, decimals)] on one element, for [decimals >= 0]: numpy
    multiplies by [10**decimals], applies [rint] and divides again. *)
Definition round_scalar (a : float) (decimals : nat) : float :=
  fdiv (frint (fmul a (pow10 decimals))) (pow10 decimals).

Definition fneg (a : float) : float :=
  match a with
  | Fin q => Fin (- q)
  | PInf => NInf
  | NInf => PInf
  | NaN => NaN
  end.

(** [a - b] *)
Definition fsub (a b : float) : float := fadd a (fneg b).

(* ================================================================== *)
(** ** Arrays *)

(** A one-dimensional array. *)
Definition array := list float.

(** A two-dimensional array, row-major; [ncols] keeps the second component
    of the shape when there is no row. *)
Record matrix : Type := mkMatrix {
  ncols : nat;
  rows : list (list float)
}.

Definition nrows (m : matrix) : nat := length (rows m).

(** Every row has [ncols] entries. *)
Definition well_shaped (m : matrix) : Prop :=
  Forall (fun r => length r = ncols m) (rows m).

Definition entry (m : matrix) (i j : nat) : float :=
  nth j (nth i (rows m) []) fzero.

Definition np_zeros (n : nat) : array := repeat fzero n.
Definition np_ones (n : nat) : array := repeat fone n.

(** [np.ones((r, c))] *)
Definition np_ones2 (r c : nat) : matrix :=
  mkMatrix c (repeat (np_ones c) r).

(** [np.zeros((r, c))] *)
Definition np_zeros2 (r c : nat) : matrix :=
  mkMatrix c (repeat (np_zeros c) r).

(** [a * s] and [a / s] for a scalar [s]. *)
Definition array_scale (a : array) (s : float) : array :=
  map (fun v => fmul v s) a.
Definition array_div (a : array) (s : float) : array :=
  map (fun v => fdiv v s) a.
Definition matrix_scale (m : matrix) (s : float) : matrix :=
  mkMatrix (ncols m) (map (fun r => array_scale r s) (rows m)).

(** [np.sum(a)] of a one-dimensional array; the order of the additions,
    which numpy chooses, is not modelled. *)
Definition np_sum (a : array) : float := fold_right fadd fzero a.

(** [m.flatten()] *)
Definition flatten (m : matrix) : array := concat (rows m).

(** [np.sum(m)] *)
Definition np_sum_all (m : matrix) : float := np_sum (flatten m).

(** [np.sum(m, 0)]: one total per column. *)
Definition np_sum_axis0 (m : matrix) : array :=
  map (fun j => np_sum (map (fun r => nth j r fzero) (rows m)))
      (seq 0 (ncols m)).

(** [np.sum(m, -1)]: one total per row. *)
Definition np_sum_axis1 (m : matrix) : array :=
  map np_sum (rows m).

(** [np.round(a, decimals)] *)
Definition np_round (a : array) (decimals : nat) : array :=
  map (fun v => round_scalar v decimals) a.
Definition np_round2 (m : matrix) (decimals : nat) : matrix :=
  mkMatrix (ncols m) (map (fun r => np_round r decimals) (rows m)).

(** [np.dot] of two one-dimensional arrays of the same length. *)
Fixpoint np_dot (a b : array) : float :=
  match a, b with
  | x :: a', y :: b' => fadd (fmul x y) (np_dot a' b')
  | _, _ => fzero
  end.

(** [np.expand_dims(a, -1)]: shape [(n,)] to [(n, 1)]. *)
Definition expand_dims_last (a : array) : matrix :=
  mkMatrix 1 (map (fun v => [v]) a).

(** A one-dimensional array seen as the [(1, n)] matrix broadcasting
    aligns it to. *)
Definition as_row (a : array) : matrix := mkMatrix (length a) [a].

(* ------------------------------------------------------------------ *)
(** *** Exceptions *)

Inductive exn : Type :=
| Exception (msg : string)
| ValueError (msg : string)
| KeyError (msg : string)
| IndexingError (msg : string)
| ExternalError (msg : string).

Inductive result (A : Type) : Type :=
| Ok (a : A)
| Raise (e : exn).
Arguments Ok {A} a.
Arguments Raise {A} e.

Definition bind {A B : Type} (r : result A) (k : A -> result B) : result B :=
  match r with
  | Ok a => k a
  | Raise e => Raise e
  end.

Definition fmap {A B : Type} (f : A -> B) (r : result A) : result B :=
  match r with
  | Ok a => Ok (f a)
  | Raise e => Raise e
  end.

Notation "x <- c1 ;; c2" := (bind c1 (fun x => c2))
  (at level 61, c1 at next level, right associativity).

(* ------------------------------------------------------------------ *)
(** *** Broadcasting *)

(** The common length of two axes, when numpy can broadcast them. *)
Definition broadcast_dim (a b : nat) : result nat :=
  if Nat.eqb a b then Ok a
  else if Nat.eqb a 1 then Ok b
  else if Nat.eqb b 1 then Ok a
  else Raise (ValueError "operands could not be broadcast together").

(** The index read on an axis of length [n] for position [i] of the
    result: an axis of length one is repeated. *)
Definition bidx (n i : nat) : nat := if Nat.eqb n 1 then 0%nat else i.

(** [a * b] on two-dimensional arrays, with broadcasting. *)
Definition broadcast_mul (a b : matrix) : result matrix :=
  r <- broadcast_dim (nrows a) (nrows b) ;;
  c <- broadcast_dim (ncols a) (ncols b) ;;
  Ok (mkMatrix c
        (map (fun i =>
                map (fun j =>
                       fmul (entry a (bidx (nrows a) i) (bidx (ncols a) j))
                            (entry b (bidx (nrows b) i) (bidx (ncols b) j)))
                    (seq 0 c))
             (seq 0 r))).

(** [x.reshape(-1, c)] of a one-dimensional array. *)
Fixpoint chunks (n c : nat) (x : array) : list (list float) :=
  match n with
  | O => []
  | S n' => firstn c x :: chunks n' c (skipn c x)
  end.

Definition reshape_cols (x : array) (c : nat) : result matrix :=
  if Nat.eqb c 0 then
    Raise (ValueError "cannot reshape array into shape (0)")
  else if Nat.eqb (length x mod c) 0 then
    Ok (mkMatrix c (chunks (length x / c) c x))
  else Raise (ValueError "cannot reshape array").

(* ================================================================== *)
(** ** The data container (pandas) *)

(** The numeric columns of a [pandas.DataFrame]: the column labels and one
    list of values per row, in the order of the labels. *)
Record DataFrame : Type := mkDataFrame {
  columns : list string;
  data : list (list float)
}.

(** The position of a label among the columns. *)
Fixpoint index_of (name : string) (cols : list string) : option nat :=
  match cols with
  | [] => None
  | c :: cols' =>
      if String.eqb c name then Some 0%nat
      else option_map S (index_of name cols')
  end.

Fixpoint column_indices (names cols : list string) : result (list nat) :=
  match names with
  | [] => Ok []
  | n :: names' =>
      match index_of n cols with
      | None => Raise (KeyError n)
      | Some j => js <- column_indices names' cols ;; Ok (j :: js)
      end
  end.

(** The rows a boolean mask selects. *)
Fixpoint select_rows {A : Type} (mask : list bool) (l : list A) : list A :=
  match mask, l with
  | b :: mask', r :: l' =>
      if b then r :: select_rows mask' l' else select_rows mask' l'
  | _, _ => []
  end.

(** [np.sum(mask)] of a boolean array. *)
Definition count_true (mask : list bool) : nat :=
  length (filter (fun b => b) mask).

(** [df.loc[mask, names].values] *)
Definition loc_values (df : DataFrame) (mask : list bool)
    (names : list string) : result matrix :=
  if negb (Nat.eqb (length mask) (length (data df))) then
    Raise (IndexingError "Item wrong length")
  else
    js <- column_indices names (columns df) ;;
    Ok (mkMatrix (length names)
          (map (fun r => map (fun j => nth j r fzero) js)
               (select_rows mask (data df)))).

Fixpoint replace_nth {A : Type} (j : nat) (v : A) (l : list A) : list A :=
  match l, j with
  | [], _ => []
  | _ :: l', O => v :: l'
  | x :: l', S j' => x :: replace_nth j' v l'
  end.

Fixpoint assign_row (js : list nat) (vals r : list float) : list float :=
  match js, vals with
  | j :: js', v :: vals' => assign_row js' vals' (replace_nth j v r)
  | _, _ => r
  end.

Fixpoint assign_rows (mask : list bool) (js : list nat)
    (vals l : list (list float)) : list (list float) :=
  match mask, l with
  | b :: mask', r :: l' =>
      if b then
        match vals with
        | v :: vals' => assign_row js v r :: assign_rows mask' js vals' l'
        | [] => r :: l'
        end
      else r :: assign_rows mask' js vals l'
  | _, _ => l
  end.

(** The rows numpy broadcasting gives a value assigned to [n] rows: the
    rows themselves when there are [n], the single row repeated when there
    is one. *)
Definition broadcast_rows (n : nat) (m : matrix)
    : result (list (list float)) :=
  if Nat.eqb (nrows m) n then Ok (rows m)
  else if Nat.eqb (nrows m) 1 then Ok (repeat (hd [] (rows m)) n)
  else Raise (ValueError "shape mismatch").

(** [df.loc[mask, names] = m] on a copy of [df], for a two-dimensional
    value [m]: it has one column per label, and its rows are broadcast to
    the selected rows. *)
Definition loc_assign (df : DataFrame) (mask : list bool)
    (names : list string) (m : matrix) : result DataFrame :=
  if negb (Nat.eqb (length mask) (length (data df))) then
    Raise (IndexingError "Item wrong length")
  else
    js <- column_indices names (columns df) ;;
    if negb (Nat.eqb (ncols m) (length names)) then
      Raise (ValueError "shape mismatch")
    else
      vals <- broadcast_rows (count_true mask) m ;;
      Ok (mkDataFrame (columns df) (assign_rows mask js vals (data df))).

(** [m[:, j] = v] for a column [j] of [m]. *)
Definition set_column (m : matrix) (j : nat) (v : float) : matrix :=
  mkMatrix (ncols m) (map (replace_nth j v) (rows m)).

(** A loop that builds a list and stops at the first exception. *)
Fixpoint mapM {A B : Type} (f : A -> result B) (l : list A)
    : result (list B) :=
  match l with
  | [] => Ok []
  | a :: l' => b <- f a ;; bs <- mapM f l' ;; Ok (b :: bs)
  end.

(** Every row of the data has one value per column label. *)
Definition well_formed (df : DataFrame) : Prop :=
  Forall (fun r => length r = length (columns df)) (data df).

(** [list.sort()] on strings: stable, by code points. *)
Fixpoint insert_sorted (s : string) (l : list string) : list string :=
  match l with
  | [] => [s]
  | t :: l' => if String.ltb s t then s :: l else t :: insert_sorted s l'
  end.

Definition sort (l : list string) : list string :=
  fold_right insert_sorted [] l.

(** [a <= b] on strings, with the comparison [sort] uses. *)
Definition string_le (a b : string) : Prop := String.ltb b a = false.

(* ================================================================== *)
(** ** The solver interface (scipy.optimize) *)

Module Bounds.
Record t : Type := mk { lb : array; ub : array }.
End Bounds.

(** [lb <= A.dot(x) <= ub] *)
Module LinearConstraint.
Record t : Type := mk { A : array; lb : array; ub : array }.
End LinearConstraint.

(** The [options] dictionary handed to [minimize]; [eps] is [None] when the
    key is absent. *)
Record Options : Type := mkOptions {
  disp : bool;
  maxiter : Z;
  ftol : float;
  eps : option float
}.

Record OptimizeResult : Type := mkOptimizeResult {
  x : array;
  success : bool
}.

Definition objective : Type := array -> result float.

(** [scipy.optimize.minimize(fun, x0=, method=, bounds=, constraints=,
    options=)], a black box. *)
Class Solver : Type := {
  minimize : objective -> array -> string -> Bounds.t ->
             list LinearConstraint.t -> Options -> result OptimizeResult
}.

Fixpoint forallb2 {A B : Type} (f : A -> B -> bool)
    (l1 : list A) (l2 : list B) : bool :=
  match l1, l2 with
  | [], [] => true
  | a :: l1', b :: l2' => f a b && forallb2 f l1' l2'
  | _, _ => false
  end.

(** [lb <= x <= ub], componentwise. *)
Definition within_bounds (b : Bounds.t) (x : array) : bool :=
  forallb2 fle (Bounds.lb b) x && forallb2 fle x (Bounds.ub b).

(** [lb <= A.dot(x) <= ub] for a constraint with a single row. *)
Definition satisfies (c : LinearConstraint.t) (x : array) : bool :=
  Nat.eqb (length (LinearConstraint.A c)) (length x)
  && forallb (fun l => fle l (np_dot (LinearConstraint.A c) x))
             (LinearConstraint.lb c)
  && forallb (fun u => fle (np_dot (LinearConstraint.A c) x) u)
             (LinearConstraint.ub c).

Definition feasible (b : Bounds.t) (cs : list LinearConstraint.t)
    (x : array) : bool :=
  within_bounds b x && forallb (fun c => satisfies c x) cs.

(** A solver whose every answer lies within the bounds and satisfies the
    constraints it was given. *)
Definition returns_feasible (S : Solver) : Prop :=
  forall f x0 method b cs o sol,
    minimize f x0 method b cs o = Ok sol -> feasible b cs (x sol) = true.

(** A solver whose every answer lies within the bounds it was given. *)
Definition returns_within_bounds (S : Solver) : Prop :=
  forall f x0 method b cs o sol,
    minimize f x0 method b cs o = Ok sol -> within_bounds b (x sol) = true.

(** A solver whose answer has the shape of its starting point, as
    [scipy.optimize.minimize] documents. *)
Definition keeps_shape (S : Solver) : Prop :=
  forall f x0 method b cs o sol,
    minimize f x0 method b cs o = Ok sol -> length (x sol) = length x0.

(* ================================================================== *)
(** ** The parent class *)

(** The attributes [MMMShell.__init__] leaves on the instance and this
    file reads. *)
Record MMMShell : Type := mkMMMShell {
  df : DataFrame;
  input_mask : list bool;
  start : string;
  end_ : string;
  base_comp_input : array
}.

(** [MMMShell.__init__(model, target_regressors, start, end)] *)
Class ModelShell : Type := {
  MMM : Type;
  MMMShell__init__ :
    MMM -> list string -> string -> string -> result MMMShell
}.

(** The two configuration errors of the aggregate allocators. *)
Definition channel_weight_error : exn :=
  Exception "Input weight has different length from budget period.".

Definition time_weight_error : exn :=
  Exception
    "Input weight has different length from number of optimizing channels.".

Definition abstract_objective_message : string :=
  "Abstract objective function. Child class needs to override this method to have concrete result.".

(* ================================================================== *)
(** ** class BudgetOptimizer(MMMShell) *)

Module BudgetOptimizer.

Record t : Type := mk {
  shell : MMMShell;
  optim_channels : list string;
  budget_start : string;
  budget_end : string;
  response_scaler : float;
  spend_scaler : float;
  constraints : list LinearConstraint.t;
  budget_mask : list bool;
  init_spend_matrix : matrix;
  curr_spend_matrix : matrix;
  n_optim_channels : nat;
  total_budget : float;
  n_budget_steps : nat;
  budget_bounds : Bounds.t
}.

Definition set_constraints (self : t)
    (cs : list LinearConstraint.t) : t :=
  mk (shell self) (optim_channels self) (budget_start self)
     (budget_end self) (response_scaler self) (spend_scaler self)
     cs (budget_mask self) (init_spend_matrix self)
     (curr_spend_matrix self) (n_optim_channels self) (total_budget self)
     (n_budget_steps self) (budget_bounds self).

Definition add_constraints (self : t)
    (cs : list LinearConstraint.t) : t :=
  set_constraints self (constraints self ++ cs).

Definition set_budget_bounds (self : t) (b : Bounds.t) : t :=
  mk (shell self) (optim_channels self) (budget_start self)
     (budget_end self) (response_scaler self) (spend_scaler self)
     (constraints self) (budget_mask self) (init_spend_matrix self)
     (curr_spend_matrix self) (n_optim_channels self) (total_budget self)
     (n_budget_steps self) b.

Definition set_curr_spend_matrix (self : t) (m : matrix) : t :=
  mk (shell self) (optim_channels self) (budget_start self)
     (budget_end self) (response_scaler self) (spend_scaler self)
     (constraints self) (budget_mask self) (init_spend_matrix self)
     m (n_optim_channels self) (total_budget self)
     (n_budget_steps self) (budget_bounds self).

Definition generate_total_budget_constraint (self : t)
    (total_budget : float) : LinearConstraint.t :=
  LinearConstraint.mk
    (np_ones (n_budget_steps self * n_optim_channels self))
    (np_zeros 1)
    (array_div (array_scale (np_ones 1) total_budget) (spend_scaler self)).

(** One band per channel around its initial total; [lb] and [ub] are
    scalars in the source, kept here as arrays of one value. *)
Definition generate_individual_channel_constraints (self : t)
    (delta : float) : result (list LinearConstraint.t) :=
  let init_spend_channel_total_arr :=
    array_div (np_sum_axis0 (init_spend_matrix self)) (spend_scaler self) in
  mapM (fun idx =>
          match nth_error init_spend_channel_total_arr idx with
          | None => Raise (ExternalError "IndexError: index out of bounds")
          | Some total =>
              let lb := fmul (fsub fone delta) total in
              let ub := fmul (fadd fone delta) total in
              let A := np_zeros2 (n_budget_steps self)
                                 (n_optim_channels self) in
              let A := set_column A idx fone in
              Ok (LinearConstraint.mk (flatten A) [lb] [ub])
          end)
       (seq 0 (n_optim_channels self)).

Definition get_df (self : t) : DataFrame := df (shell self).
Definition get_current_state (self : t) : matrix := curr_spend_matrix self.
Definition get_total_budget (self : t) : float := total_budget self.
Definition get_init_state (self : t) : matrix := init_spend_matrix self.

Definition objective_func (self : t) (spend : array) : result float :=
  Raise (Exception abstract_objective_message).

Section WithShell.
Context {MS : ModelShell}.

Definition __init__ (model : MMM)
    (budget_start budget_end : string) (optim_channels : list string)
    (response_scaler spend_scaler : float)
    (total_budget_override : option float) : result t :=
  let optim_channels := sort optim_channels in
  sh <- MMMShell__init__ model optim_channels budget_start budget_end ;;
  let budget_mask := input_mask sh in
  init_spend_matrix <- loc_values (df sh) budget_mask optim_channels ;;
  let curr_spend_matrix := init_spend_matrix in
  let n_optim_channels := length optim_channels in
  let n_budget_steps := count_true (input_mask sh) in
  let total_budget :=
    match total_budget_override with
    | Some v => if fgt v fzero then v else np_sum_all init_spend_matrix
    | None => np_sum_all init_spend_matrix
    end in
  let self :=
    mk sh optim_channels (start sh) (end_ sh)
       response_scaler spend_scaler [] budget_mask
       init_spend_matrix curr_spend_matrix n_optim_channels
       total_budget n_budget_steps (Bounds.mk [] []) in
  let total_budget_constraint :=
    generate_total_budget_constraint self total_budget in
  let self := add_constraints self [total_budget_constraint] in
  Ok (set_budget_bounds self
        (Bounds.mk
           (np_zeros (n_budget_steps * n_optim_channels))
           (array_div
              (array_scale (np_ones (n_budget_steps * n_optim_channels))
                           total_budget)
              spend_scaler))).
End WithShell.

Section WithSolver.
Context {SV : Solver}.

(** [optimize], with the method [objective_func] resolves to on the
    instance as a parameter. *)
Definition optimize_with (objective_func : objective) (self : t)
    (init : option matrix) (maxiter : Z) (eps : option float)
    (ftol : float) : result (DataFrame * t) :=
  let x0 :=
    match init with
    | None => array_div (flatten (init_spend_matrix self))
                        (spend_scaler self)
    | Some init => array_div (flatten init) (spend_scaler self)
    end in
  let options := mkOptions true maxiter ftol eps in
  sol <- minimize objective_func x0 "SLSQP"
           (budget_bounds self) (constraints self) options ;;
  m <- reshape_cols (x sol) (n_optim_channels self) ;;
  let optim_spend_matrix := matrix_scale m (spend_scaler self) in
  let optim_spend_matrix := np_round2 optim_spend_matrix 5 in
  let optim_df := get_df self in
  optim_df <- loc_assign optim_df (budget_mask self)
                (optim_channels self) optim_spend_matrix ;;
  Ok (optim_df, set_curr_spend_matrix self optim_spend_matrix).

(** [optimize] on the class itself. *)
Definition optimize (self : t) :=
  optimize_with (objective_func self) self.
End WithSolver.

End BudgetOptimizer.

(* ================================================================== *)
(** ** class ChannelBudgetOptimizer(MMMShell) *)

Module ChannelBudgetOptimizer.

Record t : Type := mk {
  shell : MMMShell;
  budget_start : string;
  budget_end : string;
  optim_channels : list string;
  response_scaler : float;
  spend_scaler : float;
  constraints : list LinearConstraint.t;
  budget_mask : list bool;
  init_spend_matrix : matrix;
  init_spend_array : array;
  curr_spend_matrix : matrix;
  curr_spend_array : array;
  n_optim_channels : nat;
  total_budget : float;
  n_budget_steps : nat;
  budget_bounds : Bounds.t;
  weight : array
}.

Definition set_constraints (self : t)
    (cs : list LinearConstraint.t) : t :=
  mk (shell self) (budget_start self) (budget_end self)
     (optim_channels self) (response_scaler self) (spend_scaler self)
     cs (budget_mask self) (init_spend_matrix self)
     (init_spend_array self) (curr_spend_matrix self)
     (curr_spend_array self) (n_optim_channels self) (total_budget self)
     (n_budget_steps self) (budget_bounds self) (weight self).

Definition add_constraints (self : t)
    (cs : list LinearConstraint.t) : t :=
  set_constraints self (constraints self ++ cs).

Definition set_budget_bounds (self : t) (b : Bounds.t) : t :=
  mk (shell self) (budget_start self) (budget_end self)
     (optim_channels self) (response_scaler self) (spend_scaler self)
     (constraints self) (budget_mask self) (init_spend_matrix self)
     (init_spend_array self) (curr_spend_matrix self)
     (curr_spend_array self) (n_optim_channels self) (total_budget self)
     (n_budget_steps self) b (weight self).

Definition set_weight (self : t) (w : array) : t :=
  mk (shell self) (budget_start self) (budget_end self)
     (optim_channels self) (response_scaler self) (spend_scaler self)
     (constraints self) (budget_mask self) (init_spend_matrix self)
     (init_spend_array self) (curr_spend_matrix self)
     (curr_spend_array self) (n_optim_channels self) (total_budget self)
     (n_budget_steps self) (budget_bounds self) w.

Definition set_curr (self : t) (m : matrix) (a : array) : t :=
  mk (shell self) (budget_start self) (budget_end self)
     (optim_channels self) (response_scaler self) (spend_scaler self)
     (constraints self) (budget_mask self) (init_spend_matrix self)
     (init_spend_array self) m a (n_optim_channels self)
     (total_budget self) (n_budget_steps self) (budget_bounds self)
     (weight self).

Definition generate_total_budget_constraint (self : t)
    (total_budget : float) : LinearConstraint.t :=
  LinearConstraint.mk
    (np_ones (n_optim_channels self))
    (np_zeros 1)
    (array_div (array_scale (np_ones 1) total_budget) (spend_scaler self)).

Definition get_df (self : t) : DataFrame := df (shell self).
Definition get_current_state (self : t) : array := curr_spend_array self.
Definition get_current_spend_matrix (self : t) : matrix :=
  curr_spend_matrix self.
Definition get_total_budget (self : t) : float := total_budget self.
Definition get_init_state (self : t) : array := init_spend_array self.
Definition get_init_spend_matrix (self : t) : matrix :=
  init_spend_matrix self.

Definition objective_func (self : t) (spend : array) : result float :=
  Raise (Exception abstract_objective_message).

Section WithShell.
Context {MS : ModelShell}.

Definition __init__ (model : MMM)
    (budget_start budget_end : string) (optim_channels : list string)
    (response_scaler spend_scaler : float)
    (total_budget_override : option float)
    (weight : option array) : result t :=
  sh <- MMMShell__init__ model optim_channels budget_start budget_end ;;
  let budget_mask := input_mask sh in
  init_spend_matrix <- loc_values (df sh) budget_mask optim_channels ;;
  let init_spend_array := np_sum_axis0 init_spend_matrix in
  let curr_spend_matrix := init_spend_matrix in
  let curr_spend_array := init_spend_array in
  let n_optim_channels := length optim_channels in
  let n_budget_steps := count_true (input_mask sh) in
  let total_budget :=
    match total_budget_override with
    | Some v => if fgt v fzero then v else np_sum init_spend_array
    | None => np_sum init_spend_array
    end in
  let self :=
    mk sh (start sh) (end_ sh) optim_channels
       response_scaler spend_scaler [] budget_mask
       init_spend_matrix init_spend_array
       curr_spend_matrix curr_spend_array n_optim_channels
       total_budget n_budget_steps (Bounds.mk [] []) [] in
  let total_budget_constraint :=
    generate_total_budget_constraint self total_budget in
  let self := add_constraints self [total_budget_constraint] in
  let self :=
    set_budget_bounds self
      (Bounds.mk (np_zeros n_optim_channels)
                 (array_scale (np_ones n_optim_channels) np_inf)) in
  let self :=
    match weight with
    | None =>
        set_weight self
          (array_div (base_comp_input sh)
                     (np_sum (base_comp_input sh)))
    | Some w => set_weight self w
    end in
  if negb (Nat.eqb (length (ChannelBudgetOptimizer.weight self))
                   n_budget_steps) then
    Raise channel_weight_error
  else Ok self.
End WithShell.

Section WithSolver.
Context {SV : Solver}.

Definition optimize_with (objective_func : objective) (self : t)
    (init : option array) (maxiter : Z) (eps : float)
    (ftol : float) : result (DataFrame * t) :=
  let x0 :=
    match init with
    | None => array_div (init_spend_array self) (spend_scaler self)
    | Some init => array_div init (spend_scaler self)
    end in
  sol <- minimize objective_func x0 "SLSQP"
           (budget_bounds self) (constraints self)
           (mkOptions true maxiter ftol (Some eps)) ;;
  let optim_spend_array := array_scale (x sol) (spend_scaler self) in
  let optim_spend_array := np_round optim_spend_array 5 in
  m <- broadcast_mul (as_row optim_spend_array)
         (np_ones2 (n_budget_steps self) (n_optim_channels self)) ;;
  m <- broadcast_mul m (expand_dims_last (weight self)) ;;
  let optim_spend_matrix := np_round2 m 5 in
  let optim_df := get_df self in
  optim_df <- loc_assign optim_df (budget_mask self)
                (optim_channels self) optim_spend_matrix ;;
  Ok (optim_df, set_curr self optim_spend_matrix optim_spend_array).

Definition optimize (self : t) :=
  optimize_with (objective_func self) self.
End WithSolver.

End ChannelBudgetOptimizer.

(* ================================================================== *)
(** ** class TimeBudgetOptimizer(MMMShell) *)

Module TimeBudgetOptimizer.

Record t : Type := mk {
  shell : MMMShell;
  lb_ratio : float;
  ub_ratio : float;
  budget_start : string;
  budget_end : string;
  optim_channels : list string;
  response_scaler : float;
  spend_scaler : float;
  constraints : list LinearConstraint.t;
  budget_mask : list bool;
  init_spend_matrix : matrix;
  init_spend_array : array;
  curr_spend_matrix : matrix;
  curr_spend_array : array;
  n_optim_channels : nat;
  total_budget : float;
  n_budget_steps : nat;
  budget_bounds : Bounds.t;
  weight : array
}.

Definition set_constraints (self : t)
    (cs : list LinearConstraint.t) : t :=
  mk (shell self) (lb_ratio self) (ub_ratio self)
     (budget_start self) (budget_end self)
     (optim_channels self) (response_scaler self) (spend_scaler self)
     cs (budget_mask self) (init_spend_matrix self)
     (init_spend_array self) (curr_spend_matrix self)
     (curr_spend_array self) (n_optim_channels self) (total_budget self)
     (n_budget_steps self) (budget_bounds self) (weight self).

Definition add_constraints (self : t)
    (cs : list LinearConstraint.t) : t :=
  set_constraints self (constraints self ++ cs).

Definition set_budget_bounds (self : t) (b : Bounds.t) : t :=
  mk (shell self) (lb_ratio self) (ub_ratio self)
     (budget_start self) (budget_end self)
     (optim_channels self) (response_scaler self) (spend_scaler self)
     (constraints self) (budget_mask self) (init_spend_matrix self)
     (init_spend_array self) (curr_spend_matrix self)
     (curr_spend_array self) (n_optim_channels self) (total_budget self)
     (n_budget_steps self) b (weight self).

Definition set_weight (self : t) (w : array) : t :=
  mk (shell self) (lb_ratio self) (ub_ratio self)
     (budget_start self) (budget_end self)
     (optim_channels self) (response_scaler self) (spend_scaler self)
     (constraints self) (budget_mask self) (init_spend_matrix self)
     (init_spend_array self) (curr_spend_matrix self)
     (curr_spend_array self) (n_optim_channels self) (total_budget self)
     (n_budget_steps self) (budget_bounds self) w.

Definition set_curr (self : t) (m : matrix) (a : array) : t :=
  mk (shell self) (lb_ratio self) (ub_ratio self)
     (budget_start self) (budget_end self)
     (optim_channels self) (response_scaler self) (spend_scaler self)
     (constraints self) (budget_mask self) (init_spend_matrix self)
     (init_spend_array self) m a (n_optim_channels self)
     (total_budget self) (n_budget_steps self) (budget_bounds self)
     (weight self).

(** The instance with other values in the two ratio attributes. *)
Definition set_ratios (self : t) (l u : float) : t :=
  mk (shell self) l u
     (budget_start self) (budget_end self)
     (optim_channels self) (response_scaler self) (spend_scaler self)
     (constraints self) (budget_mask self) (init_spend_matrix self)
     (init_spend_array self) (curr_spend_matrix self)
     (curr_spend_array self) (n_optim_channels self) (total_budget self)
     (n_budget_steps self) (budget_bounds self) (weight self).

Definition generate_total_budget_constraint (self : t)
    (total_budget : float) : LinearConstraint.t :=
  LinearConstraint.mk
    (np_ones (n_budget_steps self))
    (np_zeros 1)
    (array_div (array_scale (np_ones 1) total_budget) (spend_scaler self)).

Definition get_df (self : t) : DataFrame := df (shell self).
Definition get_current_state (self : t) : array := curr_spend_array self.
Definition get_current_spend_matrix (self : t) : matrix :=
  curr_spend_matrix self.
Definition get_total_budget (self : t) : float := total_budget self.
Definition get_init_state (self : t) : array := init_spend_array self.
Definition get_init_spend_matrix (self : t) : matrix :=
  init_spend_matrix self.

Definition objective_func (self : t) (spend : array) : result float :=
  Raise (Exception abstract_objective_message).

Section WithShell.
Context {MS : ModelShell}.

Definition __init__ (model : MMM)
    (budget_start budget_end : string) (optim_channels : list string)
    (response_scaler spend_scaler : float)
    (total_budget_override : option float)
    (weight : option array)
    (lb_ratio ub_ratio : float) : result t :=
  sh <- MMMShell__init__ model optim_channels budget_start budget_end ;;
  let budget_mask := input_mask sh in
  init_spend_matrix <- loc_values (df sh) budget_mask optim_channels ;;
  let init_spend_array := np_sum_axis1 init_spend_matrix in
  let curr_spend_matrix := init_spend_matrix in
  let curr_spend_array := init_spend_array in
  let n_optim_channels := length optim_channels in
  let n_budget_steps := count_true (input_mask sh) in
  let total_budget :=
    match total_budget_override with
    | Some v => if fgt v fzero then v else np_sum init_spend_array
    | None => np_sum init_spend_array
    end in
  let self :=
    mk sh lb_ratio ub_ratio (start sh) (end_ sh) optim_channels
       response_scaler spend_scaler [] budget_mask
       init_spend_matrix init_spend_array
       curr_spend_matrix curr_spend_array n_optim_channels
       total_budget n_budget_steps (Bounds.mk [] []) [] in
  let total_budget_constraint :=
    generate_total_budget_constraint self total_budget in
  let self := add_constraints self [total_budget_constraint] in
  let self :=
    set_budget_bounds self
      (Bounds.mk (np_zeros n_budget_steps)
                 (array_scale (np_ones n_budget_steps) np_inf)) in
  let self :=
    match weight with
    | None =>
        set_weight self
          (array_div (np_sum_axis0 init_spend_matrix)
                     (np_sum_all init_spend_matrix))
    | Some w => set_weight self w
    end in
  if negb (Nat.eqb (length (TimeBudgetOptimizer.weight self))
                   n_optim_channels) then
    Raise time_weight_error
  else Ok self.
End WithShell.

Section WithSolver.
Context {SV : Solver}.

Definition optimize_with (objective_func : objective) (self : t)
    (init : option array) (maxiter : Z) (eps : float)
    (ftol : float) : result (DataFrame * t) :=
  let x0 :=
    match init with
    | None => array_div (init_spend_array self) (spend_scaler self)
    | Some init => array_div init (spend_scaler self)
    end in
  sol <- minimize objective_func x0 "SLSQP"
           (budget_bounds self) (constraints self)
           (mkOptions true maxiter ftol (Some eps)) ;;
  let optim_spend_array := array_scale (x sol) (spend_scaler self) in
  let optim_spend_array := np_round optim_spend_array 5 in
  m <- broadcast_mul (expand_dims_last optim_spend_array)
         (np_ones2 (n_budget_steps self) (n_optim_channels self)) ;;
  m <- broadcast_mul m (as_row (weight self)) ;;
  let optim_spend_matrix := np_round2 m 5 in
  let optim_df := get_df self in
  optim_df <- loc_assign optim_df (budget_mask self)
                (optim_channels self) optim_spend_matrix ;;
  Ok (optim_df, set_curr self optim_spend_matrix optim_spend_array).

Definition optimize (self : t) :=
  optimize_with (objective_func self) self.
End WithSolver.

End TimeBudgetOptimizer.

(** The instance a call of [optimize] leaves behind: the attributes are
    assigned last, so a call that raises leaves it as it was. *)
Definition state_after {T : Type} (self : T)
    (r : result (DataFrame * T)) : T :=
  match r with
  | Ok (_, self') => self'
  | Raise _ => self
  end.

(** ** Finite values *)

(** Exact sum of rationals. *)
Definition Qsum (l : list Q) : Q := fold_right Qplus 0 l.

(** [0 <= v], with the comparison of the program. *)
Definition nonnegative (v : float) : Prop := fle fzero v = true.

(** A finite value above zero. *)
Definition positive_finite (v : float) : Prop :=
  match v with
  | Fin q => 0 < q
  | _ => False
  end.

(* ================================================================== *)
(** ** A concrete setting *)

Module Example.

(** A model that already holds what the parent class derives from it. *)
Definition shell_of_record : ModelShell :=
  {| MMM := MMMShell;
     MMMShell__init__ := fun m _ s e =>
       Ok (mkMMMShell (df m) (input_mask m) s e (base_comp_input m)) |}.

(** A solver that stops at its starting point: it evaluates the
    objective there, and fails on an infeasible start. *)
Definition start_point_solver : Solver :=
  {| minimize := fun f x0 _ b cs _ =>
       _ <- f x0 ;;
       if feasible b cs x0 then Ok (mkOptimizeResult x0 true)
       else Raise (ExternalError "infeasible starting point") |}.

(** A solver stopped before it has converged: it answers with twice its
    starting point, whatever the constraints, and says so in its status. *)
Definition unconverged_solver : Solver :=
  {| minimize := fun f x0 _ _ _ _ =>
       _ <- f x0 ;;
       Ok (mkOptimizeResult (array_scale x0 (Fin 2)) false) |}.

(** Three dates, the first two in the budget window; two channels. *)
Definition model : MMMShell :=
  mkMMMShell
    (mkDataFrame ["search"; "tv"]
       [[Fin 1; Fin 2]; [Fin 3; Fin 4]; [Fin 7; Fin 7]])%string
    [true; true; false]
    "" ""
    [Fin 1; Fin 3].

Definition channels : list string := ["tv"; "search"]%string.
Definition sorted_channels : list string := ["search"; "tv"]%string.

(** An objective a subclass could supply: the negated sum of the spend.
    Every point that uses up the budget minimises it under the
    total-budget constraint, the starting point of [optimize] among them. *)
Definition negated_spend : objective :=
  fun spend => Ok (fmul (Fin (-1)) (np_sum spend)).

Definition eps : float := Fin (1 # 1000).
Definition ftol : float := Fin (1 # 10000000).

Definition full_grid (override : option float) :=
  @BudgetOptimizer.__init__ shell_of_record model
    "2021-01-01" "2021-01-02" channels (Fin 1) (Fin 10) override.

Definition by_channel (override : option float) (weight : option array) :=
  @ChannelBudgetOptimizer.__init__ shell_of_record model
    "2021-01-01" "2021-01-02" sorted_channels (Fin 1) (Fin 10)
    override weight.

Definition by_time (override : option float) (weight : option array)
    (lb_ratio ub_ratio : float) :=
  @TimeBudgetOptimizer.__init__ shell_of_record model
    "2021-01-01" "2021-01-02" sorted_channels (Fin 1) (Fin 10)
    override weight lb_ratio ub_ratio.

(** The value a computation ends with. *)
Definition outcome {A : Type} (r : result A) :
    match r with Ok _ => A | Raise _ => exn end :=
  match r with
  | Ok a => a
  | Raise e => e
  end.

(** The three allocators on the model, and where one call of [optimize]
    leaves them. *)
Definition full_grid_instance : BudgetOptimizer.t :=
  Eval vm_compute in outcome (full_grid None).

Definition by_channel_instance : ChannelBudgetOptimizer.t :=
  Eval vm_compute in outcome (by_channel None None).

Definition by_time_instance : TimeBudgetOptimizer.t :=
  Eval vm_compute in outcome (by_time None None (Fin (1 # 20)) (Fin 5)).

Definition full_grid_optimized : DataFrame * BudgetOptimizer.t :=
  Eval vm_compute in
    outcome (@BudgetOptimizer.optimize_with start_point_solver
               negated_spend full_grid_instance None 2 None ftol).

Definition by_channel_optimized : DataFrame * ChannelBudgetOptimizer.t :=
  Eval vm_compute in
    outcome (@ChannelBudgetOptimizer.optimize_with start_point_solver
               negated_spend by_channel_instance None 2 eps ftol).

Definition by_time_optimized : DataFrame * TimeBudgetOptimizer.t :=
  Eval vm_compute in
    outcome (@TimeBudgetOptimizer.optimize_with start_point_solver
               negated_spend by_time_instance None 2 eps ftol).

(** The two aggregates with a weight supplied, one half for each entry. *)
Definition halves : array := [Fin (1 # 2); Fin (1 # 2)].

Definition by_channel_halves : ChannelBudgetOptimizer.t :=
  Eval vm_compute in outcome (by_channel None (Some halves)).

Definition by_time_halves : TimeBudgetOptimizer.t :=
  Eval vm_compute in
    outcome (by_time None (Some halves) (Fin (1 # 20)) (Fin 5)).

Definition by_channel_halves_optimized
    : DataFrame * ChannelBudgetOptimizer.t :=
  Eval vm_compute in
    outcome (@ChannelBudgetOptimizer.optimize_with start_point_solver
               negated_spend by_channel_halves None 2 eps ftol).

Definition by_time_halves_optimized : DataFrame * TimeBudgetOptimizer.t :=
  Eval vm_compute in
    outcome (@TimeBudgetOptimizer.optimize_with start_point_solver
               negated_spend by_time_halves None 2 eps ftol).

End Example.

(* ================================================================== *)
(** * Properties *)

(** ** Arithmetic of [float] *)

Ltac fsimpl := cbn [feq fadd fmul fdiv fle fgt frint fzero fone] in *.

Lemma feq_refl : forall a, a =f= a.
Proof. intros [q| | |]; fsimpl; auto. reflexivity. Qed.

Lemma feq_sym : forall a b, a =f= b -> b =f= a.
Proof.
  intros [p| | |] [q| | |]; fsimpl; auto. intro H; symmetry; exact H.
Qed.

Lemma feq_trans : forall a b c, a =f= b -> b =f= c -> a =f= c.
Proof.
  intros [p| | |] [q| | |] [r| | |]; fsimpl; auto; try contradiction.
  intros H1 H2. rewrite H1. exact H2.
Qed.

#[export] Instance feq_Equivalence : Equivalence feq.
Proof.
  split; [exact feq_refl | exact feq_sym | exact feq_trans].
Qed.

#[export] Instance fadd_Proper : Proper (feq ==> feq ==> feq) fadd.
Proof.
  intros [p| | |] [q| | |] H1 [r| | |] [s| | |] H2;
    fsimpl; auto; try contradiction.
  rewrite H1, H2. reflexivity.
Qed.

#[export] Instance fmul_Proper : Proper (feq ==> feq ==> feq) fmul.
Proof.
  intros [p| | |] [q| | |] H1 [r| | |] [s| | |] H2;
    fsimpl; auto; try contradiction;
    try (rewrite H1; reflexivity); try (rewrite H2; reflexivity).
  rewrite H1, H2. reflexivity.
Qed.

#[export] Instance fdiv_Proper : Proper (feq ==> feq ==> feq) fdiv.
Proof.
  intros [p| | |] [q| | |] H1 [r| | |] [s| | |] H2;
    fsimpl; auto; try contradiction; try reflexivity;
    try (rewrite H2; reflexivity).
  rewrite H2. destruct (Qeq_bool s 0) eqn:E.
  - rewrite H1. reflexivity.
  - fsimpl. rewrite H1, H2. reflexivity.
Qed.

#[export] Instance fle_Proper : Proper (feq ==> feq ==> eq) fle.
Proof.
  intros [p| | |] [q| | |] H1 [r| | |] [s| | |] H2;
    fsimpl; auto; try contradiction.
  rewrite H1, H2. reflexivity.
Qed.

#[export] Instance fgt_Proper : Proper (feq ==> feq ==> eq) fgt.
Proof.
  intros [p| | |] [q| | |] H1 [r| | |] [s| | |] H2;
    fsimpl; auto; try contradiction.
  rewrite H1, H2. reflexivity.
Qed.

#[export] Instance rint_Proper : Proper (Qeq ==> eq) rint.
Proof.
  intros p q H. unfold rint. rewrite (Qfloor_comp _ _ H). cbv zeta.
  assert (p - inject_Z (Qfloor q) == q - inject_Z (Qfloor q)) as E
    by (rewrite H; reflexivity).
  rewrite (Qcompare_comp _ _ E _ _ (Qeq_refl (1 # 2))). reflexivity.
Qed.

#[export] Instance frint_Proper : Proper (feq ==> feq) frint.
Proof.
  intros [p| | |] [q| | |] H; fsimpl; auto; try contradiction.
  rewrite (rint_Proper _ _ H). reflexivity.
Qed.

#[export] Instance round_scalar_Proper :
  Proper (feq ==> eq ==> feq) round_scalar.
Proof.
  intros a b H d d' <-. unfold round_scalar. rewrite H. reflexivity.
Qed.

Lemma fadd_assoc : forall a b c, fadd a (fadd b c) =f= fadd (fadd a b) c.
Proof. intros [p| | |] [q| | |] [r| | |]; fsimpl; auto. ring. Qed.

Lemma fadd_0_l : forall a, fadd fzero a =f= a.
Proof. intros [p| | |]; fsimpl; try exact I. ring. Qed.

Lemma fmul_1_l : forall a, fmul fone a =f= a.
Proof. intros [p| | |]; fsimpl; try exact I. ring. Qed.

Lemma fmul_1_r : forall a, fmul a fone =f= a.
Proof. intros [p| | |]; fsimpl; try exact I. ring. Qed.

(** *** [rint] and rounding *)

Lemma pow10_pos : forall d, 0 < inject_Z (10 ^ Z.of_nat d).
Proof.
  intro d. change 0 with (inject_Z 0). rewrite <- Zlt_Qlt.
  apply Z.pow_pos_nonneg; lia.
Qed.

Lemma round_scalar_Fin : forall q d,
  round_scalar (Fin q) d
  = Fin (inject_Z (rint (q * inject_Z (10 ^ Z.of_nat d)))
         / inject_Z (10 ^ Z.of_nat d)).
Proof.
  intros q d. unfold round_scalar, pow10. simpl.
  destruct (Qeq_bool (inject_Z (10 ^ Z.of_nat d)) 0) eqn:E; [|reflexivity].
  apply Qeq_bool_iff in E. pose proof (pow10_pos d) as H. lra.
Qed.

(** *** The operations on small inputs *)

Example rint_ties_to_even :
  rint (1 # 2) = 0%Z /\ rint (3 # 2) = 2%Z /\ rint (5 # 2) = 2%Z
  /\ rint (-1 # 2) = 0%Z /\ rint (-3 # 2) = (-2)%Z /\ rint (7 # 4) = 2%Z.
Proof. repeat split. Qed.

Example round_to_5_decimals :
  round_scalar (Fin (123456789 # 100000000)) 5 =f= Fin (123457 # 100000)
  /\ round_scalar (Fin (-1 # 3)) 5 =f= Fin (-33333 # 100000)
  /\ round_scalar PInf 5 = PInf /\ round_scalar NaN 5 = NaN.
Proof. repeat split. Qed.

Example division_by_zero :
  fdiv (Fin 10) (Fin 0) = PInf /\ fdiv (Fin (-10)) (Fin 0) = NInf
  /\ fdiv (Fin 0) (Fin 0) = NaN /\ fmul (Fin 0) PInf = NaN
  /\ fgt NaN fzero = false /\ fle NaN fzero = false.
Proof. repeat split. Qed.

Example sort_channels :
  sort ["tv"; "search"; "radio"; "tv2"]%string
  = ["radio"; "search"; "tv"; "tv2"]%string.
Proof. reflexivity. Qed.

Example broadcast_shapes :
  broadcast_dim 1 3 = Ok 3%nat /\ broadcast_dim 3 1 = Ok 3%nat
  /\ broadcast_dim 1 0 = Ok 0%nat
  /\ broadcast_dim 2 3
     = Raise (ValueError "operands could not be broadcast together").
Proof. repeat split. Qed.

Example reshape_examples :
  reshape_cols [Fin 1; Fin 2; Fin 3; Fin 4] 2
  = Ok (mkMatrix 2 [[Fin 1; Fin 2]; [Fin 3; Fin 4]])
  /\ reshape_cols [Fin 1; Fin 2; Fin 3] 2
     = Raise (ValueError "cannot reshape array")
  /\ np_sum_axis0 (mkMatrix 2 [[Fin 1; Fin 2]; [Fin 3; Fin 4]])
     = [Fin (1 + (3 + 0)); Fin (2 + (4 + 0))]
  /\ np_sum_axis0 (mkMatrix 2 []) = [Fin 0; Fin 0].
Proof. repeat split. Qed.

(** ** Lists *)

Lemma map_nth_seq : forall (A : Type) (d : A) (l : list A),
  map (fun j => nth j l d) (seq 0 (length l)) = l.
Proof.
  intros A d l. apply nth_ext with (d := nth 0 l d) (d' := d).
  - now rewrite length_map, length_seq.
  - intros n Hn. rewrite length_map, length_seq in Hn.
    rewrite (nth_indep _ _ (nth (nth n (seq 0 (length l)) 0%nat) l d)).
    + rewrite map_nth with (f := fun j => nth j l d).
      rewrite seq_nth by exact Hn. reflexivity.
    + now rewrite length_map, length_seq.
Qed.

(** ** The window read from the data container *)

Lemma bind_Ok : forall (A B : Type) (c : result A) (k : A -> result B) b,
  bind c k = Ok b -> exists a, c = Ok a /\ k a = Ok b.
Proof.
  intros A B [a|e] k b H; [exists a; auto | discriminate].
Qed.

Lemma column_indices_length : forall names cols js,
  column_indices names cols = Ok js -> length js = length names.
Proof.
  induction names as [|n names IH]; intros cols js H; cbn in H.
  - injection H as <-. reflexivity.
  - destruct (index_of n cols); [|discriminate].
    apply bind_Ok in H as (js' & Hjs & H). injection H as <-.
    cbn [length]. f_equal. eapply IH, Hjs.
Qed.

Lemma select_rows_length : forall (A : Type) mask (l : list A),
  length mask = length l -> length (select_rows mask l) = count_true mask.
Proof.
  intros A. unfold count_true.
  induction mask as [|b mask IH]; intros [|r l] H; try discriminate;
    [reflexivity|].
  injection H as H. cbn [select_rows filter].
  destruct b; cbn [length]; rewrite IH; auto.
Qed.

Lemma loc_values_shape : forall df mask names m,
  loc_values df mask names = Ok m ->
  well_shaped m /\ ncols m = length names /\ nrows m = count_true mask.
Proof.
  intros d mask names m H. unfold loc_values in H.
  destruct (Nat.eqb (length mask) (length (data d))) eqn:E;
    [|discriminate]. cbn [negb] in H.
  apply Nat.eqb_eq in E.
  apply bind_Ok in H as (js & Hjs & H). injection H as <-.
  apply column_indices_length in Hjs.
  unfold well_shaped, nrows. cbn [ncols rows]. repeat split.
  - apply Forall_forall. intros r Hr. apply in_map_iff in Hr as (r0 & <- & _).
    now rewrite length_map.
  - rewrite length_map. now apply select_rows_length.
Qed.

(** ** Construction *)

Lemma fle_zero_not_fgt : forall v, fle v fzero = true -> fgt v fzero = false.
Proof.
  intros [q| | |]; cbn [fle fgt fzero]; try discriminate; try reflexivity.
  intros ->. reflexivity.
Qed.

Lemma scale_ones_inf : forall n,
  array_scale (np_ones n) np_inf = repeat PInf n.
Proof.
  intro n. unfold array_scale, np_ones. now rewrite map_repeat.
Qed.

Lemma Forall_repeat_iff : forall (A : Type) (P : A -> Prop) a n,
  P a -> Forall P (repeat a n).
Proof.
  intros A P a n H. apply Forall_forall. intros y Hy.
  apply repeat_spec in Hy. now subst.
Qed.

Section Constructors.
Context {MS : ModelShell}.

(** What a successful construction leaves on the instance. *)
Lemma BudgetOptimizer_init_inv :
  forall model bs be ch rs ss ov self,
    BudgetOptimizer.__init__ model bs be ch rs ss ov = Ok self ->
    exists sh m,
      MMMShell__init__ model (sort ch) bs be = Ok sh
      /\ loc_values (df sh) (input_mask sh) (sort ch) = Ok m
      /\ BudgetOptimizer.optim_channels self = sort ch
      /\ BudgetOptimizer.shell self = sh
      /\ BudgetOptimizer.spend_scaler self = ss
      /\ BudgetOptimizer.budget_mask self = input_mask sh
      /\ BudgetOptimizer.init_spend_matrix self = m
      /\ BudgetOptimizer.curr_spend_matrix self = m
      /\ BudgetOptimizer.n_optim_channels self = length (sort ch)
      /\ BudgetOptimizer.n_budget_steps self = count_true (input_mask sh)
      /\ BudgetOptimizer.total_budget self
         = match ov with
           | Some v => if fgt v fzero then v else np_sum_all m
           | None => np_sum_all m
           end
      /\ BudgetOptimizer.constraints self
         = [BudgetOptimizer.generate_total_budget_constraint self
              (BudgetOptimizer.total_budget self)]
      /\ BudgetOptimizer.budget_bounds self
         = Bounds.mk
             (np_zeros (BudgetOptimizer.n_budget_steps self
                        * BudgetOptimizer.n_optim_channels self))
             (array_div
                (array_scale
                   (np_ones (BudgetOptimizer.n_budget_steps self
                             * BudgetOptimizer.n_optim_channels self))
                   (BudgetOptimizer.total_budget self))
                ss).
Proof.
  intros model bs be ch rs ss ov self H.
  unfold BudgetOptimizer.__init__ in H.
  apply bind_Ok in H as (sh & Hsh & H).
  apply bind_Ok in H as (m & Hm & H).
  injection H as <-. exists sh, m.
  repeat (split; [first [assumption | reflexivity]|]). reflexivity.
Qed.

Lemma ChannelBudgetOptimizer_init_inv :
  forall model bs be ch rs ss ov w self,
    ChannelBudgetOptimizer.__init__ model bs be ch rs ss ov w = Ok self ->
    exists sh m,
      MMMShell__init__ model ch bs be = Ok sh
      /\ loc_values (df sh) (input_mask sh) ch = Ok m
      /\ ChannelBudgetOptimizer.optim_channels self = ch
      /\ ChannelBudgetOptimizer.shell self = sh
      /\ ChannelBudgetOptimizer.spend_scaler self = ss
      /\ ChannelBudgetOptimizer.budget_mask self = input_mask sh
      /\ ChannelBudgetOptimizer.init_spend_matrix self = m
      /\ ChannelBudgetOptimizer.init_spend_array self = np_sum_axis0 m
      /\ ChannelBudgetOptimizer.n_optim_channels self = length ch
      /\ ChannelBudgetOptimizer.n_budget_steps self
         = count_true (input_mask sh)
      /\ ChannelBudgetOptimizer.total_budget self
         = match ov with
           | Some v =>
               if fgt v fzero then v else np_sum (np_sum_axis0 m)
           | None => np_sum (np_sum_axis0 m)
           end
      /\ ChannelBudgetOptimizer.constraints self
         = [ChannelBudgetOptimizer.generate_total_budget_constraint self
              (ChannelBudgetOptimizer.total_budget self)]
      /\ ChannelBudgetOptimizer.budget_bounds self
         = Bounds.mk (np_zeros (length ch))
                     (array_scale (np_ones (length ch)) np_inf)
      /\ ChannelBudgetOptimizer.weight self
         = match w with
           | Some w => w
           | None => array_div (base_comp_input sh)
                               (np_sum (base_comp_input sh))
           end
      /\ length (ChannelBudgetOptimizer.weight self)
         = ChannelBudgetOptimizer.n_budget_steps self.
Proof.
  intros model bs be ch rs ss ov w self H.
  unfold ChannelBudgetOptimizer.__init__ in H.
  apply bind_Ok in H as (sh & Hsh & H).
  apply bind_Ok in H as (m & Hm & H).
  match type of H with
  | (if negb (Nat.eqb ?a ?b) then _ else _) = _ =>
      destruct (Nat.eqb a b) eqn:E; [|discriminate]
  end.
  cbn [negb] in H. apply Nat.eqb_eq in E. injection H as <-.
  exists sh, m.
  destruct w; repeat (split; [first [assumption | reflexivity]|]);
    exact E.
Qed.

Lemma TimeBudgetOptimizer_init_inv :
  forall model bs be ch rs ss ov w l u self,
    TimeBudgetOptimizer.__init__ model bs be ch rs ss ov w l u = Ok self ->
    exists sh m,
      MMMShell__init__ model ch bs be = Ok sh
      /\ loc_values (df sh) (input_mask sh) ch = Ok m
      /\ TimeBudgetOptimizer.optim_channels self = ch
      /\ TimeBudgetOptimizer.shell self = sh
      /\ TimeBudgetOptimizer.spend_scaler self = ss
      /\ TimeBudgetOptimizer.budget_mask self = input_mask sh
      /\ TimeBudgetOptimizer.init_spend_matrix self = m
      /\ TimeBudgetOptimizer.init_spend_array self = np_sum_axis1 m
      /\ TimeBudgetOptimizer.n_optim_channels self = length ch
      /\ TimeBudgetOptimizer.n_budget_steps self
         = count_true (input_mask sh)
      /\ TimeBudgetOptimizer.total_budget self
         = match ov with
           | Some v =>
               if fgt v fzero then v else np_sum (np_sum_axis1 m)
           | None => np_sum (np_sum_axis1 m)
           end
      /\ TimeBudgetOptimizer.constraints self
         = [TimeBudgetOptimizer.generate_total_budget_constraint self
              (TimeBudgetOptimizer.total_budget self)]
      /\ TimeBudgetOptimizer.budget_bounds self
         = Bounds.mk
             (np_zeros (count_true (input_mask sh)))
             (array_scale (np_ones (count_true (input_mask sh))) np_inf)
      /\ TimeBudgetOptimizer.weight self
         = match w with
           | Some w => w
           | None => array_div (np_sum_axis0 m) (np_sum_all m)
           end
      /\ length (TimeBudgetOptimizer.weight self)
         = TimeBudgetOptimizer.n_optim_channels self
      /\ TimeBudgetOptimizer.lb_ratio self = l
      /\ TimeBudgetOptimizer.ub_ratio self = u.
Proof.
  intros model bs be ch rs ss ov w l u self H.
  unfold TimeBudgetOptimizer.__init__ in H.
  apply bind_Ok in H as (sh & Hsh & H).
  apply bind_Ok in H as (m & Hm & H).
  match type of H with
  | (if negb (Nat.eqb ?a ?b) then _ else _) = _ =>
      destruct (Nat.eqb a b) eqn:E; [|discriminate]
  end.
  cbn [negb] in H. apply Nat.eqb_eq in E. injection H as <-.
  exists sh, m.
  destruct w; repeat (split; [first [assumption | reflexivity]|]);
    reflexivity.
Qed.

End Constructors.

(* ================================================================== *)
(** ** The total-budget constraint *)

Lemma total_budget_ub : forall tb ss,
  exists u,
    array_div (array_scale (np_ones 1) tb) ss = [u] /\ u =f= fdiv tb ss.
Proof.
  intros tb ss. eexists. split; [reflexivity|].
  now rewrite fmul_1_l.
Qed.

(** C3.  In each of the three allocators, [generate_total_budget_constraint]
    returns one linear constraint: its coefficient vector is all ones and has
    one entry per decision variable (steps * channels for the full grid,
    channels for the channel aggregate, steps for the time aggregate), its
    lower bound is 0 and its upper bound is [total_budget / spend_scaler]. *)
Theorem generate_total_budget_constraint_spec :
  (forall self tb,
      let c := BudgetOptimizer.generate_total_budget_constraint self tb in
      LinearConstraint.A c
      = repeat fone (BudgetOptimizer.n_budget_steps self
                     * BudgetOptimizer.n_optim_channels self)
      /\ LinearConstraint.lb c = [fzero]
      /\ exists u, LinearConstraint.ub c = [u]
                   /\ u =f= fdiv tb (BudgetOptimizer.spend_scaler self))
  /\ (forall self tb,
      let c :=
        ChannelBudgetOptimizer.generate_total_budget_constraint self tb in
      LinearConstraint.A c
      = repeat fone (ChannelBudgetOptimizer.n_optim_channels self)
      /\ LinearConstraint.lb c = [fzero]
      /\ exists u, LinearConstraint.ub c = [u]
                   /\ u =f= fdiv tb (ChannelBudgetOptimizer.spend_scaler self))
  /\ (forall self tb,
      let c := TimeBudgetOptimizer.generate_total_budget_constraint self tb in
      LinearConstraint.A c
      = repeat fone (TimeBudgetOptimizer.n_budget_steps self)
      /\ LinearConstraint.lb c = [fzero]
      /\ exists u, LinearConstraint.ub c = [u]
                   /\ u =f= fdiv tb (TimeBudgetOptimizer.spend_scaler self)).
Proof.
  repeat split; apply total_budget_ub.
Qed.

(* ================================================================== *)
(** ** The bounds of the decision vector *)

Lemma scaled_ones_ub : forall n tb ss,
  Forall (fun u => u =f= fdiv tb ss)
         (array_div (array_scale (np_ones n) tb) ss).
Proof.
  intros n tb ss. unfold array_div, array_scale, np_ones.
  rewrite !map_repeat. apply Forall_repeat_iff.
  now rewrite fmul_1_l.
Qed.

(** C4.  After construction every decision variable has the lower bound 0.
    Its upper bound is [total_budget / spend_scaler] in the full grid, and
    [+inf] in the channel aggregate and in the time aggregate. *)
Theorem budget_bounds_spec :
  forall (MS : ModelShell) model bs be ch rs ss ov,
    (forall self,
        BudgetOptimizer.__init__ model bs be ch rs ss ov = Ok self ->
        let n := (BudgetOptimizer.n_budget_steps self
                  * BudgetOptimizer.n_optim_channels self)%nat in
        Bounds.lb (BudgetOptimizer.budget_bounds self) = repeat fzero n
        /\ length (Bounds.ub (BudgetOptimizer.budget_bounds self)) = n
        /\ Forall (fun u =>
                     u =f= fdiv (BudgetOptimizer.total_budget self)
                                (BudgetOptimizer.spend_scaler self))
                  (Bounds.ub (BudgetOptimizer.budget_bounds self)))
    /\ (forall w self,
        ChannelBudgetOptimizer.__init__ model bs be ch rs ss ov w = Ok self ->
        let n := ChannelBudgetOptimizer.n_optim_channels self in
        Bounds.lb (ChannelBudgetOptimizer.budget_bounds self) = repeat fzero n
        /\ Bounds.ub (ChannelBudgetOptimizer.budget_bounds self)
           = repeat PInf n)
    /\ (forall w l u self,
        TimeBudgetOptimizer.__init__ model bs be ch rs ss ov w l u = Ok self ->
        let n := TimeBudgetOptimizer.n_budget_steps self in
        Bounds.lb (TimeBudgetOptimizer.budget_bounds self) = repeat fzero n
        /\ Bounds.ub (TimeBudgetOptimizer.budget_bounds self)
           = repeat PInf n).
Proof.
  intros MS model bs be ch rs ss ov. split; [|split].
  - intros self H n.
    apply BudgetOptimizer_init_inv in H
      as (sh & m & _ & _ & _ & _ & Hss & _ & _ & _ & _ & _ & _ & _ & Hb).
    subst n. rewrite Hb, Hss. cbn [Bounds.lb Bounds.ub]. repeat split.
    + unfold array_div, array_scale, np_ones.
      now rewrite !length_map, repeat_length.
    + apply scaled_ones_ub.
  - intros w self H n.
    apply ChannelBudgetOptimizer_init_inv in H
      as (sh & m & _ & _ & _ & _ & _ & _ & _ & _ & Hn & _ & _ & _ & Hb & _).
    subst n. rewrite Hb, Hn. cbn [Bounds.lb Bounds.ub].
    split; [reflexivity | apply scale_ones_inf].
  - intros w l u self H n.
    apply TimeBudgetOptimizer_init_inv in H
      as (sh & m & _ & _ & _ & _ & _ & _ & _ & _ & _ & Hn & _ & _ & Hb & _).
    subst n. rewrite Hb, Hn. cbn [Bounds.lb Bounds.ub].
    split; [reflexivity | apply scale_ones_inf].
Qed.

Lemma budget_bounds_spec_witness :
  exists sb sc st,
    Example.full_grid None = Ok sb
    /\ Example.by_channel None None = Ok sc
    /\ Example.by_time None None (Fin 1) (Fin 2) = Ok st
    /\ Bounds.lb (BudgetOptimizer.budget_bounds sb) = repeat fzero 4
    /\ Forall (fun u => u =f= fdiv (Fin 10) (Fin 10))
              (Bounds.ub (BudgetOptimizer.budget_bounds sb))
    /\ Bounds.ub (ChannelBudgetOptimizer.budget_bounds sc) = [PInf; PInf]
    /\ Bounds.ub (TimeBudgetOptimizer.budget_bounds st) = [PInf; PInf].
Proof.
  destruct (budget_bounds_spec Example.shell_of_record Example.model
              "2021-01-01" "2021-01-02" Example.sorted_channels
              (Fin 1) (Fin 10) None) as (_ & Hc & Ht).
  destruct (budget_bounds_spec Example.shell_of_record Example.model
              "2021-01-01" "2021-01-02" Example.channels
              (Fin 1) (Fin 10) None) as (Hb & _ & _).
  do 3 eexists.
  split; [reflexivity|]. split; [reflexivity|]. split; [reflexivity|].
  split; [|split; [|split]].
  - exact (proj1 (Hb _ eq_refl)).
  - exact (proj2 (proj2 (Hb _ eq_refl))).
  - exact (proj2 (Hc None _ eq_refl)).
  - exact (proj2 (Ht None (Fin 1) (Fin 2) _ eq_refl)).
Defined.

(* ================================================================== *)
(** ** The total budget *)

Section TotalBudget.
Context {MS : ModelShell}.

(** The full grid reads the window of its sorted channels and cannot fail
    after that; its total budget is [np.sum] of the window unless a
    positive override replaces it. *)
Lemma BudgetOptimizer_total_budget :
  forall model bs be ch rs ss ov sh m,
    MMMShell__init__ model (sort ch) bs be = Ok sh ->
    loc_values (df sh) (input_mask sh) (sort ch) = Ok m ->
    exists self,
      BudgetOptimizer.__init__ model bs be ch rs ss ov = Ok self
      /\ BudgetOptimizer.get_init_state self = m
      /\ BudgetOptimizer.total_budget self
         = match ov with
           | Some v => if fgt v fzero then v else np_sum_all m
           | None => np_sum_all m
           end.
Proof.
  intros model bs be ch rs ss ov sh m Hsh Hm.
  unfold BudgetOptimizer.__init__. rewrite Hsh. cbn [bind].
  rewrite Hm. cbn [bind]. eexists. split; [reflexivity|].
  split; reflexivity.
Qed.

(** The channel aggregate adds up the column totals of the window. *)
Lemma ChannelBudgetOptimizer_total_budget :
  forall model bs be ch rs ss ov w sh m self,
    MMMShell__init__ model ch bs be = Ok sh ->
    loc_values (df sh) (input_mask sh) ch = Ok m ->
    ChannelBudgetOptimizer.__init__ model bs be ch rs ss ov w = Ok self ->
    ChannelBudgetOptimizer.get_init_spend_matrix self = m
    /\ ChannelBudgetOptimizer.get_init_state self = np_sum_axis0 m
    /\ ChannelBudgetOptimizer.total_budget self
       = match ov with
         | Some v => if fgt v fzero then v else np_sum (np_sum_axis0 m)
         | None => np_sum (np_sum_axis0 m)
         end.
Proof.
  intros model bs be ch rs ss ov w sh m self Hsh Hm H.
  apply ChannelBudgetOptimizer_init_inv in H
    as (sh' & m' & Hsh' & Hm' & _ & _ & _ & _ & Him & Hia & _ & _ & Ht & _).
  rewrite Hsh in Hsh'. injection Hsh' as <-.
  rewrite Hm in Hm'. injection Hm' as <-.
  unfold ChannelBudgetOptimizer.get_init_spend_matrix,
    ChannelBudgetOptimizer.get_init_state.
  repeat split; assumption.
Qed.

(** The time aggregate adds up the row totals of the window. *)
Lemma TimeBudgetOptimizer_total_budget :
  forall model bs be ch rs ss ov w l u sh m self,
    MMMShell__init__ model ch bs be = Ok sh ->
    loc_values (df sh) (input_mask sh) ch = Ok m ->
    TimeBudgetOptimizer.__init__ model bs be ch rs ss ov w l u = Ok self ->
    TimeBudgetOptimizer.get_init_spend_matrix self = m
    /\ TimeBudgetOptimizer.get_init_state self = np_sum_axis1 m
    /\ TimeBudgetOptimizer.total_budget self
       = match ov with
         | Some v => if fgt v fzero then v else np_sum (np_sum_axis1 m)
         | None => np_sum (np_sum_axis1 m)
         end.
Proof.
  intros model bs be ch rs ss ov w l u sh m self Hsh Hm H.
  apply TimeBudgetOptimizer_init_inv in H
    as (sh' & m' & Hsh' & Hm' & _ & _ & _ & _ & Him & Hia & _ & _ & Ht & _).
  rewrite Hsh in Hsh'. injection Hsh' as <-.
  rewrite Hm in Hm'. injection Hm' as <-.
  unfold TimeBudgetOptimizer.get_init_spend_matrix,
    TimeBudgetOptimizer.get_init_state.
  repeat split; assumption.
Qed.

End TotalBudget.

(** C5.  Without [total_budget_override], the total budget of each of the
    three allocators is the sum of the window the constructor reads: the
    values of the optimized channels at the rows of the budget mask, in the
    data the parent class leaves.  The full grid, which sorts its channels
    first and cannot fail after the read, takes [np.sum] of the window; the
    channel aggregate takes [np.sum] of its column totals and the time
    aggregate [np.sum] of its row totals, so every value of the window
    enters the sum once. *)
Theorem total_budget_without_override :
  forall (MS : ModelShell) model bs be ch rs ss sh m,
    (MMMShell__init__ model (sort ch) bs be = Ok sh ->
     loc_values (df sh) (input_mask sh) (sort ch) = Ok m ->
     exists self,
       BudgetOptimizer.__init__ model bs be ch rs ss None = Ok self
       /\ BudgetOptimizer.total_budget self = np_sum_all m)
    /\ (MMMShell__init__ model ch bs be = Ok sh ->
        loc_values (df sh) (input_mask sh) ch = Ok m ->
        (forall w self,
            ChannelBudgetOptimizer.__init__ model bs be ch rs ss None w
            = Ok self ->
            ChannelBudgetOptimizer.total_budget self
            = np_sum (np_sum_axis0 m))
        /\ (forall w l u self,
            TimeBudgetOptimizer.__init__ model bs be ch rs ss None w l u
            = Ok self ->
            TimeBudgetOptimizer.total_budget self
            = np_sum (np_sum_axis1 m))).
Proof.
  intros MS model bs be ch rs ss sh m. split.
  - intros Hsh Hm.
    destruct (BudgetOptimizer_total_budget model bs be ch rs ss None sh m
                Hsh Hm) as (self & Hself & _ & Ht).
    exists self. split; assumption.
  - intros Hsh Hm. split.
    + intros w self H.
      now apply (ChannelBudgetOptimizer_total_budget
                   model bs be ch rs ss None w sh m self Hsh Hm) in H.
    + intros w l u self H.
      now apply (TimeBudgetOptimizer_total_budget
                   model bs be ch rs ss None w l u sh m self Hsh Hm) in H.
Qed.

Lemma total_budget_without_override_witness :
  (exists self,
      Example.full_grid None = Ok self
      /\ BudgetOptimizer.total_budget self
         = np_sum_all (mkMatrix 2 [[Fin 1; Fin 2]; [Fin 3; Fin 4]]))
  /\ ChannelBudgetOptimizer.total_budget Example.by_channel_instance
     = np_sum (np_sum_axis0 (mkMatrix 2 [[Fin 1; Fin 2]; [Fin 3; Fin 4]]))
  /\ TimeBudgetOptimizer.total_budget Example.by_time_instance
     = np_sum (np_sum_axis1 (mkMatrix 2 [[Fin 1; Fin 2]; [Fin 3; Fin 4]])).
Proof.
  pose (sh := mkMMMShell (df Example.model) (input_mask Example.model)
                "2021-01-01" "2021-01-02"
                (base_comp_input Example.model)).
  pose (m := mkMatrix 2 [[Fin 1; Fin 2]; [Fin 3; Fin 4]]).
  destruct (total_budget_without_override Example.shell_of_record
              Example.model "2021-01-01" "2021-01-02"
              Example.channels (Fin 1) (Fin 10) sh m) as (Hb & _).
  destruct (total_budget_without_override Example.shell_of_record
              Example.model "2021-01-01" "2021-01-02"
              Example.sorted_channels (Fin 1) (Fin 10) sh m) as (_ & Ha).
  destruct (Ha eq_refl eq_refl) as (Hc & Ht).
  split; [exact (Hb eq_refl eq_refl)|]. split.
  - apply (Hc None). vm_compute. reflexivity.
  - apply (Ht None (Fin (1 # 20)) (Fin 5)). vm_compute. reflexivity.
Defined.



(* ================================================================== *)
(** ** The decomposition weight *)

(** C6.  A supplied weight whose length is not the number of budget steps
    (channel aggregate) or the number of optimized channels (time aggregate)
    makes construction fail: no instance comes out of it, so [optimize] has
    nothing to run on; and once the parent class and the window read have
    succeeded the failure is the configuration error.  The constructors do
    not take the solver. *)
Theorem weight_length_checked :
  forall (MS : ModelShell) model bs be ch rs ss ov (w : array),
    (forall sh,
        MMMShell__init__ model ch bs be = Ok sh ->
        length w <> count_true (input_mask sh) ->
        (forall self,
            ChannelBudgetOptimizer.__init__ model bs be ch rs ss ov (Some w)
            <> Ok self)
        /\ (forall m,
            loc_values (df sh) (input_mask sh) ch = Ok m ->
            ChannelBudgetOptimizer.__init__ model bs be ch rs ss ov (Some w)
            = Raise channel_weight_error))
    /\ (length w <> length ch ->
        forall l u,
          (forall self,
              TimeBudgetOptimizer.__init__ model bs be ch rs ss ov (Some w)
                l u
              <> Ok self)
          /\ (forall sh m,
              MMMShell__init__ model ch bs be = Ok sh ->
              loc_values (df sh) (input_mask sh) ch = Ok m ->
              TimeBudgetOptimizer.__init__ model bs be ch rs ss ov (Some w)
                l u
              = Raise time_weight_error)).
Proof.
  intros MS model bs be ch rs ss ov w. split.
  - intros sh Hsh Hlen. split.
    + intros self H.
      apply ChannelBudgetOptimizer_init_inv in H
        as (sh' & m & Hsh' & _ & _ & _ & _ & _ & _ & _ & _ & Hn & _ & _ & _
            & Hw & Hl).
      rewrite Hsh in Hsh'. injection Hsh' as <-.
      rewrite Hw, Hn in Hl. contradiction.
    + intros m Hm. unfold ChannelBudgetOptimizer.__init__.
      rewrite Hsh. cbn [bind]. rewrite Hm. cbn [bind].
      cbn [ChannelBudgetOptimizer.weight ChannelBudgetOptimizer.set_weight].
      apply Nat.eqb_neq in Hlen. rewrite Hlen. reflexivity.
  - intros Hlen l u. split.
    + intros self H.
      apply TimeBudgetOptimizer_init_inv in H
        as (sh' & m & _ & _ & _ & _ & _ & _ & _ & _ & Hn & _ & _ & _ & _
            & Hw & Hl & _).
      rewrite Hw, Hn in Hl. contradiction.
    + intros sh m Hsh Hm. unfold TimeBudgetOptimizer.__init__.
      rewrite Hsh. cbn [bind]. rewrite Hm. cbn [bind].
      cbn [TimeBudgetOptimizer.weight TimeBudgetOptimizer.set_weight].
      apply Nat.eqb_neq in Hlen. rewrite Hlen. reflexivity.
Qed.

Lemma weight_length_checked_witness :
  Example.by_channel None (Some [Fin 1]) = Raise channel_weight_error
  /\ Example.by_time None (Some [Fin 1; Fin 1; Fin 1]) (Fin 1) (Fin 2)
     = Raise time_weight_error.
Proof.
  split.
  - destruct (weight_length_checked Example.shell_of_record Example.model
                "2021-01-01" "2021-01-02" Example.sorted_channels
                (Fin 1) (Fin 10) None [Fin 1]) as (H & _).
    refine (proj2 (H _ eq_refl _) _ eq_refl).
    vm_compute. discriminate.
  - destruct (weight_length_checked Example.shell_of_record Example.model
                "2021-01-01" "2021-01-02" Example.sorted_channels
                (Fin 1) (Fin 10) None [Fin 1; Fin 1; Fin 1]) as (_ & H).
    refine (proj2 (H _ (Fin 1) (Fin 2)) _ _ eq_refl eq_refl).
    vm_compute. discriminate.
Defined.

(* ================================================================== *)
(** ** The abstract objective *)

(** C7.  On each of the three classes [objective_func] raises the
    abstract-objective exception, whatever the instance and the spend
    vector. *)
Theorem objective_func_abstract :
  (forall self spend,
      BudgetOptimizer.objective_func self spend
      = Raise (Exception abstract_objective_message))
  /\ (forall self spend,
      ChannelBudgetOptimizer.objective_func self spend
      = Raise (Exception abstract_objective_message))
  /\ (forall self spend,
      TimeBudgetOptimizer.objective_func self spend
      = Raise (Exception abstract_objective_message)).
Proof.
  repeat split.
Qed.

(** On the classes themselves [optimize] therefore ends with that
    exception as soon as the solver evaluates the objective. *)
Lemma base_optimize_raises :
  @BudgetOptimizer.optimize Example.start_point_solver
    Example.full_grid_instance None 2 None Example.ftol
  = Raise (Exception abstract_objective_message)
  /\ @ChannelBudgetOptimizer.optimize Example.start_point_solver
       Example.by_channel_instance None 2 Example.eps Example.ftol
     = Raise (Exception abstract_objective_message)
  /\ @TimeBudgetOptimizer.optimize Example.start_point_solver
       Example.by_time_instance None 2 Example.eps Example.ftol
     = Raise (Exception abstract_objective_message).
Proof. repeat split. Qed.

(* ================================================================== *)
(** ** What [optimize] changes *)

Section Optimize.
Context {SV : Solver}.

Lemma BudgetOptimizer_optimize_inv :
  forall obj self init maxiter eps ftol df' self',
    BudgetOptimizer.optimize_with obj self init maxiter eps ftol
    = Ok (df', self') ->
    exists x0 sol m,
      minimize obj x0 "SLSQP" (BudgetOptimizer.budget_bounds self)
        (BudgetOptimizer.constraints self)
        (mkOptions true maxiter ftol eps) = Ok sol
      /\ reshape_cols (x sol) (BudgetOptimizer.n_optim_channels self)
         = Ok m
      /\ self' = BudgetOptimizer.set_curr_spend_matrix self
                   (np_round2
                      (matrix_scale m (BudgetOptimizer.spend_scaler self))
                      5)
      /\ loc_assign (BudgetOptimizer.get_df self)
           (BudgetOptimizer.budget_mask self)
           (BudgetOptimizer.optim_channels self)
           (BudgetOptimizer.curr_spend_matrix self') = Ok df'.
Proof.
  intros obj self init maxiter eps ftol df' self' H.
  unfold BudgetOptimizer.optimize_with in H.
  apply bind_Ok in H as (sol & Hsol & H).
  apply bind_Ok in H as (m & Hm & H).
  apply bind_Ok in H as (d & Hd & H).
  injection H as <- <-. eexists _, sol, m. repeat split; eassumption.
Qed.

Lemma ChannelBudgetOptimizer_optimize_inv :
  forall obj self init maxiter eps ftol df' self',
    ChannelBudgetOptimizer.optimize_with obj self init maxiter eps ftol
    = Ok (df', self') ->
    exists x0 sol m1 m2,
      minimize obj x0 "SLSQP" (ChannelBudgetOptimizer.budget_bounds self)
        (ChannelBudgetOptimizer.constraints self)
        (mkOptions true maxiter ftol (Some eps)) = Ok sol
      /\ broadcast_mul
           (as_row (np_round
                      (array_scale (x sol)
                         (ChannelBudgetOptimizer.spend_scaler self)) 5))
           (np_ones2 (ChannelBudgetOptimizer.n_budget_steps self)
                     (ChannelBudgetOptimizer.n_optim_channels self))
         = Ok m1
      /\ broadcast_mul m1
           (expand_dims_last (ChannelBudgetOptimizer.weight self)) = Ok m2
      /\ self' = ChannelBudgetOptimizer.set_curr self (np_round2 m2 5)
                   (np_round
                      (array_scale (x sol)
                         (ChannelBudgetOptimizer.spend_scaler self)) 5)
      /\ loc_assign (ChannelBudgetOptimizer.get_df self)
           (ChannelBudgetOptimizer.budget_mask self)
           (ChannelBudgetOptimizer.optim_channels self)
           (ChannelBudgetOptimizer.curr_spend_matrix self') = Ok df'.
Proof.
  intros obj self init maxiter eps ftol df' self' H.
  unfold ChannelBudgetOptimizer.optimize_with in H.
  apply bind_Ok in H as (sol & Hsol & H).
  apply bind_Ok in H as (m1 & Hm1 & H).
  apply bind_Ok in H as (m2 & Hm2 & H).
  apply bind_Ok in H as (d & Hd & H).
  injection H as <- <-. eexists _, sol, m1, m2.
  repeat split; eassumption.
Qed.

Lemma TimeBudgetOptimizer_optimize_inv :
  forall obj self init maxiter eps ftol df' self',
    TimeBudgetOptimizer.optimize_with obj self init maxiter eps ftol
    = Ok (df', self') ->
    exists x0 sol m1 m2,
      minimize obj x0 "SLSQP" (TimeBudgetOptimizer.budget_bounds self)
        (TimeBudgetOptimizer.constraints self)
        (mkOptions true maxiter ftol (Some eps)) = Ok sol
      /\ broadcast_mul
           (expand_dims_last
              (np_round
                 (array_scale (x sol)
                    (TimeBudgetOptimizer.spend_scaler self)) 5))
           (np_ones2 (TimeBudgetOptimizer.n_budget_steps self)
                     (TimeBudgetOptimizer.n_optim_channels self))
         = Ok m1
      /\ broadcast_mul m1 (as_row (TimeBudgetOptimizer.weight self))
         = Ok m2
      /\ self' = TimeBudgetOptimizer.set_curr self (np_round2 m2 5)
                   (np_round
                      (array_scale (x sol)
                         (TimeBudgetOptimizer.spend_scaler self)) 5)
      /\ loc_assign (TimeBudgetOptimizer.get_df self)
           (TimeBudgetOptimizer.budget_mask self)
           (TimeBudgetOptimizer.optim_channels self)
           (TimeBudgetOptimizer.curr_spend_matrix self') = Ok df'.
Proof.
  intros obj self init maxiter eps ftol df' self' H.
  unfold TimeBudgetOptimizer.optimize_with in H.
  apply bind_Ok in H as (sol & Hsol & H).
  apply bind_Ok in H as (m1 & Hm1 & H).
  apply bind_Ok in H as (m2 & Hm2 & H).
  apply bind_Ok in H as (d & Hd & H).
  injection H as <- <-. eexists _, sol, m1, m2.
  repeat split; eassumption.
Qed.

End Optimize.

(** C8.  [get_init_state] gives the same value after a call of [optimize] as
    before it, whether the call returns or raises; and when the call
    returns, [get_current_state] is the solution just computed: the solver's
    vector multiplied by [spend_scaler] and rounded to 5 decimals (reshaped
    to steps * channels in the full grid). *)
Theorem optimize_state_effect :
  forall (SV : Solver),
    (forall obj self init maxiter eps ftol,
        let r := BudgetOptimizer.optimize_with obj self init maxiter eps ftol
        in
        BudgetOptimizer.get_init_state (state_after self r)
        = BudgetOptimizer.get_init_state self
        /\ forall df' self',
            r = Ok (df', self') ->
            exists x0 sol m,
              minimize obj x0 "SLSQP" (BudgetOptimizer.budget_bounds self)
                (BudgetOptimizer.constraints self)
                (mkOptions true maxiter ftol eps) = Ok sol
              /\ reshape_cols (x sol) (BudgetOptimizer.n_optim_channels self)
                 = Ok m
              /\ BudgetOptimizer.get_current_state self'
                 = np_round2
                     (matrix_scale m (BudgetOptimizer.spend_scaler self)) 5)
    /\ (forall obj self init maxiter eps ftol,
        let r :=
          ChannelBudgetOptimizer.optimize_with obj self init maxiter eps ftol
        in
        ChannelBudgetOptimizer.get_init_state (state_after self r)
        = ChannelBudgetOptimizer.get_init_state self
        /\ forall df' self',
            r = Ok (df', self') ->
            exists x0 sol,
              minimize obj x0 "SLSQP"
                (ChannelBudgetOptimizer.budget_bounds self)
                (ChannelBudgetOptimizer.constraints self)
                (mkOptions true maxiter ftol (Some eps)) = Ok sol
              /\ ChannelBudgetOptimizer.get_current_state self'
                 = np_round
                     (array_scale (x sol)
                        (ChannelBudgetOptimizer.spend_scaler self)) 5)
    /\ (forall obj self init maxiter eps ftol,
        let r :=
          TimeBudgetOptimizer.optimize_with obj self init maxiter eps ftol
        in
        TimeBudgetOptimizer.get_init_state (state_after self r)
        = TimeBudgetOptimizer.get_init_state self
        /\ forall df' self',
            r = Ok (df', self') ->
            exists x0 sol,
              minimize obj x0 "SLSQP"
                (TimeBudgetOptimizer.budget_bounds self)
                (TimeBudgetOptimizer.constraints self)
                (mkOptions true maxiter ftol (Some eps)) = Ok sol
              /\ TimeBudgetOptimizer.get_current_state self'
                 = np_round
                     (array_scale (x sol)
                        (TimeBudgetOptimizer.spend_scaler self)) 5).
Proof.
  intro SV. split; [|split]; intros obj self init maxiter eps ftol r.
  - split.
    + destruct r as [[d s]|e] eqn:E; [|reflexivity]. subst r.
      apply BudgetOptimizer_optimize_inv in E
        as (x0 & sol & m & _ & _ & -> & _).
      reflexivity.
    + intros df' self' E. subst r.
      apply BudgetOptimizer_optimize_inv in E
        as (x0 & sol & m & Hs & Hm & -> & _).
      exists x0, sol, m. repeat split; assumption.
  - split.
    + destruct r as [[d s]|e] eqn:E; [|reflexivity]. subst r.
      apply ChannelBudgetOptimizer_optimize_inv in E
        as (x0 & sol & m1 & m2 & _ & _ & _ & -> & _).
      reflexivity.
    + intros df' self' E. subst r.
      apply ChannelBudgetOptimizer_optimize_inv in E
        as (x0 & sol & m1 & m2 & Hs & _ & _ & -> & _).
      exists x0, sol. split; [assumption | reflexivity].
  - split.
    + destruct r as [[d s]|e] eqn:E; [|reflexivity]. subst r.
      apply TimeBudgetOptimizer_optimize_inv in E
        as (x0 & sol & m1 & m2 & _ & _ & _ & -> & _).
      reflexivity.
    + intros df' self' E. subst r.
      apply TimeBudgetOptimizer_optimize_inv in E
        as (x0 & sol & m1 & m2 & Hs & _ & _ & -> & _).
      exists x0, sol. split; [assumption | reflexivity].
Qed.

Lemma optimize_state_effect_witness :
  exists sb df' sb',
    Example.full_grid None = Ok sb
    /\ @BudgetOptimizer.optimize_with Example.start_point_solver
         Example.negated_spend sb None 2 None Example.ftol = Ok (df', sb')
    /\ BudgetOptimizer.get_init_state sb' = BudgetOptimizer.get_init_state sb
    /\ exists x0 sol m,
        @minimize Example.start_point_solver Example.negated_spend x0 "SLSQP"
          (BudgetOptimizer.budget_bounds sb) (BudgetOptimizer.constraints sb)
          (mkOptions true 2 Example.ftol None) = Ok sol
        /\ reshape_cols (x sol) (BudgetOptimizer.n_optim_channels sb) = Ok m
        /\ BudgetOptimizer.get_current_state sb'
           = np_round2 (matrix_scale m (BudgetOptimizer.spend_scaler sb)) 5.
Proof.
  do 3 eexists.
  split; [reflexivity|]. split; [reflexivity|].
  destruct (optimize_state_effect Example.start_point_solver) as (Hb & _).
  match goal with
  | |- BudgetOptimizer.get_init_state _
       = BudgetOptimizer.get_init_state ?s /\ _ =>
      destruct (Hb Example.negated_spend s None 2%Z None Example.ftol)
        as (Hi & Hc)
  end.
  split; [exact Hi | exact (Hc _ _ eq_refl)].
Defined.

(* ================================================================== *)
(** ** The two ratios of the time aggregate *)

(** C9.  In the time aggregate [lb_ratio] and [ub_ratio] are kept on the
    instance and read by nothing: constructing with other ratios gives the
    same outcome up to these two attributes, the bounds and the constraints
    do not depend on them, and [optimize], for an objective that is a
    function of the spend alone and for the class's own, returns the same
    data container and leaves the same state. *)
Theorem ratios_stored_not_used :
  forall (MS : ModelShell) (SV : Solver),
    (forall model bs be ch rs ss ov w l u self,
        TimeBudgetOptimizer.__init__ model bs be ch rs ss ov w l u = Ok self ->
        TimeBudgetOptimizer.lb_ratio self = l
        /\ TimeBudgetOptimizer.ub_ratio self = u)
    /\ (forall model bs be ch rs ss ov w l1 u1 l2 u2,
        TimeBudgetOptimizer.__init__ model bs be ch rs ss ov w l2 u2
        = fmap (fun s => TimeBudgetOptimizer.set_ratios s l2 u2)
               (TimeBudgetOptimizer.__init__ model bs be ch rs ss ov w l1 u1))
    /\ (forall self l u,
        TimeBudgetOptimizer.budget_bounds
          (TimeBudgetOptimizer.set_ratios self l u)
        = TimeBudgetOptimizer.budget_bounds self
        /\ TimeBudgetOptimizer.constraints
             (TimeBudgetOptimizer.set_ratios self l u)
           = TimeBudgetOptimizer.constraints self)
    /\ (forall obj self l u init maxiter eps ftol,
        TimeBudgetOptimizer.optimize_with obj
          (TimeBudgetOptimizer.set_ratios self l u) init maxiter eps ftol
        = fmap (fun r => (fst r, TimeBudgetOptimizer.set_ratios (snd r) l u))
               (TimeBudgetOptimizer.optimize_with obj self
                  init maxiter eps ftol))
    /\ (forall self l u init maxiter eps ftol,
        TimeBudgetOptimizer.optimize
          (TimeBudgetOptimizer.set_ratios self l u) init maxiter eps ftol
        = fmap (fun r => (fst r, TimeBudgetOptimizer.set_ratios (snd r) l u))
               (TimeBudgetOptimizer.optimize self init maxiter eps ftol)).
Proof.
  intros MS SV.
  assert (forall obj self l u init maxiter eps ftol,
             TimeBudgetOptimizer.optimize_with obj
               (TimeBudgetOptimizer.set_ratios self l u) init maxiter eps ftol
             = fmap (fun r =>
                       (fst r, TimeBudgetOptimizer.set_ratios (snd r) l u))
                    (TimeBudgetOptimizer.optimize_with obj self
                       init maxiter eps ftol)) as Hopt.
  { intros obj self l u init maxiter eps ftol.
    unfold TimeBudgetOptimizer.optimize_with.
    cbn [TimeBudgetOptimizer.set_ratios
           TimeBudgetOptimizer.init_spend_array
           TimeBudgetOptimizer.spend_scaler
           TimeBudgetOptimizer.budget_bounds
           TimeBudgetOptimizer.constraints
           TimeBudgetOptimizer.n_budget_steps
           TimeBudgetOptimizer.n_optim_channels
           TimeBudgetOptimizer.weight
           TimeBudgetOptimizer.get_df TimeBudgetOptimizer.shell
           TimeBudgetOptimizer.budget_mask
           TimeBudgetOptimizer.optim_channels].
    destruct (minimize _ _ _ _ _ _) as [sol|e]; [|reflexivity].
    cbn [bind].
    destruct (broadcast_mul _ _) as [m1|e]; [|reflexivity]. cbn [bind].
    destruct (broadcast_mul _ _) as [m2|e]; [|reflexivity]. cbn [bind].
    destruct (loc_assign _ _ _ _) as [d|e]; reflexivity. }
  split; [|split; [|split; [|split]]].
  - intros model bs be ch rs ss ov w l u self H.
    apply TimeBudgetOptimizer_init_inv in H
      as (sh & m & _ & _ & _ & _ & _ & _ & _ & _ & _ & _ & _ & _ & _ & _
          & _ & Hl & Hu).
    split; assumption.
  - intros model bs be ch rs ss ov w l1 u1 l2 u2.
    unfold TimeBudgetOptimizer.__init__.
    destruct (MMMShell__init__ model ch bs be) as [sh|e]; [|reflexivity].
    cbn [bind].
    destruct (loc_values _ _ _) as [m|e]; [|reflexivity]. cbn [bind].
    destruct w as [w|];
      cbn [TimeBudgetOptimizer.weight TimeBudgetOptimizer.set_weight];
      match goal with
      | |- context [negb (Nat.eqb ?a ?b)] => destruct (Nat.eqb a b)
      end; reflexivity.
  - intros self l u. split; reflexivity.
  - exact Hopt.
  - intros self l u init maxiter eps ftol. apply Hopt.
Qed.

Lemma ratios_stored_not_used_witness :
  exists st,
    Example.by_time None None (Fin (1 # 20)) (Fin 5) = Ok st
    /\ TimeBudgetOptimizer.lb_ratio st = Fin (1 # 20)
    /\ TimeBudgetOptimizer.ub_ratio st = Fin 5.
Proof.
  eexists. split; [reflexivity|].
  destruct (ratios_stored_not_used Example.shell_of_record
              Example.start_point_solver) as (H & _).
  exact (H Example.model "2021-01-01"%string "2021-01-02"%string
           Example.sorted_channels (Fin 1) (Fin 10) None None
           (Fin (1 # 20)) (Fin 5) _ eq_refl).
Defined.

(* ================================================================== *)
(** ** Broadcasting *)

Lemma map_seq_ext : forall (A : Type) (f g : nat -> A) n,
  (forall i, (i < n)%nat -> f i = g i) ->
  map f (seq 0 n) = map g (seq 0 n).
Proof.
  intros A f g n H. apply map_ext_in. intros i Hi.
  apply in_seq in Hi. apply H. lia.
Qed.

Lemma map_seq_nth : forall (A B : Type) (F : A -> B) (d : A) l,
  map (fun i => F (nth i l d)) (seq 0 (length l)) = map F l.
Proof.
  intros A B F d l. rewrite <- (map_nth_seq A d l) at 2.
  now rewrite map_map.
Qed.

Lemma map_seq_const : forall (A : Type) (a : A) n,
  map (fun _ => a) (seq 0 n) = repeat a n.
Proof.
  intros A a n. generalize 0%nat.
  induction n as [|n IH]; intro k; cbn [seq map repeat]; [reflexivity|].
  now rewrite IH.
Qed.

Lemma nth_map_lt : forall (A B : Type) (f : A -> B) l i d d',
  (i < length l)%nat -> nth i (map f l) d' = f (nth i l d).
Proof.
  intros A B f l i d d' H.
  rewrite (nth_indep _ d' (f d)) by now rewrite length_map.
  apply map_nth.
Qed.

Lemma bidx_lt : forall n i, (i < n)%nat -> bidx n i = i.
Proof.
  intros n i H. unfold bidx. destruct (Nat.eqb n 1) eqn:E; [|reflexivity].
  apply Nat.eqb_eq in E. lia.
Qed.

Lemma broadcast_dim_same : forall n, broadcast_dim n n = Ok n.
Proof. intro n. unfold broadcast_dim. now rewrite Nat.eqb_refl. Qed.

Lemma broadcast_dim_1_l : forall n, broadcast_dim 1 n = Ok n.
Proof.
  intro n. unfold broadcast_dim. destruct (Nat.eqb 1 n) eqn:E.
  - apply Nat.eqb_eq in E. now subst.
  - reflexivity.
Qed.

Lemma broadcast_dim_1_r : forall n, broadcast_dim n 1 = Ok n.
Proof.
  intro n. unfold broadcast_dim. destruct (Nat.eqb n 1); reflexivity.
Qed.

Lemma entry_ones : forall r c i j,
  (i < r)%nat -> (j < c)%nat -> entry (np_ones2 r c) i j = fone.
Proof.
  intros r c i j Hi Hj. unfold entry, np_ones2, np_ones. cbn [rows].
  rewrite nth_repeat_lt by exact Hi. now rewrite nth_repeat_lt.
Qed.

Lemma entry_expand_dims : forall w i,
  (i < length w)%nat -> entry (expand_dims_last w) i 0 = nth i w fzero.
Proof.
  intros w i Hi. unfold entry, expand_dims_last. cbn [rows].
  now rewrite nth_map_lt with (d := fzero).
Qed.

Lemma broadcast_mul_unfold : forall a b r c,
  broadcast_dim (nrows a) (nrows b) = Ok r ->
  broadcast_dim (ncols a) (ncols b) = Ok c ->
  broadcast_mul a b
  = Ok (mkMatrix c
          (map (fun i =>
                  map (fun j =>
                         fmul (entry a (bidx (nrows a) i) (bidx (ncols a) j))
                              (entry b (bidx (nrows b) i) (bidx (ncols b) j)))
                      (seq 0 c))
               (seq 0 r))).
Proof.
  intros a b r c Hr Hc. unfold broadcast_mul. now rewrite Hr, Hc.
Qed.

(** One value per column against a grid of ones. *)
Lemma broadcast_row_ones : forall (a : array) s,
  broadcast_mul (as_row a) (np_ones2 s (length a))
  = Ok (mkMatrix (length a) (repeat (map (fun v => fmul v fone) a) s)).
Proof.
  intros a s.
  assert (nrows (np_ones2 s (length a)) = s) as Er
    by (unfold nrows, np_ones2; cbn [rows]; apply repeat_length).
  rewrite (broadcast_mul_unfold _ _ s (length a)).
  - do 2 f_equal. rewrite <- map_seq_const. apply map_seq_ext. intros i Hi.
    rewrite <- (map_seq_nth _ _ (fun v => fmul v fone) fzero a).
    apply map_seq_ext. intros j Hj.
    rewrite Er. cbn [ncols as_row np_ones2].
    rewrite (bidx_lt s i), (bidx_lt (length a) j) by assumption.
    rewrite entry_ones by assumption. reflexivity.
  - rewrite Er. apply broadcast_dim_1_l.
  - apply broadcast_dim_same.
Qed.

(** One weight per row against a grid whose rows are all the same. *)
Lemma broadcast_rows_weights : forall (row w : array),
  broadcast_mul (mkMatrix (length row) (repeat row (length w)))
                (expand_dims_last w)
  = Ok (mkMatrix (length row)
          (map (fun wt => map (fun v => fmul v wt) row) w)).
Proof.
  intros row w.
  assert (nrows (mkMatrix (length row) (repeat row (length w))) = length w)
    as Er by (unfold nrows; cbn [rows]; apply repeat_length).
  assert (nrows (expand_dims_last w) = length w) as Er'
    by (unfold nrows, expand_dims_last; cbn [rows]; apply length_map).
  rewrite (broadcast_mul_unfold _ _ (length w) (length row)).
  - do 2 f_equal. rewrite <- (map_seq_nth _ _ _ fzero w).
    apply map_seq_ext. intros i Hi.
    rewrite <- (map_seq_nth _ _ (fun v => fmul v (nth i w fzero)) fzero row).
    apply map_seq_ext. intros j Hj.
    rewrite Er, Er'. cbn [ncols expand_dims_last].
    rewrite (bidx_lt (length w) i), (bidx_lt (length row) j) by assumption.
    change (bidx 1 j) with 0%nat.
    rewrite entry_expand_dims by exact Hi. f_equal.
    unfold entry. cbn [rows]. now rewrite nth_repeat_lt.
  - rewrite Er, Er'. apply broadcast_dim_same.
  - apply broadcast_dim_1_r.
Qed.

(** One total per channel against a [(steps, channels)] grid, then one
    weight per step down the rows. *)
Lemma broadcast_channel_totals : forall (a w : array),
  (m <- broadcast_mul (as_row a) (np_ones2 (length w) (length a)) ;;
   broadcast_mul m (expand_dims_last w))
  = Ok (mkMatrix (length a)
          (map (fun wt => map (fun v => fmul (fmul v fone) wt) a) w)).
Proof.
  intros a w. rewrite broadcast_row_ones. cbn [bind].
  pose proof (broadcast_rows_weights (map (fun v => fmul v fone) a) w) as H.
  rewrite length_map in H. etransitivity; [exact H|]. do 2 f_equal.
  apply map_ext. intro wt. apply map_map.
Qed.

(** One value per row against a grid of ones. *)
Lemma broadcast_column_ones : forall (a : array) c,
  broadcast_mul (expand_dims_last a) (np_ones2 (length a) c)
  = Ok (mkMatrix c (map (fun v => repeat (fmul v fone) c) a)).
Proof.
  intros a c.
  assert (nrows (np_ones2 (length a) c) = length a) as Er
    by (unfold nrows, np_ones2; cbn [rows]; apply repeat_length).
  assert (nrows (expand_dims_last a) = length a) as Er'
    by (unfold nrows, expand_dims_last; cbn [rows]; apply length_map).
  rewrite (broadcast_mul_unfold _ _ (length a) c).
  - do 2 f_equal. rewrite <- (map_seq_nth _ _ _ fzero a).
    apply map_seq_ext. intros i Hi. rewrite <- map_seq_const.
    apply map_seq_ext. intros j Hj.
    rewrite Er, Er'. cbn [ncols expand_dims_last np_ones2].
    rewrite (bidx_lt (length a) i), (bidx_lt c j) by assumption.
    change (bidx 1 j) with 0%nat.
    rewrite entry_expand_dims, entry_ones by assumption. reflexivity.
  - rewrite Er, Er'. apply broadcast_dim_same.
  - apply broadcast_dim_1_l.
Qed.

(** One weight per column against a grid whose rows are constant. *)
Lemma broadcast_columns_weights : forall (f : float -> float) (a w : array),
  broadcast_mul
    (mkMatrix (length w) (map (fun v => repeat (f v) (length w)) a))
    (as_row w)
  = Ok (mkMatrix (length w)
          (map (fun v => map (fun wt => fmul (f v) wt) w) a)).
Proof.
  intros f a w.
  assert (nrows (mkMatrix (length w)
                   (map (fun v => repeat (f v) (length w)) a)) = length a)
    as Er by (unfold nrows; cbn [rows]; apply length_map).
  rewrite (broadcast_mul_unfold _ _ (length a) (length w)).
  - do 2 f_equal.
    rewrite <- (map_seq_nth _ _ (fun v => map (fun wt => fmul (f v) wt) w)
                  fzero a).
    apply map_seq_ext. intros i Hi.
    rewrite <- (map_seq_nth _ _ (fun wt => fmul (f (nth i a fzero)) wt)
                  fzero w).
    apply map_seq_ext. intros j Hj.
    rewrite Er. cbn [ncols as_row]. change (nrows (mkMatrix _ [w])) with 1%nat.
    rewrite (bidx_lt (length a) i), (bidx_lt (length w) j) by assumption.
    change (bidx 1 i) with 0%nat. f_equal.
    unfold entry. cbn [rows].
    rewrite nth_map_lt with (d := fzero) by exact Hi.
    now rewrite nth_repeat_lt.
  - rewrite Er. apply broadcast_dim_1_r.
  - apply broadcast_dim_same.
Qed.

(** One total per step down a [(steps, channels)] grid, then one weight
    per channel along the rows. *)
Lemma broadcast_step_totals : forall (a w : array),
  (m <- broadcast_mul (expand_dims_last a)
          (np_ones2 (length a) (length w)) ;;
   broadcast_mul m (as_row w))
  = Ok (mkMatrix (length w)
          (map (fun v => map (fun wt => fmul (fmul v fone) wt) w) a)).
Proof.
  intros a w. rewrite broadcast_column_ones. cbn [bind].
  apply (broadcast_columns_weights (fun v => fmul v fone)).
Qed.

(* ================================================================== *)
(** ** The reconstructed spend matrix *)

Lemma np_round_length : forall a d, length (np_round a d) = length a.
Proof. intros a d. apply length_map. Qed.

Lemma array_scale_length : forall a s, length (array_scale a s) = length a.
Proof. intros a s. apply length_map. Qed.

Lemma np_sum_axis0_length : forall m, length (np_sum_axis0 m) = ncols m.
Proof. intro m. unfold np_sum_axis0. now rewrite length_map, length_seq. Qed.

Lemma np_sum_axis1_length : forall m, length (np_sum_axis1 m) = nrows m.
Proof. intro m. unfold np_sum_axis1. apply length_map. Qed.

Lemma flatten_length : forall m,
  well_shaped m -> length (flatten m) = (nrows m * ncols m)%nat.
Proof.
  intros [c rs]. unfold well_shaped, flatten, nrows. cbn [rows ncols].
  induction 1 as [|r rs Hr _ IH]; [reflexivity|].
  cbn [concat length]. rewrite length_app, IH, Hr. reflexivity.
Qed.

Lemma array_div_length : forall a s, length (array_div a s) = length a.
Proof. intros a s. apply length_map. Qed.

Section Reconstruction.
Context {SV : Solver}.

(** The matrix the channel aggregate rebuilds, as a function of the
    totals it stores and of the weight. *)
Lemma ChannelBudgetOptimizer_reconstruction :
  forall obj self init maxiter eps ftol df' self',
    length (ChannelBudgetOptimizer.weight self)
    = ChannelBudgetOptimizer.n_budget_steps self ->
    ChannelBudgetOptimizer.optimize_with obj self init maxiter eps ftol
    = Ok (df', self') ->
    length (ChannelBudgetOptimizer.curr_spend_array self')
    = ChannelBudgetOptimizer.n_optim_channels self ->
    ChannelBudgetOptimizer.curr_spend_matrix self'
    = mkMatrix (ChannelBudgetOptimizer.n_optim_channels self)
        (map (fun wt =>
                map (fun v => round_scalar (fmul (fmul v fone) wt) 5)
                    (ChannelBudgetOptimizer.curr_spend_array self'))
             (ChannelBudgetOptimizer.weight self))
    /\ ChannelBudgetOptimizer.weight self'
       = ChannelBudgetOptimizer.weight self.
Proof.
  intros obj self init maxiter eps ftol df' self' Hw H Hlen.
  apply ChannelBudgetOptimizer_optimize_inv in H
    as (x0 & sol & m1 & m2 & _ & Hm1 & Hm2 & -> & _).
  cbn [ChannelBudgetOptimizer.curr_spend_array
         ChannelBudgetOptimizer.curr_spend_matrix
         ChannelBudgetOptimizer.weight
         ChannelBudgetOptimizer.set_curr] in *.
  split; [|reflexivity].
  rewrite <- Hw, <- Hlen in Hm1.
  pose proof (broadcast_channel_totals
                (np_round
                   (array_scale (x sol)
                      (ChannelBudgetOptimizer.spend_scaler self)) 5)
                (ChannelBudgetOptimizer.weight self)) as Hb.
  rewrite Hm1 in Hb. cbn [bind] in Hb. rewrite Hm2 in Hb.
  injection Hb as ->. unfold np_round2. cbn [ncols rows].
  rewrite Hlen. f_equal. rewrite map_map. apply map_ext. intro wt.
  unfold np_round at 1. now rewrite map_map.
Qed.

(** The same for the time aggregate. *)
Lemma TimeBudgetOptimizer_reconstruction :
  forall obj self init maxiter eps ftol df' self',
    length (TimeBudgetOptimizer.weight self)
    = TimeBudgetOptimizer.n_optim_channels self ->
    TimeBudgetOptimizer.optimize_with obj self init maxiter eps ftol
    = Ok (df', self') ->
    length (TimeBudgetOptimizer.curr_spend_array self')
    = TimeBudgetOptimizer.n_budget_steps self ->
    TimeBudgetOptimizer.curr_spend_matrix self'
    = mkMatrix (TimeBudgetOptimizer.n_optim_channels self)
        (map (fun v =>
                map (fun wt => round_scalar (fmul (fmul v fone) wt) 5)
                    (TimeBudgetOptimizer.weight self))
             (TimeBudgetOptimizer.curr_spend_array self'))
    /\ TimeBudgetOptimizer.weight self'
       = TimeBudgetOptimizer.weight self.
Proof.
  intros obj self init maxiter eps ftol df' self' Hw H Hlen.
  apply TimeBudgetOptimizer_optimize_inv in H
    as (x0 & sol & m1 & m2 & _ & Hm1 & Hm2 & -> & _).
  cbn [TimeBudgetOptimizer.curr_spend_array
         TimeBudgetOptimizer.curr_spend_matrix
         TimeBudgetOptimizer.weight
         TimeBudgetOptimizer.set_curr] in *.
  split; [|reflexivity].
  rewrite <- Hw, <- Hlen in Hm1.
  pose proof (broadcast_step_totals
                (np_round
                   (array_scale (x sol)
                      (TimeBudgetOptimizer.spend_scaler self)) 5)
                (TimeBudgetOptimizer.weight self)) as Hb.
  rewrite Hm1 in Hb. cbn [bind] in Hb. rewrite Hm2 in Hb.
  injection Hb as ->. unfold np_round2. cbn [ncols rows].
  rewrite Hw. f_equal. rewrite map_map. apply map_ext. intro v.
  unfold np_round at 1. now rewrite map_map.
Qed.

End Reconstruction.

Section AnswerShape.
Context {MS : ModelShell} {SV : Solver}.
Hypothesis Hshape : keeps_shape SV.

(** With a solver that keeps the shape of its starting point, the totals
    [optimize] stores are as many as the channels. *)
Lemma ChannelBudgetOptimizer_answer_length :
  forall model bs be ch rs ss ov w obj init maxiter eps ftol self df' self',
    ChannelBudgetOptimizer.__init__ model bs be ch rs ss ov w = Ok self ->
    (forall a, init = Some a ->
               length a = ChannelBudgetOptimizer.n_optim_channels self) ->
    ChannelBudgetOptimizer.optimize_with obj self init maxiter eps ftol
    = Ok (df', self') ->
    length (ChannelBudgetOptimizer.curr_spend_array self')
    = ChannelBudgetOptimizer.n_optim_channels self.
Proof.
  intros model bs be ch rs ss ov w obj init maxiter eps ftol self df' self'
         Hinit Hlen Hopt.
  apply ChannelBudgetOptimizer_init_inv in Hinit
    as (sh & m & _ & Hm & _ & _ & _ & _ & _ & Hia & Hn & _).
  apply loc_values_shape in Hm as (_ & Hnc & _).
  unfold ChannelBudgetOptimizer.optimize_with in Hopt.
  apply bind_Ok in Hopt as (sol & Hsol & Hopt).
  apply bind_Ok in Hopt as (m1 & _ & Hopt).
  apply bind_Ok in Hopt as (m2 & _ & Hopt).
  apply bind_Ok in Hopt as (d & _ & Hopt).
  injection Hopt as _ <-.
  cbn [ChannelBudgetOptimizer.curr_spend_array
         ChannelBudgetOptimizer.set_curr].
  rewrite np_round_length, array_scale_length.
  rewrite (Hshape _ _ _ _ _ _ _ Hsol).
  destruct init as [a|]; rewrite array_div_length.
  - now apply Hlen.
  - now rewrite Hia, np_sum_axis0_length, Hnc, Hn.
Qed.

(** The same for the time aggregate: one total per budget step. *)
Lemma TimeBudgetOptimizer_answer_length :
  forall model bs be ch rs ss ov w l u obj init maxiter eps ftol
         self df' self',
    TimeBudgetOptimizer.__init__ model bs be ch rs ss ov w l u = Ok self ->
    (forall a, init = Some a ->
               length a = TimeBudgetOptimizer.n_budget_steps self) ->
    TimeBudgetOptimizer.optimize_with obj self init maxiter eps ftol
    = Ok (df', self') ->
    length (TimeBudgetOptimizer.curr_spend_array self')
    = TimeBudgetOptimizer.n_budget_steps self.
Proof.
  intros model bs be ch rs ss ov w l u obj init maxiter eps ftol
         self df' self' Hinit Hlen Hopt.
  apply TimeBudgetOptimizer_init_inv in Hinit
    as (sh & m & _ & Hm & _ & _ & _ & _ & _ & Hia & _ & Hn & _).
  apply loc_values_shape in Hm as (_ & _ & Hnr).
  unfold TimeBudgetOptimizer.optimize_with in Hopt.
  apply bind_Ok in Hopt as (sol & Hsol & Hopt).
  apply bind_Ok in Hopt as (m1 & _ & Hopt).
  apply bind_Ok in Hopt as (m2 & _ & Hopt).
  apply bind_Ok in Hopt as (d & _ & Hopt).
  injection Hopt as _ <-.
  cbn [TimeBudgetOptimizer.curr_spend_array TimeBudgetOptimizer.set_curr].
  rewrite np_round_length, array_scale_length.
  rewrite (Hshape _ _ _ _ _ _ _ Hsol).
  destruct init as [a|]; rewrite array_div_length.
  - now apply Hlen.
  - now rewrite Hia, np_sum_axis1_length, Hnr, Hn.
Qed.

End AnswerShape.

Lemma start_point_solver_keeps_shape :
  keeps_shape Example.start_point_solver.
Proof.
  intros f x0 method b cs o sol H.
  cbn [minimize Example.start_point_solver] in H.
  apply bind_Ok in H as (v & _ & H).
  destruct (feasible b cs x0); [|discriminate].
  now injection H as <-.
Qed.

(** C2.  Take an aggregate allocator as its constructor leaves it, with the
    weight [w] it was given (or, when none was given, the weight the
    constructor computed), and a solver whose answer has the shape of its
    starting point; [init], when supplied, has one value per decision
    variable.  After [optimize] the matrix of the channel aggregate is, cell
    by cell, [total[c] * weight[t]] rounded to 5 decimals, and the matrix of
    the time aggregate is [total[t] * weight[c]] rounded to 5 decimals, where
    [total] is the array [get_current_state] now returns. *)
Theorem reconstruction_rule :
  forall (MS : ModelShell) (SV : Solver) model bs be ch rs ss ov w,
    keeps_shape SV ->
    (forall obj init maxiter eps ftol self df' self',
        ChannelBudgetOptimizer.__init__ model bs be ch rs ss ov w
        = Ok self ->
        (forall a, init = Some a ->
                   length a = ChannelBudgetOptimizer.n_optim_channels self) ->
        ChannelBudgetOptimizer.optimize_with obj self init maxiter eps ftol
        = Ok (df', self') ->
        let weight :=
          match w with
          | Some w0 => w0
          | None => ChannelBudgetOptimizer.weight self
          end in
        forall t c,
          (t < ChannelBudgetOptimizer.n_budget_steps self)%nat ->
          (c < ChannelBudgetOptimizer.n_optim_channels self)%nat ->
          entry (ChannelBudgetOptimizer.get_current_spend_matrix self') t c
          =f= round_scalar
                (fmul (nth c (ChannelBudgetOptimizer.get_current_state self')
                             fzero)
                      (nth t weight fzero))
                5)
    /\ (forall l u obj init maxiter eps ftol self df' self',
        TimeBudgetOptimizer.__init__ model bs be ch rs ss ov w l u
        = Ok self ->
        (forall a, init = Some a ->
                   length a = TimeBudgetOptimizer.n_budget_steps self) ->
        TimeBudgetOptimizer.optimize_with obj self init maxiter eps ftol
        = Ok (df', self') ->
        let weight :=
          match w with
          | Some w0 => w0
          | None => TimeBudgetOptimizer.weight self
          end in
        forall t c,
          (t < TimeBudgetOptimizer.n_budget_steps self)%nat ->
          (c < TimeBudgetOptimizer.n_optim_channels self)%nat ->
          entry (TimeBudgetOptimizer.get_current_spend_matrix self') t c
          =f= round_scalar
                (fmul (nth t (TimeBudgetOptimizer.get_current_state self')
                             fzero)
                      (nth c weight fzero))
                5).
Proof.
  intros MS SV model bs be ch rs ss ov w Hshape. split.
  - intros obj init maxiter eps ftol self df' self' Hinit Hlen Hopt
           weight t c Ht Hc.
    pose proof (ChannelBudgetOptimizer_answer_length Hshape
                  model bs be ch rs ss ov w obj init maxiter eps ftol
                  self df' self' Hinit Hlen Hopt) as Hal.
    apply ChannelBudgetOptimizer_init_inv in Hinit
      as (sh & m & _ & _ & _ & _ & _ & _ & _ & _ & _ & _ & _ & _ & _
          & Hw & Hwl).
    assert (weight = ChannelBudgetOptimizer.weight self) as ->
      by (subst weight; destruct w; [now rewrite Hw | reflexivity]).
    unfold ChannelBudgetOptimizer.get_current_state,
      ChannelBudgetOptimizer.get_current_spend_matrix in *.
    destruct (ChannelBudgetOptimizer_reconstruction
                obj self init maxiter eps ftol df' self' Hwl Hopt Hal)
      as (-> & _).
    unfold entry. cbn [rows].
    rewrite nth_map_lt with (d := fzero) by now rewrite Hwl.
    rewrite nth_map_lt with (d := fzero) by now rewrite Hal.
    now rewrite fmul_1_r.
  - intros l u obj init maxiter eps ftol self df' self' Hinit Hlen Hopt
           weight t c Ht Hc.
    pose proof (TimeBudgetOptimizer_answer_length Hshape
                  model bs be ch rs ss ov w l u obj init maxiter eps ftol
                  self df' self' Hinit Hlen Hopt) as Hal.
    apply TimeBudgetOptimizer_init_inv in Hinit
      as (sh & m & _ & _ & _ & _ & _ & _ & _ & _ & _ & _ & _ & _ & _
          & Hw & Hwl & _).
    assert (weight = TimeBudgetOptimizer.weight self) as ->
      by (subst weight; destruct w; [now rewrite Hw | reflexivity]).
    unfold TimeBudgetOptimizer.get_current_state,
      TimeBudgetOptimizer.get_current_spend_matrix in *.
    destruct (TimeBudgetOptimizer_reconstruction
                obj self init maxiter eps ftol df' self' Hwl Hopt Hal)
      as (-> & _).
    unfold entry. cbn [rows].
    rewrite nth_map_lt with (d := fzero) by now rewrite Hal.
    rewrite nth_map_lt with (d := fzero) by now rewrite Hwl.
    now rewrite fmul_1_r.
Qed.

Lemma reconstruction_rule_witness :
  keeps_shape Example.start_point_solver
  /\ entry (ChannelBudgetOptimizer.get_current_spend_matrix
              (snd Example.by_channel_halves_optimized)) 1 0
     =f= round_scalar
           (fmul (nth 0 (ChannelBudgetOptimizer.get_current_state
                           (snd Example.by_channel_halves_optimized)) fzero)
                 (nth 1 Example.halves fzero)) 5
  /\ entry (TimeBudgetOptimizer.get_current_spend_matrix
              (snd Example.by_time_halves_optimized)) 1 0
     =f= round_scalar
           (fmul (nth 1 (TimeBudgetOptimizer.get_current_state
                           (snd Example.by_time_halves_optimized)) fzero)
                 (nth 0 Example.halves fzero)) 5.
Proof.
  assert (Example.by_channel None (Some Example.halves)
          = Ok Example.by_channel_halves) as Ic by (vm_compute; reflexivity).
  assert (Example.by_time None (Some Example.halves) (Fin (1 # 20)) (Fin 5)
          = Ok Example.by_time_halves) as It by (vm_compute; reflexivity).
  assert (@ChannelBudgetOptimizer.optimize_with Example.start_point_solver
            Example.negated_spend Example.by_channel_halves None 2
            Example.eps Example.ftol
          = Ok (fst Example.by_channel_halves_optimized,
                snd Example.by_channel_halves_optimized)) as Oc
    by (vm_compute; reflexivity).
  assert (@TimeBudgetOptimizer.optimize_with Example.start_point_solver
            Example.negated_spend Example.by_time_halves None 2
            Example.eps Example.ftol
          = Ok (fst Example.by_time_halves_optimized,
                snd Example.by_time_halves_optimized)) as Ot
    by (vm_compute; reflexivity).
  assert (forall n : nat, forall a : array, @None array = Some a ->
            length a = n) as Hn by (intros n a H; discriminate H).
  destruct (reconstruction_rule Example.shell_of_record
              Example.start_point_solver Example.model
              "2021-01-01" "2021-01-02" Example.sorted_channels (Fin 1)
              (Fin 10) None (Some Example.halves)
              start_point_solver_keeps_shape) as (Hc & Ht).
  split; [exact start_point_solver_keeps_shape|]. split.
  - refine (Hc Example.negated_spend None 2%Z Example.eps Example.ftol
              Example.by_channel_halves
              (fst Example.by_channel_halves_optimized)
              (snd Example.by_channel_halves_optimized)
              Ic (Hn _) Oc 1%nat 0%nat _ _); cbn; lia.
  - refine (Ht (Fin (1 # 20)) (Fin 5) Example.negated_spend None 2%Z
              Example.eps Example.ftol Example.by_time_halves
              (fst Example.by_time_halves_optimized)
              (snd Example.by_time_halves_optimized)
              It (Hn _) Ot 1%nat 0%nat _ _); cbn; lia.
Defined.

(* ================================================================== *)
(** ** The spend after [optimize] *)

(** *** Signs and order *)

Lemma nonnegative_cases : forall v,
  nonnegative v -> (exists q, v = Fin q /\ 0 <= q) \/ v = PInf.
Proof.
  unfold nonnegative. intros [q| | |] H; cbn [fle fzero] in H;
    try discriminate; [left|right; reflexivity].
  exists q. split; [reflexivity|]. now apply Qle_bool_iff.
Qed.

Lemma nonnegative_Fin : forall q, 0 <= q -> nonnegative (Fin q).
Proof.
  intros q H. unfold nonnegative. cbn [fle fzero]. now apply Qle_bool_iff.
Qed.

Lemma inf_signed_pos : forall s, 0 < s -> inf_signed (Qcompare s 0) = PInf.
Proof.
  intros s Hs. destruct (Qcompare_spec s 0) as [H|H|H]; [lra|lra|].
  reflexivity.
Qed.

(** The product of a value that is not negative and a positive finite one
    is not negative. *)
Lemma nonnegative_fmul : forall v w,
  nonnegative v -> positive_finite w -> nonnegative (fmul v w).
Proof.
  intros v [s| | |] Hv Hw; cbn [positive_finite] in Hw; try contradiction.
  apply nonnegative_cases in Hv as [(q & -> & Hq)| ->]; cbn [fmul].
  - apply nonnegative_Fin. now apply Qmult_le_0_compat; [|apply Qlt_le_weak].
  - now rewrite inf_signed_pos.
Qed.

(** Multiplying by a positive finite number keeps the order. *)
Lemma fmul_le_compat : forall a b s,
  0 < s -> fle a b = true -> fle (fmul a (Fin s)) (fmul b (Fin s)) = true.
Proof.
  intros [p| | |] [q| | |] s Hs H; cbn [fle] in H; try discriminate;
    cbn [fmul]; rewrite ?inf_signed_pos by exact Hs;
    try (destruct (Qcompare_spec s 0) as [E|E|E]; [lra|lra|]);
    try reflexivity.
  cbn [fle]. apply Qle_bool_iff. apply Qle_bool_iff in H.
  apply Qmult_le_compat_r; [exact H | now apply Qlt_le_weak].
Qed.

Lemma fdiv_le_compat : forall a b s,
  0 < s -> fle a b = true -> fle (fdiv a (Fin s)) (fdiv b (Fin s)) = true.
Proof.
  intros a b s Hs H.
  assert (Qeq_bool s 0 = false) as Ez.
  { destruct (Qeq_bool s 0) eqn:E; [|reflexivity].
    apply Qeq_bool_iff in E. lra. }
  assert (Qle_bool 0 s = true) as El by (apply Qle_bool_iff; lra).
  destruct a as [p| | |], b as [q| | |]; cbn [fle] in H; try discriminate;
    cbn [fdiv]; rewrite ?Ez, ?El; try reflexivity.
  cbn [fle]. apply Qle_bool_iff. apply Qle_bool_iff in H.
  unfold Qdiv. apply Qmult_le_compat_r; [exact H|].
  apply Qlt_le_weak, Qinv_lt_0_compat, Hs.
Qed.

(** [rint] keeps the order. *)
Lemma rint_le_compat : forall q r, q <= r -> (rint q <= rint r)%Z.
Proof.
  intros q r H.
  pose proof (Qfloor_resp_le q r H) as Hf.
  assert (Qfloor q <= rint q <= Qfloor q + 1)%Z as Hq
    by (unfold rint; destruct (Qcompare _ _); try destruct (Z.even _); lia).
  assert (Qfloor r <= rint r <= Qfloor r + 1)%Z as Hr
    by (unfold rint; destruct (Qcompare _ _); try destruct (Z.even _); lia).
  destruct (Z.eq_dec (Qfloor q) (Qfloor r)) as [E|E]; [|lia].
  unfold rint. rewrite <- E.
  destruct (Qcompare_spec (q - inject_Z (Qfloor q)) (1 # 2)) as [Eq|Eq|Eq];
    destruct (Qcompare_spec (r - inject_Z (Qfloor q)) (1 # 2)) as [Er|Er|Er];
    try destruct (Z.even (Qfloor q)); try lia; lra.
Qed.

Lemma frint_le_compat : forall a b,
  fle a b = true -> fle (frint a) (frint b) = true.
Proof.
  intros [p| | |] [q| | |] H; cbn [fle] in H; try discriminate;
    cbn [frint fle]; try reflexivity.
  apply Qle_bool_iff. apply Qle_bool_iff in H.
  rewrite <- Zle_Qle. now apply rint_le_compat.
Qed.

(** [np.round] keeps the order, and so the sign. *)
Lemma round_scalar_le_compat : forall a b d,
  fle a b = true -> fle (round_scalar a d) (round_scalar b d) = true.
Proof.
  intros a b d H. unfold round_scalar, pow10.
  apply fdiv_le_compat; [apply pow10_pos|].
  apply frint_le_compat, fmul_le_compat; [apply pow10_pos | exact H].
Qed.

Lemma round_scalar_zero : forall d, round_scalar fzero d =f= fzero.
Proof.
  intro d. unfold fzero. rewrite round_scalar_Fin. cbn [feq].
  rewrite Qmult_0_l. change (rint 0) with 0%Z.
  unfold Qdiv. now rewrite Qmult_0_l.
Qed.

Lemma nonnegative_round : forall v d,
  nonnegative v -> nonnegative (round_scalar v d).
Proof.
  unfold nonnegative. intros v d H.
  rewrite <- (round_scalar_zero d).
  now apply round_scalar_le_compat.
Qed.

(** *** Arrays within their bounds *)

Lemma forallb2_zeros : forall n xs,
  forallb2 fle (np_zeros n) xs = true ->
  length xs = n /\ Forall nonnegative xs.
Proof.
  unfold np_zeros. induction n as [|n IH]; intros [|v xs] H;
    cbn [repeat forallb2] in H; try discriminate.
  - split; [reflexivity | constructor].
  - apply andb_true_iff in H as (Hv & Hx). apply IH in Hx as (Hl & Hf).
    split; [cbn [length]; now f_equal | now constructor].
Qed.

Lemma forallb2_fle_Forall2 : forall xs ys,
  forallb2 fle xs ys = true -> Forall2 (fun a b => fle a b = true) xs ys.
Proof.
  induction xs as [|a xs IH]; intros [|b ys] H; cbn [forallb2] in H;
    try discriminate; constructor.
  - now apply andb_true_iff in H.
  - apply IH. now apply andb_true_iff in H.
Qed.

Lemma Forall2_map_r_const : forall (xs ys : array) (F : float -> float) u,
  Forall2 (fun a b => fle a b = true) xs (map F ys) ->
  (forall y, In y ys -> F y = u) ->
  Forall (fun a => fle a u = true) xs.
Proof.
  induction xs as [|a xs IH]; intros [|y ys] F u H Hu; inversion H; subst;
    constructor.
  - rewrite <- (Hu y) by now left. assumption.
  - apply (IH ys F); [assumption|]. intros z Hz. apply Hu. now right.
Qed.

Lemma chunks_Forall : forall (P : float -> Prop) n c xs,
  Forall P xs -> Forall (Forall P) (chunks n c xs).
Proof.
  intros P. induction n as [|n IH]; intros c xs H; cbn [chunks];
    [constructor|].
  rewrite <- (firstn_skipn c xs) in H. apply Forall_app in H as [H1 H2].
  constructor; [exact H1 | now apply IH].
Qed.

Lemma reshape_cols_Forall : forall (P : float -> Prop) xs c m,
  reshape_cols xs c = Ok m -> Forall P xs -> Forall (Forall P) (rows m).
Proof.
  intros P xs c m H Hx. unfold reshape_cols in H.
  destruct (Nat.eqb c 0); [discriminate|].
  destruct (Nat.eqb (length xs mod c) 0); [|discriminate].
  injection H as <-. cbn [rows]. now apply chunks_Forall.
Qed.

Lemma Forall_rows_map : forall (P Q : float -> Prop) (F : float -> float) rs,
  (forall v, P v -> Q (F v)) ->
  Forall (Forall P) rs -> Forall (Forall Q) (map (map F) rs).
Proof.
  intros P Q F rs HF H. apply Forall_map.
  eapply Forall_impl; [|exact H]. intros r Hr. apply Forall_map.
  eapply Forall_impl; [|exact Hr]. exact HF.
Qed.

(** *** Broadcast products *)

Lemma broadcast_dim_bidx : forall n n' r i,
  broadcast_dim n n' = Ok r -> (i < r)%nat ->
  (bidx n i < n)%nat /\ (bidx n' i < n')%nat.
Proof.
  intros n n' r i H Hi. unfold broadcast_dim in H. unfold bidx.
  destruct (Nat.eqb n n') eqn:E.
  - apply Nat.eqb_eq in E. injection H as <-. subst n'.
    destruct (Nat.eqb n 1) eqn:E1; [apply Nat.eqb_eq in E1|]; lia.
  - destruct (Nat.eqb n 1) eqn:E1.
    + apply Nat.eqb_eq in E1. injection H as <-.
      destruct (Nat.eqb n' 1) eqn:E2; [apply Nat.eqb_eq in E2|]; lia.
    + destruct (Nat.eqb n' 1) eqn:E2; [|discriminate].
      apply Nat.eqb_eq in E2. injection H as <-. lia.
Qed.

Lemma entry_Forall : forall (P : float -> Prop) m i j,
  well_shaped m -> Forall (Forall P) (rows m) ->
  (i < nrows m)%nat -> (j < ncols m)%nat -> P (entry m i j).
Proof.
  intros P m i j Hws HP Hi Hj. unfold entry, nrows, well_shaped in *.
  rewrite Forall_forall in Hws, HP.
  assert (In (nth i (rows m) []) (rows m)) as Hin by now apply nth_In.
  specialize (HP _ Hin). rewrite Forall_forall in HP. apply HP.
  apply nth_In. now rewrite (Hws _ Hin).
Qed.

(** Every cell of a broadcast product is the product of a cell of each
    factor. *)
Lemma broadcast_mul_Forall : forall (P Q R : float -> Prop) a b m,
  (forall u v, P u -> Q v -> R (fmul u v)) ->
  well_shaped a -> well_shaped b ->
  Forall (Forall P) (rows a) -> Forall (Forall Q) (rows b) ->
  broadcast_mul a b = Ok m -> Forall (Forall R) (rows m).
Proof.
  intros P Q R a b m HR Ha Hb HP HQ H. unfold broadcast_mul in H.
  apply bind_Ok in H as (r & Hr & H). apply bind_Ok in H as (c & Hc & H).
  injection H as <-. cbn [rows].
  apply Forall_map, Forall_forall. intros i Hi.
  apply in_seq in Hi as [_ Hi]. cbn [Nat.add] in Hi.
  apply Forall_map, Forall_forall. intros j Hj.
  apply in_seq in Hj as [_ Hj]. cbn [Nat.add] in Hj.
  destruct (broadcast_dim_bidx _ _ _ i Hr Hi) as (Hia & Hib).
  destruct (broadcast_dim_bidx _ _ _ j Hc Hj) as (Hja & Hjb).
  apply HR; now apply entry_Forall.
Qed.

Lemma broadcast_mul_well_shaped : forall a b m,
  broadcast_mul a b = Ok m -> well_shaped m.
Proof.
  intros a b m H. unfold broadcast_mul in H.
  apply bind_Ok in H as (r & _ & H). apply bind_Ok in H as (c & _ & H).
  injection H as <-. unfold well_shaped. cbn [rows ncols].
  apply Forall_forall. intros row Hrow.
  apply in_map_iff in Hrow as (i & <- & _).
  now rewrite length_map, length_seq.
Qed.

Lemma as_row_well_shaped : forall a, well_shaped (as_row a).
Proof. intro a. unfold well_shaped, as_row. cbn [rows ncols]. now constructor. Qed.

Lemma expand_dims_last_well_shaped : forall a,
  well_shaped (expand_dims_last a).
Proof.
  intro a. unfold well_shaped, expand_dims_last. cbn [rows ncols].
  apply Forall_map, Forall_forall. reflexivity.
Qed.

Lemma np_ones2_well_shaped : forall r c, well_shaped (np_ones2 r c).
Proof.
  intros r c. unfold well_shaped, np_ones2, np_ones. cbn [rows ncols].
  apply Forall_forall. intros row H. apply repeat_spec in H. subst row.
  apply repeat_length.
Qed.

Lemma np_ones2_Forall : forall r c,
  Forall (Forall positive_finite) (rows (np_ones2 r c)).
Proof.
  intros r c. unfold np_ones2, np_ones. cbn [rows].
  apply Forall_forall. intros row H. apply repeat_spec in H. subst row.
  apply Forall_forall. intros v H. apply repeat_spec in H. subst v.
  reflexivity.
Qed.

Lemma expand_dims_last_Forall : forall (P : float -> Prop) a,
  Forall P a -> Forall (Forall P) (rows (expand_dims_last a)).
Proof.
  intros P a H. unfold expand_dims_last. cbn [rows].
  apply Forall_map. eapply Forall_impl; [|exact H].
  intros v Hv. now constructor.
Qed.

Lemma np_round2_Forall : forall m d,
  Forall (Forall nonnegative) (rows m) ->
  Forall (Forall nonnegative) (rows (np_round2 m d)).
Proof.
  intros m d H. unfold np_round2, np_round. cbn [rows].
  apply (Forall_rows_map nonnegative nonnegative); [|exact H].
  intros v Hv. now apply nonnegative_round.
Qed.

(** *** The three allocators *)

Section SpendAfterOptimize.
Context {MS : ModelShell} {SV : Solver}.
Hypothesis Hbounds : returns_within_bounds SV.

Lemma scaled_rounded_rows : forall m s,
  rows (np_round2 (matrix_scale m s) 5)
  = map (map (fun v => round_scalar (fmul v s) 5)) (rows m).
Proof.
  intros m s. unfold np_round2, matrix_scale, np_round, array_scale.
  cbn [rows]. rewrite map_map. apply map_ext. intro r. apply map_map.
Qed.

Lemma BudgetOptimizer_spend_bounds :
  forall model bs be ch rs s ov obj init maxiter eps ftol self df' self',
    BudgetOptimizer.__init__ model bs be ch rs (Fin s) ov = Ok self ->
    0 < s ->
    BudgetOptimizer.optimize_with obj self init maxiter eps ftol
    = Ok (df', self') ->
    Forall (Forall nonnegative)
           (rows (BudgetOptimizer.get_current_state self'))
    /\ Forall
         (Forall
            (fun v =>
               fle v (round_scalar
                        (fmul (fdiv (fmul fone
                                       (BudgetOptimizer.total_budget self))
                                    (Fin s))
                              (Fin s)) 5)
               = true))
         (rows (BudgetOptimizer.get_current_state self')).
Proof.
  intros model bs be ch rs s ov obj init maxiter eps ftol self df' self'
         Hinit Hs Hopt.
  apply BudgetOptimizer_init_inv in Hinit
    as (sh & m & _ & _ & _ & _ & Hss & _ & _ & _ & _ & _ & _ & _ & Hb).
  unfold BudgetOptimizer.optimize_with in Hopt.
  apply bind_Ok in Hopt as (sol & Hsol & Hopt).
  apply bind_Ok in Hopt as (m' & Hm' & Hopt).
  apply bind_Ok in Hopt as (d & _ & Hopt).
  injection Hopt as _ <-.
  apply Hbounds in Hsol. rewrite Hb in Hsol. unfold within_bounds in Hsol.
  cbn [Bounds.lb Bounds.ub] in Hsol.
  apply andb_true_iff in Hsol as (Hlo & Hup).
  apply forallb2_zeros in Hlo as (_ & Hlo).
  apply forallb2_fle_Forall2 in Hup.
  unfold array_div, array_scale in Hup. rewrite map_map in Hup.
  apply (Forall2_map_r_const _ _ _
           (fdiv (fmul fone (BudgetOptimizer.total_budget self)) (Fin s)))
    in Hup;
    [|intros y Hy; apply repeat_spec in Hy; now subst y].
  unfold BudgetOptimizer.get_current_state.
  cbn [BudgetOptimizer.curr_spend_matrix
         BudgetOptimizer.set_curr_spend_matrix].
  rewrite Hss, scaled_rounded_rows. split.
  - apply (Forall_rows_map nonnegative nonnegative).
    + intros v Hv. apply nonnegative_round.
      now apply nonnegative_fmul.
    + eapply reshape_cols_Forall; eassumption.
  - eapply Forall_rows_map;
      [|eapply reshape_cols_Forall; [exact Hm' | exact Hup]].
    intros v Hv. cbn beta in Hv.
    now apply round_scalar_le_compat, fmul_le_compat.
Qed.

Lemma rounded_totals_nonnegative : forall xs s,
  0 < s -> Forall nonnegative xs ->
  Forall nonnegative (np_round (array_scale xs (Fin s)) 5).
Proof.
  intros xs s Hs H. unfold np_round, array_scale.
  apply Forall_map, Forall_map. eapply Forall_impl; [|exact H].
  intros v Hv. now apply nonnegative_round, nonnegative_fmul.
Qed.

Lemma ChannelBudgetOptimizer_spend_nonnegative :
  forall model bs be ch rs s ov w obj init maxiter eps ftol self df' self',
    ChannelBudgetOptimizer.__init__ model bs be ch rs (Fin s) ov w
    = Ok self ->
    0 < s ->
    Forall positive_finite (ChannelBudgetOptimizer.weight self) ->
    ChannelBudgetOptimizer.optimize_with obj self init maxiter eps ftol
    = Ok (df', self') ->
    Forall (Forall nonnegative)
           (rows (ChannelBudgetOptimizer.get_current_spend_matrix self')).
Proof.
  intros model bs be ch rs s ov w obj init maxiter eps ftol self df' self'
         Hinit Hs Hw Hopt.
  apply ChannelBudgetOptimizer_init_inv in Hinit
    as (sh & m & _ & _ & _ & _ & Hss & _ & _ & _ & _ & _ & _ & _ & Hb & _).
  unfold ChannelBudgetOptimizer.optimize_with in Hopt.
  apply bind_Ok in Hopt as (sol & Hsol & Hopt).
  apply bind_Ok in Hopt as (m1 & Hm1 & Hopt).
  apply bind_Ok in Hopt as (m2 & Hm2 & Hopt).
  apply bind_Ok in Hopt as (d & _ & Hopt).
  injection Hopt as _ <-.
  apply Hbounds in Hsol. rewrite Hb in Hsol. unfold within_bounds in Hsol.
  cbn [Bounds.lb] in Hsol. apply andb_true_iff in Hsol as (Hlo & _).
  apply forallb2_zeros in Hlo as (_ & Hlo).
  rewrite Hss in Hm1.
  pose proof (rounded_totals_nonnegative _ s Hs Hlo) as Harr.
  unfold ChannelBudgetOptimizer.get_current_spend_matrix.
  cbn [ChannelBudgetOptimizer.curr_spend_matrix
         ChannelBudgetOptimizer.set_curr].
  apply np_round2_Forall.
  eapply (broadcast_mul_Forall nonnegative positive_finite nonnegative);
    [exact nonnegative_fmul | | | | | exact Hm2].
  - eapply broadcast_mul_well_shaped, Hm1.
  - apply expand_dims_last_well_shaped.
  - eapply (broadcast_mul_Forall nonnegative positive_finite nonnegative);
      [exact nonnegative_fmul | | | | | exact Hm1].
    + apply as_row_well_shaped.
    + apply np_ones2_well_shaped.
    + unfold as_row. cbn [rows]. constructor; [exact Harr | constructor].
    + apply np_ones2_Forall.
  - now apply expand_dims_last_Forall.
Qed.

Lemma TimeBudgetOptimizer_spend_nonnegative :
  forall model bs be ch rs s ov w l u obj init maxiter eps ftol
         self df' self',
    TimeBudgetOptimizer.__init__ model bs be ch rs (Fin s) ov w l u
    = Ok self ->
    0 < s ->
    Forall positive_finite (TimeBudgetOptimizer.weight self) ->
    TimeBudgetOptimizer.optimize_with obj self init maxiter eps ftol
    = Ok (df', self') ->
    Forall (Forall nonnegative)
           (rows (TimeBudgetOptimizer.get_current_spend_matrix self')).
Proof.
  intros model bs be ch rs s ov w l u obj init maxiter eps ftol
         self df' self' Hinit Hs Hw Hopt.
  apply TimeBudgetOptimizer_init_inv in Hinit
    as (sh & m & _ & _ & _ & _ & Hss & _ & _ & _ & _ & _ & _ & _ & Hb & _).
  unfold TimeBudgetOptimizer.optimize_with in Hopt.
  apply bind_Ok in Hopt as (sol & Hsol & Hopt).
  apply bind_Ok in Hopt as (m1 & Hm1 & Hopt).
  apply bind_Ok in Hopt as (m2 & Hm2 & Hopt).
  apply bind_Ok in Hopt as (d & _ & Hopt).
  injection Hopt as _ <-.
  apply Hbounds in Hsol. rewrite Hb in Hsol. unfold within_bounds in Hsol.
  cbn [Bounds.lb] in Hsol. apply andb_true_iff in Hsol as (Hlo & _).
  apply forallb2_zeros in Hlo as (_ & Hlo).
  rewrite Hss in Hm1.
  pose proof (rounded_totals_nonnegative _ s Hs Hlo) as Harr.
  unfold TimeBudgetOptimizer.get_current_spend_matrix.
  cbn [TimeBudgetOptimizer.curr_spend_matrix TimeBudgetOptimizer.set_curr].
  apply np_round2_Forall.
  eapply (broadcast_mul_Forall nonnegative positive_finite nonnegative);
    [exact nonnegative_fmul | | | | | exact Hm2].
  - eapply broadcast_mul_well_shaped, Hm1.
  - apply as_row_well_shaped.
  - eapply (broadcast_mul_Forall nonnegative positive_finite nonnegative);
      [exact nonnegative_fmul | | | | | exact Hm1].
    + apply expand_dims_last_well_shaped.
    + apply np_ones2_well_shaped.
    + now apply expand_dims_last_Forall.
    + apply np_ones2_Forall.
  - unfold as_row. cbn [rows]. constructor; [exact Hw | constructor].
Qed.

End SpendAfterOptimize.

Lemma start_point_solver_feasible :
  returns_feasible Example.start_point_solver.
Proof.
  intros f x0 method b cs o sol H.
  cbn [minimize Example.start_point_solver] in H.
  apply bind_Ok in H as (v & _ & H).
  destruct (feasible b cs x0) eqn:E; [|discriminate].
  injection H as <-. exact E.
Qed.

Lemma start_point_solver_within_bounds :
  returns_within_bounds Example.start_point_solver.
Proof.
  intros f x0 method b cs o sol H.
  apply start_point_solver_feasible in H. unfold feasible in H.
  now apply andb_true_iff in H.
Qed.




(** [optimize] does not look at the solver's status either: an answer that
    breaks the total-budget constraint is rebuilt all the same, here to twice
    the budget in the full grid. *)
Lemma unconverged_answer_exceeds_budget :
  fmap (fun r =>
          fgt (np_sum_all (BudgetOptimizer.curr_spend_matrix (snd r)))
              (fadd (BudgetOptimizer.total_budget (snd r)) (Fin 9)))
       (@BudgetOptimizer.optimize_with Example.unconverged_solver
          Example.negated_spend Example.full_grid_instance None 2 None
          Example.ftol)
  = Ok true.
Proof. vm_compute. reflexivity. Qed.

(* ================================================================== *)
(** * Further properties *)

(** ** What [optimize] leaves alone *)

(** X1.  [optimize] assigns [curr_spend_matrix] (and [curr_spend_array]) and
    nothing else: the total budget, the constraints, the bounds, the weight,
    the initial matrix and the data container of the instance are the same
    after the call, whether it returns or raises.  The container it returns
    is a copy: [get_df] still gives the data as they were. *)
Theorem optimize_frame :
  forall (SV : Solver),
    (forall obj self init maxiter eps ftol,
        let self' :=
          state_after self
            (BudgetOptimizer.optimize_with obj self init maxiter eps ftol) in
        BudgetOptimizer.get_total_budget self'
        = BudgetOptimizer.get_total_budget self
        /\ BudgetOptimizer.constraints self'
           = BudgetOptimizer.constraints self
        /\ BudgetOptimizer.budget_bounds self'
           = BudgetOptimizer.budget_bounds self
        /\ BudgetOptimizer.init_spend_matrix self'
           = BudgetOptimizer.init_spend_matrix self
        /\ BudgetOptimizer.get_df self' = BudgetOptimizer.get_df self)
    /\ (forall obj self init maxiter eps ftol,
        let self' :=
          state_after self
            (ChannelBudgetOptimizer.optimize_with obj self init maxiter eps
               ftol) in
        ChannelBudgetOptimizer.get_total_budget self'
        = ChannelBudgetOptimizer.get_total_budget self
        /\ ChannelBudgetOptimizer.constraints self'
           = ChannelBudgetOptimizer.constraints self
        /\ ChannelBudgetOptimizer.budget_bounds self'
           = ChannelBudgetOptimizer.budget_bounds self
        /\ ChannelBudgetOptimizer.weight self'
           = ChannelBudgetOptimizer.weight self
        /\ ChannelBudgetOptimizer.get_init_spend_matrix self'
           = ChannelBudgetOptimizer.get_init_spend_matrix self
        /\ ChannelBudgetOptimizer.get_df self'
           = ChannelBudgetOptimizer.get_df self)
    /\ (forall obj self init maxiter eps ftol,
        let self' :=
          state_after self
            (TimeBudgetOptimizer.optimize_with obj self init maxiter eps
               ftol) in
        TimeBudgetOptimizer.get_total_budget self'
        = TimeBudgetOptimizer.get_total_budget self
        /\ TimeBudgetOptimizer.constraints self'
           = TimeBudgetOptimizer.constraints self
        /\ TimeBudgetOptimizer.budget_bounds self'
           = TimeBudgetOptimizer.budget_bounds self
        /\ TimeBudgetOptimizer.weight self'
           = TimeBudgetOptimizer.weight self
        /\ TimeBudgetOptimizer.get_init_spend_matrix self'
           = TimeBudgetOptimizer.get_init_spend_matrix self
        /\ TimeBudgetOptimizer.get_df self'
           = TimeBudgetOptimizer.get_df self).
Proof.
  intro SV. split; [|split]; intros obj self init maxiter eps ftol self';
    subst self'.
  - destruct (BudgetOptimizer.optimize_with _ _ _ _ _ _) as [[d s]|e] eqn:E;
      cbn [state_after]; [|repeat split].
    apply BudgetOptimizer_optimize_inv in E
      as (x0 & sol & m & _ & _ & -> & _).
    repeat split.
  - destruct (ChannelBudgetOptimizer.optimize_with _ _ _ _ _ _)
      as [[d s]|e] eqn:E; cbn [state_after]; [|repeat split].
    apply ChannelBudgetOptimizer_optimize_inv in E
      as (x0 & sol & m1 & m2 & _ & _ & _ & -> & _).
    repeat split.
  - destruct (TimeBudgetOptimizer.optimize_with _ _ _ _ _ _)
      as [[d s]|e] eqn:E; cbn [state_after]; [|repeat split].
    apply TimeBudgetOptimizer_optimize_inv in E
      as (x0 & sol & m1 & m2 & _ & _ & _ & -> & _).
    repeat split.
Qed.

(** ** Dimensions after construction *)

(** X2.  The window read at construction has one row per budget step and one
    column per optimized channel, and everything handed to the solver by
    default has one entry per decision variable: the starting point, both
    bounds, and the coefficients of the only constraint in place. *)
Theorem dimensions_agree :
  forall (MS : ModelShell) model bs be ch rs ss ov,
    (forall self,
        BudgetOptimizer.__init__ model bs be ch rs ss ov = Ok self ->
        let n := (BudgetOptimizer.n_budget_steps self
                  * BudgetOptimizer.n_optim_channels self)%nat in
        well_shaped (BudgetOptimizer.get_init_state self)
        /\ nrows (BudgetOptimizer.get_init_state self)
           = BudgetOptimizer.n_budget_steps self
        /\ ncols (BudgetOptimizer.get_init_state self)
           = BudgetOptimizer.n_optim_channels self
        /\ BudgetOptimizer.get_current_state self
           = BudgetOptimizer.get_init_state self
        /\ length (array_div (flatten (BudgetOptimizer.init_spend_matrix self))
                             (BudgetOptimizer.spend_scaler self)) = n
        /\ length (Bounds.lb (BudgetOptimizer.budget_bounds self)) = n
        /\ length (Bounds.ub (BudgetOptimizer.budget_bounds self)) = n
        /\ exists c,
            BudgetOptimizer.constraints self = [c]
            /\ length (LinearConstraint.A c) = n)
    /\ (forall w self,
        ChannelBudgetOptimizer.__init__ model bs be ch rs ss ov w = Ok self ->
        let n := ChannelBudgetOptimizer.n_optim_channels self in
        well_shaped (ChannelBudgetOptimizer.get_init_spend_matrix self)
        /\ nrows (ChannelBudgetOptimizer.get_init_spend_matrix self)
           = ChannelBudgetOptimizer.n_budget_steps self
        /\ ncols (ChannelBudgetOptimizer.get_init_spend_matrix self) = n
        /\ length (ChannelBudgetOptimizer.weight self)
           = ChannelBudgetOptimizer.n_budget_steps self
        /\ length (array_div (ChannelBudgetOptimizer.get_init_state self)
                             (ChannelBudgetOptimizer.spend_scaler self)) = n
        /\ length (Bounds.lb (ChannelBudgetOptimizer.budget_bounds self)) = n
        /\ length (Bounds.ub (ChannelBudgetOptimizer.budget_bounds self)) = n
        /\ exists c,
            ChannelBudgetOptimizer.constraints self = [c]
            /\ length (LinearConstraint.A c) = n)
    /\ (forall w l u self,
        TimeBudgetOptimizer.__init__ model bs be ch rs ss ov w l u = Ok self ->
        let n := TimeBudgetOptimizer.n_budget_steps self in
        well_shaped (TimeBudgetOptimizer.get_init_spend_matrix self)
        /\ nrows (TimeBudgetOptimizer.get_init_spend_matrix self) = n
        /\ ncols (TimeBudgetOptimizer.get_init_spend_matrix self)
           = TimeBudgetOptimizer.n_optim_channels self
        /\ length (TimeBudgetOptimizer.weight self)
           = TimeBudgetOptimizer.n_optim_channels self
        /\ length (array_div (TimeBudgetOptimizer.get_init_state self)
                             (TimeBudgetOptimizer.spend_scaler self)) = n
        /\ length (Bounds.lb (TimeBudgetOptimizer.budget_bounds self)) = n
        /\ length (Bounds.ub (TimeBudgetOptimizer.budget_bounds self)) = n
        /\ exists c,
            TimeBudgetOptimizer.constraints self = [c]
            /\ length (LinearConstraint.A c) = n).
Proof.
  intros MS model bs be ch rs ss ov. split; [|split].
  - intros self H n.
    apply BudgetOptimizer_init_inv in H
      as (sh & m & _ & Hl & _ & _ & Hss & _ & Hm & Hc & Hn & Hs & _ & Hcs
          & Hb).
    apply loc_values_shape in Hl as (Hws & Hnc & Hnr).
    unfold BudgetOptimizer.get_init_state, BudgetOptimizer.get_current_state.
    rewrite Hm, Hc. subst n. rewrite Hn, Hs in *.
    repeat split; try assumption.
    + rewrite array_div_length, flatten_length by assumption.
      now rewrite Hnc, Hnr.
    + rewrite Hb. cbn [Bounds.lb]. apply repeat_length.
    + rewrite Hb. cbn [Bounds.ub]. unfold array_div, array_scale.
      rewrite !length_map. apply repeat_length.
    + eexists. split; [exact Hcs|].
      cbn [BudgetOptimizer.generate_total_budget_constraint
             LinearConstraint.A].
      rewrite Hn, Hs. apply repeat_length.
  - intros w self H n.
    apply ChannelBudgetOptimizer_init_inv in H
      as (sh & m & _ & Hl & _ & _ & _ & _ & Hm & Ha & Hn & Hs & _ & Hcs & Hb
          & _ & Hw).
    apply loc_values_shape in Hl as (Hws & Hnc & Hnr).
    unfold ChannelBudgetOptimizer.get_init_spend_matrix,
      ChannelBudgetOptimizer.get_init_state.
    rewrite Hm, Ha. subst n. rewrite Hs in *. rewrite Hn in *.
    repeat split; try assumption.
    + now rewrite array_div_length, np_sum_axis0_length.
    + rewrite Hb. cbn [Bounds.lb]. apply repeat_length.
    + rewrite Hb. cbn [Bounds.ub]. unfold array_scale.
      rewrite length_map. apply repeat_length.
    + eexists. split; [exact Hcs|].
      cbn [ChannelBudgetOptimizer.generate_total_budget_constraint
             LinearConstraint.A].
      rewrite Hn. apply repeat_length.
  - intros w l u self H n.
    apply TimeBudgetOptimizer_init_inv in H
      as (sh & m & _ & Hl & _ & _ & _ & _ & Hm & Ha & Hn & Hs & _ & Hcs & Hb
          & _ & Hw & _).
    apply loc_values_shape in Hl as (Hws & Hnc & Hnr).
    unfold TimeBudgetOptimizer.get_init_spend_matrix,
      TimeBudgetOptimizer.get_init_state.
    rewrite Hm, Ha. subst n. rewrite Hs in *. rewrite Hn in *.
    repeat split; try assumption.
    + now rewrite array_div_length, np_sum_axis1_length.
    + rewrite Hb. cbn [Bounds.lb]. apply repeat_length.
    + rewrite Hb. cbn [Bounds.ub]. unfold array_scale.
      rewrite length_map. apply repeat_length.
    + eexists. split; [exact Hcs|].
      cbn [TimeBudgetOptimizer.generate_total_budget_constraint
             LinearConstraint.A].
      rewrite Hs. apply repeat_length.
Qed.

(** ** Where construction can fail *)

Lemma Example_full_grid_ok :
  Example.full_grid None = Ok Example.full_grid_instance.
Proof. vm_compute. reflexivity. Qed.

Lemma Example_by_channel_ok :
  Example.by_channel None None = Ok Example.by_channel_instance.
Proof. vm_compute. reflexivity. Qed.

Lemma Example_by_time_ok :
  Example.by_time None None (Fin (1 # 20)) (Fin 5)
  = Ok Example.by_time_instance.
Proof. vm_compute. reflexivity. Qed.

Lemma dimensions_agree_witness :
  nrows (BudgetOptimizer.get_init_state Example.full_grid_instance) = 2%nat
  /\ length (Bounds.ub (BudgetOptimizer.budget_bounds
                          Example.full_grid_instance)) = 4%nat
  /\ length (ChannelBudgetOptimizer.weight Example.by_channel_instance)
     = 2%nat
  /\ length (Bounds.lb (TimeBudgetOptimizer.budget_bounds
                          Example.by_time_instance)) = 2%nat.
Proof.
  destruct (dimensions_agree Example.shell_of_record Example.model
              "2021-01-01" "2021-01-02" Example.channels
              (Fin 1) (Fin 10) None) as (Hb & _ & _).
  destruct (dimensions_agree Example.shell_of_record Example.model
              "2021-01-01" "2021-01-02" Example.sorted_channels
              (Fin 1) (Fin 10) None) as (_ & Hc & Ht).
  specialize (Hb _ Example_full_grid_ok).
  specialize (Hc None _ Example_by_channel_ok).
  specialize (Ht None (Fin (1 # 20)) (Fin 5) _ Example_by_time_ok).
  cbv zeta in Hb, Hc, Ht.
  destruct Hb as (_ & Hb1 & _ & _ & _ & _ & Hb2 & _).
  destruct Hc as (_ & _ & _ & Hc1 & _).
  destruct Ht as (_ & _ & _ & _ & _ & Ht1 & _).
  repeat split; assumption.
Defined.

(** X3.  Construction adds one failure of its own to those of the parent class
    and of the window read: the length check of the weight.  The full grid
    has none.  The default weight of the time aggregate, one share per
    column of the window, always passes the check; the default weight of the
    channel aggregate is [base_comp_input] divided by its sum, and passes
    exactly when the parent class left one base value per budget step. *)
Theorem construction_succeeds :
  forall (MS : ModelShell) model bs be rs ss ov ch sh m,
    (MMMShell__init__ model (sort ch) bs be = Ok sh ->
     loc_values (df sh) (input_mask sh) (sort ch) = Ok m ->
     exists self, BudgetOptimizer.__init__ model bs be ch rs ss ov = Ok self)
    /\ (MMMShell__init__ model ch bs be = Ok sh ->
        loc_values (df sh) (input_mask sh) ch = Ok m ->
        forall l u,
        exists self,
          TimeBudgetOptimizer.__init__ model bs be ch rs ss ov None l u
          = Ok self
          /\ TimeBudgetOptimizer.weight self
             = array_div (np_sum_axis0 m) (np_sum_all m))
    /\ (MMMShell__init__ model ch bs be = Ok sh ->
        loc_values (df sh) (input_mask sh) ch = Ok m ->
        length (base_comp_input sh) = count_true (input_mask sh) ->
        exists self,
          ChannelBudgetOptimizer.__init__ model bs be ch rs ss ov None
          = Ok self
          /\ ChannelBudgetOptimizer.weight self
             = array_div (base_comp_input sh) (np_sum (base_comp_input sh)))
    /\ (MMMShell__init__ model ch bs be = Ok sh ->
        loc_values (df sh) (input_mask sh) ch = Ok m ->
        length (base_comp_input sh) <> count_true (input_mask sh) ->
        ChannelBudgetOptimizer.__init__ model bs be ch rs ss ov None
        = Raise channel_weight_error).
Proof.
  intros MS model bs be rs ss ov ch sh m. split; [|split; [|split]].
  - intros Hsh Hm'. unfold BudgetOptimizer.__init__.
    rewrite Hsh. cbn [bind]. rewrite Hm'. cbn [bind]. eexists. reflexivity.
  - intros Hsh Hm l u. unfold TimeBudgetOptimizer.__init__.
    rewrite Hsh. cbn [bind]. rewrite Hm. cbn [bind].
    cbn [TimeBudgetOptimizer.weight TimeBudgetOptimizer.set_weight].
    rewrite array_div_length, np_sum_axis0_length.
    apply loc_values_shape in Hm as (_ & -> & _).
    rewrite Nat.eqb_refl. cbn [negb]. eexists. split; reflexivity.
  - intros Hsh Hm Hlen. unfold ChannelBudgetOptimizer.__init__.
    rewrite Hsh. cbn [bind]. rewrite Hm. cbn [bind].
    cbn [ChannelBudgetOptimizer.weight ChannelBudgetOptimizer.set_weight].
    rewrite array_div_length, Hlen, Nat.eqb_refl. cbn [negb].
    eexists. split; reflexivity.
  - intros Hsh Hm Hlen. unfold ChannelBudgetOptimizer.__init__.
    rewrite Hsh. cbn [bind]. rewrite Hm. cbn [bind].
    cbn [ChannelBudgetOptimizer.weight ChannelBudgetOptimizer.set_weight].
    rewrite array_div_length. apply Nat.eqb_neq in Hlen. rewrite Hlen.
    reflexivity.
Qed.

Lemma construction_succeeds_witness :
  (exists self, Example.full_grid None = Ok self)
  /\ (exists self,
        Example.by_time None None (Fin 1) (Fin 2) = Ok self
        /\ TimeBudgetOptimizer.weight self
           = array_div
               (np_sum_axis0
                  (mkMatrix 2 [[Fin 1; Fin 2]; [Fin 3; Fin 4]]))
               (np_sum_all (mkMatrix 2 [[Fin 1; Fin 2]; [Fin 3; Fin 4]])))
  /\ (exists self, Example.by_channel None None = Ok self
        /\ ChannelBudgetOptimizer.weight self
           = array_div [Fin 1; Fin 3] (np_sum [Fin 1; Fin 3]))
  /\ @ChannelBudgetOptimizer.__init__ Example.shell_of_record
       (mkMMMShell (df Example.model) (input_mask Example.model) "" ""
          [Fin 1; Fin 3; Fin 5])
       "2021-01-01" "2021-01-02" Example.sorted_channels (Fin 1) (Fin 10)
       None None
     = Raise channel_weight_error.
Proof.
  pose (sh := mkMMMShell (df Example.model) (input_mask Example.model)
                "2021-01-01" "2021-01-02" (base_comp_input Example.model)).
  pose (m := mkMatrix 2 [[Fin 1; Fin 2]; [Fin 3; Fin 4]]).
  destruct (construction_succeeds Example.shell_of_record Example.model
              "2021-01-01" "2021-01-02" (Fin 1) (Fin 10) None
              Example.sorted_channels sh m) as (_ & Ht & Hc & _).
  destruct (construction_succeeds Example.shell_of_record Example.model
              "2021-01-01" "2021-01-02" (Fin 1) (Fin 10) None
              Example.channels sh m) as (Hb & _).
  pose (sh' := mkMMMShell (df Example.model) (input_mask Example.model)
                 "2021-01-01" "2021-01-02" [Fin 1; Fin 3; Fin 5]).
  destruct (construction_succeeds Example.shell_of_record
              (mkMMMShell (df Example.model) (input_mask Example.model)
                 "" "" [Fin 1; Fin 3; Fin 5])
              "2021-01-01" "2021-01-02" (Fin 1) (Fin 10) None
              Example.sorted_channels sh' m) as (_ & _ & _ & Hc').
  split; [exact (Hb eq_refl eq_refl)|].
  split; [exact (Ht eq_refl eq_refl (Fin 1) (Fin 2))|].
  split; [exact (Hc eq_refl eq_refl eq_refl)|].
  apply Hc'; [reflexivity|reflexivity|]. cbn. lia.
Defined.

(* ================================================================== *)
(** ** The data container [optimize] returns *)

Lemma index_of_Some : forall name cols j,
  index_of name cols = Some j ->
  (j < length cols)%nat /\ nth j cols ""%string = name.
Proof.
  intros name. induction cols as [|c cols IH]; intros j H; cbn in H.
  - discriminate.
  - destruct (String.eqb c name) eqn:E.
    + injection H as <-. apply String.eqb_eq in E.
      split; [cbn; lia | exact E].
    + destruct (index_of name cols) as [k|]; [|discriminate].
      injection H as <-. destruct (IH k eq_refl) as (Hk & Hn).
      split; [cbn; lia | exact Hn].
Qed.

Lemma column_indices_spec : forall names cols js,
  column_indices names cols = Ok js ->
  Forall (fun j => (j < length cols)%nat) js
  /\ map (fun j => nth j cols ""%string) js = names.
Proof.
  induction names as [|n names IH]; intros cols js H; cbn in H.
  - injection H as <-. split; [constructor | reflexivity].
  - destruct (index_of n cols) as [j|] eqn:Ej; [|discriminate].
    apply bind_Ok in H as (js' & Hjs & H). injection H as <-.
    apply index_of_Some in Ej as (Hj & Hn).
    destruct (IH _ _ Hjs) as (Hlt & Hmap).
    split; [now constructor | cbn [map]; now rewrite Hn, Hmap].
Qed.

Lemma column_indices_NoDup : forall names cols js,
  column_indices names cols = Ok js -> NoDup names -> NoDup js.
Proof.
  intros names cols js H Hnd.
  apply column_indices_spec in H as (_ & Hmap). subst names.
  now apply NoDup_map_inv in Hnd.
Qed.

Lemma column_indices_In : forall names cols js j,
  column_indices names cols = Ok js -> In j js ->
  In (nth j cols ""%string) names.
Proof.
  intros names cols js j H Hj.
  apply column_indices_spec in H as (_ & <-).
  now apply (in_map (fun k => nth k cols ""%string)).
Qed.

Lemma replace_nth_length : forall (A : Type) j (v : A) l,
  length (replace_nth j v l) = length l.
Proof.
  intros A j v l. revert j.
  induction l as [|a l IH]; intros [|j]; cbn; auto.
Qed.

Lemma nth_replace_nth_eq : forall (A : Type) j (v d : A) l,
  (j < length l)%nat -> nth j (replace_nth j v l) d = v.
Proof.
  intros A j v d l. revert j.
  induction l as [|a l IH]; intros [|j] H; cbn in *; try lia; auto.
  apply IH. lia.
Qed.

Lemma nth_replace_nth_neq : forall (A : Type) i j (v d : A) l,
  i <> j -> nth i (replace_nth j v l) d = nth i l d.
Proof.
  intros A i j v d l. revert i j.
  induction l as [|a l IH]; intros [|i] [|j] H; cbn; auto; try lia.
Qed.

Lemma assign_row_length : forall js vals r,
  length (assign_row js vals r) = length r.
Proof.
  induction js as [|j js IH]; intros [|v vals] r; cbn; auto.
  now rewrite IH, replace_nth_length.
Qed.

(** A row keeps its values in the columns that are not assigned. *)
Lemma assign_row_other : forall js vals r i,
  ~ In i js -> nth i (assign_row js vals r) fzero = nth i r fzero.
Proof.
  induction js as [|j js IH]; intros [|v vals] r i Hi; cbn; auto.
  rewrite IH by (intro; apply Hi; now right).
  apply nth_replace_nth_neq. intro. apply Hi. now left.
Qed.

(** It reads back the values assigned to distinct columns it has. *)
Lemma assign_row_read : forall js vals r,
  NoDup js -> Forall (fun j => (j < length r)%nat) js ->
  length vals = length js ->
  map (fun j => nth j (assign_row js vals r) fzero) js = vals.
Proof.
  induction js as [|j js IH]; intros [|v vals] r Hnd Hlt Hlen;
    try discriminate; [reflexivity|].
  inversion Hnd as [|? ? Hnin Hnd']; subst.
  inversion Hlt as [|? ? Hj Hlt']; subst.
  cbn [assign_row map]. f_equal.
  - rewrite assign_row_other by exact Hnin.
    now apply nth_replace_nth_eq.
  - apply IH; [exact Hnd'| |cbn in Hlen; lia].
    apply Forall_forall. intros k Hk. rewrite replace_nth_length.
    rewrite Forall_forall in Hlt'. auto.
Qed.

Lemma count_true_cons : forall b mask,
  count_true (b :: mask)
  = if b then S (count_true mask) else count_true mask.
Proof. intros [|] mask; reflexivity. Qed.

Lemma assign_rows_length : forall mask js vals l,
  length (assign_rows mask js vals l) = length l.
Proof.
  induction mask as [|b mask IH]; intros js vals [|r l]; cbn; auto.
  destruct b; [destruct vals|]; cbn; now rewrite ?IH.
Qed.

Lemma assign_rows_row_length : forall mask js vals l n,
  Forall (fun r => length r = n) l ->
  Forall (fun r => length r = n) (assign_rows mask js vals l).
Proof.
  induction mask as [|b mask IH]; intros js vals [|r l] n H; cbn; auto.
  inversion H as [|? ? Hr Hl]; subst.
  destruct b; [destruct vals as [|v vals]|]; constructor; auto.
  now rewrite assign_row_length.
Qed.

(** The selected rows read back, in the assigned columns, the values
    assigned. *)
Lemma assign_rows_read : forall mask js vals l,
  NoDup js ->
  Forall (fun r => Forall (fun j => (j < length r)%nat) js) l ->
  Forall (fun v => length v = length js) vals ->
  length mask = length l ->
  length vals = count_true mask ->
  map (fun r => map (fun j => nth j r fzero) js)
      (select_rows mask (assign_rows mask js vals l))
  = vals.
Proof.
  induction mask as [|b mask IH]; intros js vals [|r l] Hnd Hl Hv Hlen Hcount;
    try discriminate.
  - destruct vals; [reflexivity | discriminate].
  - inversion Hl as [|? ? Hr Hl']; subst. injection Hlen as Hlen.
    rewrite count_true_cons in Hcount. destruct b.
    + destruct vals as [|v vals]; [discriminate|].
      inversion Hv as [|? ? Hv1 Hv']; subst.
      cbn [assign_rows select_rows map]. f_equal.
      * now apply assign_row_read.
      * apply IH; auto.
    + cbn [assign_rows select_rows]. apply IH; auto.
Qed.

(** The other rows are the same. *)
Lemma assign_rows_unselected : forall mask js vals l i,
  nth i mask false = false ->
  nth i (assign_rows mask js vals l) [] = nth i l [].
Proof.
  induction mask as [|b mask IH]; intros js vals [|r l] i Hi; cbn; auto.
  destruct b.
  - destruct i as [|i]; [discriminate|]. cbn in Hi.
    destruct vals as [|v vals]; cbn; auto.
  - destruct i as [|i]; cbn; auto.
Qed.

Lemma broadcast_rows_same : forall n m,
  nrows m = n -> broadcast_rows n m = Ok (rows m).
Proof.
  intros n m H. unfold broadcast_rows. now rewrite H, Nat.eqb_refl.
Qed.

Lemma loc_assign_inv : forall d mask names m d',
  loc_assign d mask names m = Ok d' ->
  exists js vals,
    length mask = length (data d)
    /\ column_indices names (columns d) = Ok js
    /\ ncols m = length names
    /\ broadcast_rows (count_true mask) m = Ok vals
    /\ d' = mkDataFrame (columns d) (assign_rows mask js vals (data d)).
Proof.
  intros d mask names m d' H. unfold loc_assign in H.
  destruct (Nat.eqb (length mask) (length (data d))) eqn:E; [|discriminate].
  cbn [negb] in H. apply Nat.eqb_eq in E.
  apply bind_Ok in H as (js & Hjs & H).
  destruct (Nat.eqb (ncols m) (length names)) eqn:E2; [|discriminate].
  cbn [negb] in H. apply Nat.eqb_eq in E2.
  apply bind_Ok in H as (vals & Hvals & H). injection H as <-.
  exists js, vals. repeat split; assumption.
Qed.

(** Reading the window of a container back after an assignment gives the
    matrix assigned, when it has one row per selected row. *)
Lemma loc_assign_values : forall d mask names m d',
  well_formed d -> NoDup names -> well_shaped m ->
  nrows m = count_true mask ->
  loc_assign d mask names m = Ok d' ->
  loc_values d' mask names = Ok m.
Proof.
  intros d mask names m d' Hwf Hnd Hws Hnr H.
  apply loc_assign_inv in H as (js & vals & Hlen & Hjs & Hnc & Hv & ->).
  rewrite (broadcast_rows_same _ _ Hnr) in Hv. injection Hv as <-.
  unfold loc_values. cbn [data columns].
  rewrite assign_rows_length, Hlen, Nat.eqb_refl. cbn [negb].
  rewrite Hjs. cbn [bind]. f_equal.
  destruct m as [c rs]. cbn [ncols rows] in *. subst c. f_equal.
  pose proof (column_indices_spec _ _ _ Hjs) as (Hlt & _).
  apply assign_rows_read; auto.
  - now apply (column_indices_NoDup names (columns d)).
  - apply Forall_forall. intros r Hr. unfold well_formed in Hwf.
    rewrite Forall_forall in Hwf. rewrite (Hwf r Hr). exact Hlt.
  - unfold well_shaped in Hws. cbn [rows ncols] in Hws.
    apply Forall_forall. intros v Hv. rewrite Forall_forall in Hws.
    rewrite (Hws v Hv). symmetry.
    now apply (column_indices_length names (columns d)).
Qed.

(** The assignment keeps the labels and the number of rows, the rows
    outside the mask, and what is read from any columns other than the
    assigned ones. *)
Lemma loc_assign_frame : forall d mask names m d',
  loc_assign d mask names m = Ok d' ->
  columns d' = columns d
  /\ length (data d') = length (data d)
  /\ (well_formed d -> well_formed d')
  /\ (forall i, nth i mask false = false ->
        nth i (data d') [] = nth i (data d) [])
  /\ (forall names' mask',
        (forall n, In n names' -> ~ In n names) ->
        loc_values d' mask' names' = loc_values d mask' names').
Proof.
  intros d mask names m d' H.
  apply loc_assign_inv in H as (js & vals0 & Hlen & Hjs & Hnc & Hnr & ->).
  cbn [columns data]. split; [reflexivity|].
  split; [apply assign_rows_length|]. split; [|split].
  - unfold well_formed. cbn [columns data]. apply assign_rows_row_length.
  - intros i Hi. now apply assign_rows_unselected.
  - intros names' mask' Hdisj. unfold loc_values. cbn [columns data].
    rewrite assign_rows_length.
    destruct (negb (Nat.eqb (length mask') (length (data d))));
      [reflexivity|].
    destruct (column_indices names' (columns d)) as [js'|e] eqn:Ejs';
      [|reflexivity].
    cbn [bind]. do 2 f_equal.
    assert (forall k, In k js' -> ~ In k js) as Hk.
    { intros k Hk Hk'.
      apply (column_indices_In _ _ _ _ Ejs') in Hk.
      apply (column_indices_In _ _ _ _ Hjs) in Hk'.
      exact (Hdisj _ Hk Hk'). }
    clear Ejs' Hlen Hnr. revert mask' Hdisj.
    generalize vals0 as vals. generalize (data d) as l.
    induction mask as [|b mask IH]; intros l vals mask' Hdisj.
    + destruct l; reflexivity.
    + destruct l as [|r l]; [reflexivity|]. cbn [assign_rows].
      destruct mask' as [|b' mask']; [destruct b; [destruct vals|];
        reflexivity|].
      assert (forall v, map (fun j => nth j (assign_row js v r) fzero) js'
                        = map (fun j => nth j r fzero) js') as Hrow.
      { intro v. apply map_ext_in. intros k Hin.
        apply assign_row_other. auto. }
      destruct b; [destruct vals as [|v vals]|]; cbn [select_rows];
        destruct b'; cbn [map]; rewrite ?Hrow; try reflexivity;
        try (f_equal; apply IH; exact Hdisj); try (apply IH; exact Hdisj).
Qed.

Lemma chunks_row_length : forall n c (xs : array),
  length xs = (n * c)%nat -> Forall (fun r => length r = c) (chunks n c xs).
Proof.
  induction n as [|n IH]; intros c xs H; cbn [chunks]; constructor.
  - rewrite length_firstn, H. cbn [Nat.mul]. lia.
  - apply IH. rewrite length_skipn, H. cbn [Nat.mul]. lia.
Qed.

Lemma reshape_cols_well_shaped : forall xs c m,
  reshape_cols xs c = Ok m -> well_shaped m.
Proof.
  intros xs c m H. unfold reshape_cols in H.
  destruct (Nat.eqb c 0) eqn:Ec; [discriminate|].
  destruct (Nat.eqb (length xs mod c) 0) eqn:Em; [|discriminate].
  injection H as <-. apply Nat.eqb_neq in Ec. apply Nat.eqb_eq in Em.
  unfold well_shaped. cbn [rows ncols]. apply chunks_row_length.
  pose proof (Nat.div_mod (length xs) c Ec) as Hd. lia.
Qed.

Lemma np_round2_well_shaped : forall m d,
  well_shaped m -> well_shaped (np_round2 m d).
Proof.
  intros m d H. unfold well_shaped, np_round2 in *. cbn [rows ncols].
  apply Forall_forall. intros r Hr. apply in_map_iff in Hr as (r0 & <- & Hin).
  rewrite np_round_length. rewrite Forall_forall in H. auto.
Qed.

Lemma matrix_scale_well_shaped : forall m s,
  well_shaped m -> well_shaped (matrix_scale m s).
Proof.
  intros m s H. unfold well_shaped, matrix_scale in *. cbn [rows ncols].
  apply Forall_forall. intros r Hr. apply in_map_iff in Hr as (r0 & <- & Hin).
  rewrite array_scale_length. rewrite Forall_forall in H. auto.
Qed.

Section Returned.
Context {SV : Solver}.

(** The matrix [optimize] stores has the shape it claims. *)
Lemma optimized_matrix_well_shaped :
  (forall obj self init maxiter eps ftol df' self',
      BudgetOptimizer.optimize_with obj self init maxiter eps ftol
      = Ok (df', self') ->
      well_shaped (BudgetOptimizer.curr_spend_matrix self'))
  /\ (forall obj self init maxiter eps ftol df' self',
      ChannelBudgetOptimizer.optimize_with obj self init maxiter eps ftol
      = Ok (df', self') ->
      well_shaped (ChannelBudgetOptimizer.curr_spend_matrix self'))
  /\ (forall obj self init maxiter eps ftol df' self',
      TimeBudgetOptimizer.optimize_with obj self init maxiter eps ftol
      = Ok (df', self') ->
      well_shaped (TimeBudgetOptimizer.curr_spend_matrix self')).
Proof.
  split; [|split]; intros obj self init maxiter eps ftol df' self' H.
  - apply BudgetOptimizer_optimize_inv in H
      as (x0 & sol & m & _ & Hm & -> & _).
    cbn [BudgetOptimizer.curr_spend_matrix
           BudgetOptimizer.set_curr_spend_matrix].
    apply np_round2_well_shaped, matrix_scale_well_shaped.
    eapply reshape_cols_well_shaped, Hm.
  - apply ChannelBudgetOptimizer_optimize_inv in H
      as (x0 & sol & m1 & m2 & _ & _ & Hm2 & -> & _).
    cbn [ChannelBudgetOptimizer.curr_spend_matrix
           ChannelBudgetOptimizer.set_curr].
    eapply np_round2_well_shaped, broadcast_mul_well_shaped, Hm2.
  - apply TimeBudgetOptimizer_optimize_inv in H
      as (x0 & sol & m1 & m2 & _ & _ & Hm2 & -> & _).
    cbn [TimeBudgetOptimizer.curr_spend_matrix TimeBudgetOptimizer.set_curr].
    eapply np_round2_well_shaped, broadcast_mul_well_shaped, Hm2.
Qed.

Lemma optimize_returns_assignment :
  (forall obj self init maxiter eps ftol df' self',
      BudgetOptimizer.optimize_with obj self init maxiter eps ftol
      = Ok (df', self') ->
      loc_assign (BudgetOptimizer.get_df self)
        (BudgetOptimizer.budget_mask self)
        (BudgetOptimizer.optim_channels self)
        (BudgetOptimizer.curr_spend_matrix self') = Ok df')
  /\ (forall obj self init maxiter eps ftol df' self',
      ChannelBudgetOptimizer.optimize_with obj self init maxiter eps ftol
      = Ok (df', self') ->
      loc_assign (ChannelBudgetOptimizer.get_df self)
        (ChannelBudgetOptimizer.budget_mask self)
        (ChannelBudgetOptimizer.optim_channels self)
        (ChannelBudgetOptimizer.curr_spend_matrix self') = Ok df')
  /\ (forall obj self init maxiter eps ftol df' self',
      TimeBudgetOptimizer.optimize_with obj self init maxiter eps ftol
      = Ok (df', self') ->
      loc_assign (TimeBudgetOptimizer.get_df self)
        (TimeBudgetOptimizer.budget_mask self)
        (TimeBudgetOptimizer.optim_channels self)
        (TimeBudgetOptimizer.curr_spend_matrix self') = Ok df').
Proof.
  split; [|split]; intros obj self init maxiter eps ftol df' self' H.
  - apply BudgetOptimizer_optimize_inv in H
      as (x0 & sol & m & _ & _ & _ & Hd). exact Hd.
  - apply ChannelBudgetOptimizer_optimize_inv in H
      as (x0 & sol & m1 & m2 & _ & _ & _ & _ & Hd). exact Hd.
  - apply TimeBudgetOptimizer_optimize_inv in H
      as (x0 & sol & m1 & m2 & _ & _ & _ & _ & Hd). exact Hd.
Qed.

End Returned.

(** *** The shape of the matrix [optimize] stores *)

Lemma chunks_length : forall n c (xs : array), length (chunks n c xs) = n.
Proof.
  induction n as [|n IH]; intros c xs; cbn [chunks length];
    [reflexivity | now rewrite IH].
Qed.

Lemma reshape_cols_nrows : forall xs c n m,
  reshape_cols xs c = Ok m -> length xs = (n * c)%nat -> nrows m = n.
Proof.
  intros xs c n m H Hlen. unfold reshape_cols in H.
  destruct (Nat.eqb c 0) eqn:Ec; [discriminate|].
  destruct (Nat.eqb (length xs mod c) 0); [|discriminate].
  injection H as <-. apply Nat.eqb_neq in Ec.
  unfold nrows. cbn [rows]. rewrite chunks_length, Hlen.
  now apply Nat.div_mul.
Qed.

Lemma broadcast_mul_nrows : forall a b m,
  broadcast_mul a b = Ok m ->
  broadcast_dim (nrows a) (nrows b) = Ok (nrows m).
Proof.
  intros a b m H. unfold broadcast_mul in H.
  apply bind_Ok in H as (r & Hr & H). apply bind_Ok in H as (c & _ & H).
  injection H as <-. unfold nrows at 3. cbn [rows].
  now rewrite length_map, length_seq.
Qed.

Lemma broadcast_dim_cases : forall a b r,
  broadcast_dim a b = Ok r -> r = b \/ (b = 1%nat /\ r = a).
Proof.
  intros a b r H. unfold broadcast_dim in H.
  destruct (Nat.eqb a b) eqn:E.
  - apply Nat.eqb_eq in E. injection H as <-. now left.
  - destruct (Nat.eqb a 1); [injection H as <-; now left|].
    destruct (Nat.eqb b 1) eqn:E1; [|discriminate].
    apply Nat.eqb_eq in E1. injection H as <-. now right.
Qed.

Lemma broadcast_rows_cases : forall n m vals,
  broadcast_rows n m = Ok vals -> nrows m = n \/ nrows m = 1%nat.
Proof.
  intros n m vals H. unfold broadcast_rows in H.
  destruct (Nat.eqb (nrows m) n) eqn:E; [apply Nat.eqb_eq in E; now left|].
  destruct (Nat.eqb (nrows m) 1) eqn:E1; [|discriminate].
  apply Nat.eqb_eq in E1. now right.
Qed.

Lemma np_round2_nrows : forall m d, nrows (np_round2 m d) = nrows m.
Proof. intros m d. unfold nrows, np_round2. cbn [rows]. apply length_map. Qed.

Lemma matrix_scale_nrows : forall m s, nrows (matrix_scale m s) = nrows m.
Proof.
  intros m s. unfold nrows, matrix_scale. cbn [rows]. apply length_map.
Qed.

Section StoredShape.
Context {MS : ModelShell} {SV : Solver}.

(** In the full grid the matrix has one row per budget step when the
    solver keeps the shape of its starting point. *)
Lemma BudgetOptimizer_stored_nrows :
  keeps_shape SV ->
  forall model bs be ch rs ss ov obj init maxiter eps ftol self df' self',
    BudgetOptimizer.__init__ model bs be ch rs ss ov = Ok self ->
    (forall a, init = Some a ->
               length (flatten a)
               = (BudgetOptimizer.n_budget_steps self
                  * BudgetOptimizer.n_optim_channels self)%nat) ->
    BudgetOptimizer.optimize_with obj self init maxiter eps ftol
    = Ok (df', self') ->
    nrows (BudgetOptimizer.curr_spend_matrix self')
    = count_true (BudgetOptimizer.budget_mask self).
Proof.
  intros Hshape model bs be ch rs ss ov obj init maxiter eps ftol
         self df' self' Hinit Hlen Hopt.
  apply BudgetOptimizer_init_inv in Hinit
    as (sh & m & _ & Hm & _ & _ & _ & Hmask & Him & _ & Hn & Ht & _).
  apply loc_values_shape in Hm as (Hws & Hnc & Hnr).
  unfold BudgetOptimizer.optimize_with in Hopt.
  apply bind_Ok in Hopt as (sol & Hsol & Hopt).
  apply bind_Ok in Hopt as (m' & Hm' & Hopt).
  apply bind_Ok in Hopt as (d & _ & Hopt).
  injection Hopt as _ <-.
  cbn [BudgetOptimizer.curr_spend_matrix
         BudgetOptimizer.set_curr_spend_matrix].
  rewrite np_round2_nrows, matrix_scale_nrows, Hmask, <- Ht.
  apply (reshape_cols_nrows _ _ _ _ Hm').
  rewrite (Hshape _ _ _ _ _ _ _ Hsol).
  destruct init as [a|]; rewrite array_div_length.
  - now apply Hlen.
  - rewrite Him, (flatten_length m Hws), Hnr, Hnc, Ht, Hn. reflexivity.
Qed.

(** In the channel aggregate the weight, one value per step, gives the
    matrix its rows. *)
Lemma ChannelBudgetOptimizer_stored_nrows :
  forall model bs be ch rs ss ov w obj init maxiter eps ftol self df' self',
    ChannelBudgetOptimizer.__init__ model bs be ch rs ss ov w = Ok self ->
    ChannelBudgetOptimizer.optimize_with obj self init maxiter eps ftol
    = Ok (df', self') ->
    nrows (ChannelBudgetOptimizer.curr_spend_matrix self')
    = count_true (ChannelBudgetOptimizer.budget_mask self).
Proof.
  intros model bs be ch rs ss ov w obj init maxiter eps ftol self df' self'
         Hinit Hopt.
  apply ChannelBudgetOptimizer_init_inv in Hinit
    as (sh & m & _ & _ & _ & _ & _ & Hmask & _ & _ & _ & Ht & _ & _ & _
        & _ & Hwl).
  apply ChannelBudgetOptimizer_optimize_inv in Hopt
    as (x0 & sol & m1 & m2 & _ & Hm1 & Hm2 & -> & _).
  cbn [ChannelBudgetOptimizer.curr_spend_matrix
         ChannelBudgetOptimizer.set_curr].
  rewrite np_round2_nrows, Hmask, <- Ht.
  apply broadcast_mul_nrows in Hm1, Hm2.
  assert (nrows (np_ones2 (ChannelBudgetOptimizer.n_budget_steps self)
                   (ChannelBudgetOptimizer.n_optim_channels self))
          = ChannelBudgetOptimizer.n_budget_steps self) as E1
    by (unfold nrows, np_ones2; cbn [rows]; apply repeat_length).
  assert (nrows (expand_dims_last (ChannelBudgetOptimizer.weight self))
          = ChannelBudgetOptimizer.n_budget_steps self) as E2
    by (unfold nrows, expand_dims_last; cbn [rows];
        now rewrite length_map).
  rewrite E1 in Hm1. rewrite E2 in Hm2.
  change (nrows (as_row ?a)) with 1%nat in Hm1.
  rewrite broadcast_dim_1_l in Hm1. injection Hm1 as Hm1.
  rewrite <- Hm1, broadcast_dim_same in Hm2. now injection Hm2 as <-.
Qed.

(** In the time aggregate the rows come from the totals; the assignment
    to the container settles their number. *)
Lemma TimeBudgetOptimizer_stored_nrows :
  forall model bs be ch rs ss ov w l u obj init maxiter eps ftol
         self df' self',
    TimeBudgetOptimizer.__init__ model bs be ch rs ss ov w l u = Ok self ->
    TimeBudgetOptimizer.optimize_with obj self init maxiter eps ftol
    = Ok (df', self') ->
    nrows (TimeBudgetOptimizer.curr_spend_matrix self')
    = count_true (TimeBudgetOptimizer.budget_mask self).
Proof.
  intros model bs be ch rs ss ov w l u obj init maxiter eps ftol
         self df' self' Hinit Hopt.
  apply TimeBudgetOptimizer_init_inv in Hinit
    as (sh & m & _ & _ & _ & _ & _ & Hmask & _ & _ & _ & Ht & _).
  apply TimeBudgetOptimizer_optimize_inv in Hopt
    as (x0 & sol & m1 & m2 & _ & Hm1 & Hm2 & -> & Hd).
  cbn [TimeBudgetOptimizer.curr_spend_matrix TimeBudgetOptimizer.set_curr]
    in *.
  apply loc_assign_inv in Hd as (js & vals & _ & _ & _ & Hv & _).
  apply broadcast_rows_cases in Hv. rewrite np_round2_nrows in *.
  apply broadcast_mul_nrows in Hm1, Hm2.
  assert (nrows (np_ones2 (TimeBudgetOptimizer.n_budget_steps self)
                   (TimeBudgetOptimizer.n_optim_channels self))
          = TimeBudgetOptimizer.n_budget_steps self) as E1
    by (unfold nrows, np_ones2; cbn [rows]; apply repeat_length).
  rewrite E1 in Hm1.
  change (nrows (as_row ?a)) with 1%nat in Hm2.
  rewrite broadcast_dim_1_r in Hm2. injection Hm2 as Hm2.
  rewrite <- Hm2 in *. rewrite Hmask, <- Ht in *.
  apply broadcast_dim_cases in Hm1 as [E|[E _]]; [exact E|].
  destruct Hv as [Hv|Hv]; [exact Hv | now rewrite E].
Qed.

End StoredShape.

(** X7.  The container [optimize] returns holds the new solution: read at
    the budget rows and the optimized channels it gives the matrix now
    stored on the instance, which has one row per budget step and one column
    per channel.  The channel labels are distinct and every row of the data
    has one value per column; in the full grid the solver keeps the shape
    of its starting point and [init], when supplied, has one value per
    cell. *)
Theorem returned_container_holds_solution :
  forall (MS : ModelShell) (SV : Solver) model bs be ch rs ss ov,
    (keeps_shape SV ->
     forall obj init maxiter eps ftol self df' self',
        BudgetOptimizer.__init__ model bs be ch rs ss ov = Ok self ->
        well_formed (BudgetOptimizer.get_df self) ->
        NoDup (BudgetOptimizer.optim_channels self) ->
        (forall a, init = Some a ->
                   length (flatten a)
                   = (BudgetOptimizer.n_budget_steps self
                      * BudgetOptimizer.n_optim_channels self)%nat) ->
        BudgetOptimizer.optimize_with obj self init maxiter eps ftol
        = Ok (df', self') ->
        loc_values df' (BudgetOptimizer.budget_mask self)
          (BudgetOptimizer.optim_channels self)
        = Ok (BudgetOptimizer.get_current_state self')
        /\ nrows (BudgetOptimizer.get_current_state self')
           = count_true (BudgetOptimizer.budget_mask self)
        /\ ncols (BudgetOptimizer.get_current_state self')
           = length (BudgetOptimizer.optim_channels self))
    /\ (forall w obj init maxiter eps ftol self df' self',
        ChannelBudgetOptimizer.__init__ model bs be ch rs ss ov w
        = Ok self ->
        well_formed (ChannelBudgetOptimizer.get_df self) ->
        NoDup (ChannelBudgetOptimizer.optim_channels self) ->
        ChannelBudgetOptimizer.optimize_with obj self init maxiter eps ftol
        = Ok (df', self') ->
        loc_values df' (ChannelBudgetOptimizer.budget_mask self)
          (ChannelBudgetOptimizer.optim_channels self)
        = Ok (ChannelBudgetOptimizer.get_current_spend_matrix self')
        /\ nrows (ChannelBudgetOptimizer.get_current_spend_matrix self')
           = count_true (ChannelBudgetOptimizer.budget_mask self)
        /\ ncols (ChannelBudgetOptimizer.get_current_spend_matrix self')
           = length (ChannelBudgetOptimizer.optim_channels self))
    /\ (forall w l u obj init maxiter eps ftol self df' self',
        TimeBudgetOptimizer.__init__ model bs be ch rs ss ov w l u
        = Ok self ->
        well_formed (TimeBudgetOptimizer.get_df self) ->
        NoDup (TimeBudgetOptimizer.optim_channels self) ->
        TimeBudgetOptimizer.optimize_with obj self init maxiter eps ftol
        = Ok (df', self') ->
        loc_values df' (TimeBudgetOptimizer.budget_mask self)
          (TimeBudgetOptimizer.optim_channels self)
        = Ok (TimeBudgetOptimizer.get_current_spend_matrix self')
        /\ nrows (TimeBudgetOptimizer.get_current_spend_matrix self')
           = count_true (TimeBudgetOptimizer.budget_mask self)
        /\ ncols (TimeBudgetOptimizer.get_current_spend_matrix self')
           = length (TimeBudgetOptimizer.optim_channels self)).
Proof.
  intros MS SV model bs be ch rs ss ov.
  destruct (@optimized_matrix_well_shaped SV) as (Wb & Wc & Wt).
  destruct (@optimize_returns_assignment SV) as (Ab & Ac & At).
  split; [|split].
  - intros Hshape obj init maxiter eps ftol self df' self'
           Hinit Hwf Hnd Hlen H.
    pose proof (BudgetOptimizer_stored_nrows Hshape
                  model bs be ch rs ss ov obj init maxiter eps ftol
                  self df' self' Hinit Hlen H) as Hnr.
    specialize (Wb _ _ _ _ _ _ _ _ H). specialize (Ab _ _ _ _ _ _ _ _ H).
    split; [now apply (loc_assign_values (BudgetOptimizer.get_df self))|].
    split; [exact Hnr|].
    now apply loc_assign_inv in Ab as (js & vals & _ & _ & Hc & _).
  - intros w obj init maxiter eps ftol self df' self' Hinit Hwf Hnd H.
    pose proof (ChannelBudgetOptimizer_stored_nrows
                  model bs be ch rs ss ov w obj init maxiter eps ftol
                  self df' self' Hinit H) as Hnr.
    specialize (Wc _ _ _ _ _ _ _ _ H). specialize (Ac _ _ _ _ _ _ _ _ H).
    split;
      [now apply (loc_assign_values (ChannelBudgetOptimizer.get_df self))|].
    split; [exact Hnr|].
    now apply loc_assign_inv in Ac as (js & vals & _ & _ & Hc & _).
  - intros w l u obj init maxiter eps ftol self df' self' Hinit Hwf Hnd H.
    pose proof (TimeBudgetOptimizer_stored_nrows
                  model bs be ch rs ss ov w l u obj init maxiter eps ftol
                  self df' self' Hinit H) as Hnr.
    specialize (Wt _ _ _ _ _ _ _ _ H). specialize (At _ _ _ _ _ _ _ _ H).
    split; [now apply (loc_assign_values (TimeBudgetOptimizer.get_df self))|].
    split; [exact Hnr|].
    now apply loc_assign_inv in At as (js & vals & _ & _ & Hc & _).
Qed.

Lemma Example_full_grid_optimized_ok :
  @BudgetOptimizer.optimize_with Example.start_point_solver
    Example.negated_spend Example.full_grid_instance None 2 None
    Example.ftol
  = Ok (fst Example.full_grid_optimized, snd Example.full_grid_optimized).
Proof. vm_compute. reflexivity. Qed.

Lemma Example_by_channel_optimized_ok :
  @ChannelBudgetOptimizer.optimize_with Example.start_point_solver
    Example.negated_spend Example.by_channel_instance None 2
    Example.eps Example.ftol
  = Ok (fst Example.by_channel_optimized, snd Example.by_channel_optimized).
Proof. vm_compute. reflexivity. Qed.

Lemma Example_by_time_optimized_ok :
  @TimeBudgetOptimizer.optimize_with Example.start_point_solver
    Example.negated_spend Example.by_time_instance None 2
    Example.eps Example.ftol
  = Ok (fst Example.by_time_optimized, snd Example.by_time_optimized).
Proof. vm_compute. reflexivity. Qed.

Lemma Example_well_formed : well_formed (df Example.model).
Proof. repeat constructor. Qed.

Lemma Example_channels_NoDup : NoDup Example.sorted_channels.
Proof.
  repeat constructor; cbn; intuition discriminate.
Qed.

Lemma returned_container_holds_solution_witness :
  keeps_shape Example.start_point_solver
  /\ loc_values (fst Example.full_grid_optimized) [true; true; false]
       Example.sorted_channels
     = Ok (BudgetOptimizer.get_current_state
             (snd Example.full_grid_optimized))
  /\ loc_values (fst Example.by_channel_optimized) [true; true; false]
       Example.sorted_channels
     = Ok (ChannelBudgetOptimizer.get_current_spend_matrix
             (snd Example.by_channel_optimized))
  /\ loc_values (fst Example.by_time_optimized) [true; true; false]
       Example.sorted_channels
     = Ok (TimeBudgetOptimizer.get_current_spend_matrix
             (snd Example.by_time_optimized)).
Proof.
  destruct (returned_container_holds_solution Example.shell_of_record
              Example.start_point_solver Example.model
              "2021-01-01" "2021-01-02" Example.channels (Fin 1) (Fin 10)
              None) as (Hb & _ & _).
  destruct (returned_container_holds_solution Example.shell_of_record
              Example.start_point_solver Example.model
              "2021-01-01" "2021-01-02" Example.sorted_channels (Fin 1)
              (Fin 10) None) as (_ & Hc & Ht).
  assert (forall n : nat, forall a : matrix, @None matrix = Some a ->
            length (flatten a) = n) as Hn by (intros n a H; discriminate H).
  split; [exact start_point_solver_keeps_shape|].
  split; [|split].
  - exact (proj1 (Hb start_point_solver_keeps_shape
                    Example.negated_spend None 2%Z None Example.ftol
                    Example.full_grid_instance _ _ Example_full_grid_ok
                    Example_well_formed Example_channels_NoDup (Hn _)
                    Example_full_grid_optimized_ok)).
  - exact (proj1 (Hc None Example.negated_spend None 2%Z Example.eps
                    Example.ftol Example.by_channel_instance _ _
                    Example_by_channel_ok Example_well_formed
                    Example_channels_NoDup
                    Example_by_channel_optimized_ok)).
  - exact (proj1 (Ht None (Fin (1 # 20)) (Fin 5) Example.negated_spend
                    None 2%Z Example.eps Example.ftol
                    Example.by_time_instance _ _ Example_by_time_ok
                    Example_well_formed Example_channels_NoDup
                    Example_by_time_optimized_ok)).
Defined.

(** X8.  Outside the window the returned container is the data of the instance:
    same labels, same number of rows, the rows outside the budget mask
    unchanged, and the same values in every column that is not an optimized
    channel.  The instance's own data are not written. *)
Theorem returned_container_frame :
  forall (SV : Solver),
    (forall obj self init maxiter eps ftol df' self',
        BudgetOptimizer.optimize_with obj self init maxiter eps ftol
        = Ok (df', self') ->
        BudgetOptimizer.get_df self' = BudgetOptimizer.get_df self
        /\ columns df' = columns (BudgetOptimizer.get_df self)
        /\ length (data df') = length (data (BudgetOptimizer.get_df self))
        /\ (forall i,
              nth i (BudgetOptimizer.budget_mask self) false = false ->
              nth i (data df') []
              = nth i (data (BudgetOptimizer.get_df self)) [])
        /\ (forall names mask,
              (forall n, In n names ->
                         ~ In n (BudgetOptimizer.optim_channels self)) ->
              loc_values df' mask names
              = loc_values (BudgetOptimizer.get_df self) mask names))
    /\ (forall obj self init maxiter eps ftol df' self',
        ChannelBudgetOptimizer.optimize_with obj self init maxiter eps ftol
        = Ok (df', self') ->
        ChannelBudgetOptimizer.get_df self'
        = ChannelBudgetOptimizer.get_df self
        /\ columns df' = columns (ChannelBudgetOptimizer.get_df self)
        /\ length (data df')
           = length (data (ChannelBudgetOptimizer.get_df self))
        /\ (forall i,
              nth i (ChannelBudgetOptimizer.budget_mask self) false = false ->
              nth i (data df') []
              = nth i (data (ChannelBudgetOptimizer.get_df self)) [])
        /\ (forall names mask,
              (forall n, In n names ->
                 ~ In n (ChannelBudgetOptimizer.optim_channels self)) ->
              loc_values df' mask names
              = loc_values (ChannelBudgetOptimizer.get_df self) mask names))
    /\ (forall obj self init maxiter eps ftol df' self',
        TimeBudgetOptimizer.optimize_with obj self init maxiter eps ftol
        = Ok (df', self') ->
        TimeBudgetOptimizer.get_df self' = TimeBudgetOptimizer.get_df self
        /\ columns df' = columns (TimeBudgetOptimizer.get_df self)
        /\ length (data df')
           = length (data (TimeBudgetOptimizer.get_df self))
        /\ (forall i,
              nth i (TimeBudgetOptimizer.budget_mask self) false = false ->
              nth i (data df') []
              = nth i (data (TimeBudgetOptimizer.get_df self)) [])
        /\ (forall names mask,
              (forall n, In n names ->
                 ~ In n (TimeBudgetOptimizer.optim_channels self)) ->
              loc_values df' mask names
              = loc_values (TimeBudgetOptimizer.get_df self) mask names)).
Proof.
  intro SV.
  destruct (@optimize_returns_assignment SV) as (Ab & Ac & At).
  split; [|split]; intros obj self init maxiter eps ftol df' self' H.
  - specialize (Ab _ _ _ _ _ _ _ _ H).
    apply loc_assign_frame in Ab as (Hc & Hl & _ & Hu & Ho).
    split; [|repeat split; assumption].
    apply BudgetOptimizer_optimize_inv in H
      as (x0 & sol & m & _ & _ & -> & _). reflexivity.
  - specialize (Ac _ _ _ _ _ _ _ _ H).
    apply loc_assign_frame in Ac as (Hc & Hl & _ & Hu & Ho).
    split; [|repeat split; assumption].
    apply ChannelBudgetOptimizer_optimize_inv in H
      as (x0 & sol & m1 & m2 & _ & _ & _ & -> & _). reflexivity.
  - specialize (At _ _ _ _ _ _ _ _ H).
    apply loc_assign_frame in At as (Hc & Hl & _ & Hu & Ho).
    split; [|repeat split; assumption].
    apply TimeBudgetOptimizer_optimize_inv in H
      as (x0 & sol & m1 & m2 & _ & _ & _ & -> & _). reflexivity.
Qed.

Lemma returned_container_frame_witness :
  columns (fst Example.full_grid_optimized) = ["search"; "tv"]%string
  /\ nth 2 (data (fst Example.by_channel_optimized)) [] = [Fin 7; Fin 7]
  /\ length (data (fst Example.by_time_optimized)) = 3%nat.
Proof.
  destruct (returned_container_frame Example.start_point_solver)
    as (Hb & Hc & Ht).
  destruct (Hb _ _ _ _ _ _ _ _ Example_full_grid_optimized_ok)
    as (_ & Hb1 & _).
  destruct (Hc _ _ _ _ _ _ _ _ Example_by_channel_optimized_ok)
    as (_ & _ & _ & Hc1 & _).
  destruct (Ht _ _ _ _ _ _ _ _ Example_by_time_optimized_ok)
    as (_ & _ & Ht1 & _).
  split; [exact Hb1|]. split; [exact (Hc1 2%nat eq_refl) | exact Ht1].
Defined.

(* ================================================================== *)
(** ** The per-channel bands *)

Lemma mapM_map : forall (A B : Type) (f : A -> result B) (g : A -> B) l,
  (forall a, In a l -> f a = Ok (g a)) -> mapM f l = Ok (map g l).
Proof.
  intros A B f g. induction l as [|a l IH]; intro H; [reflexivity|].
  cbn [mapM map]. rewrite (H a) by now left. cbn [bind].
  rewrite IH by (intros b Hb; apply H; now right). reflexivity.
Qed.

Lemma Qsum_cons : forall q l, Qsum (q :: l) = q + Qsum l.
Proof. reflexivity. Qed.

Lemma np_dot_app : forall a b a' b',
  length a = length b ->
  np_dot (a ++ a') (b ++ b') =f= fadd (np_dot a b) (np_dot a' b').
Proof.
  induction a as [|v a IH]; intros [|u b] a' b' H; try discriminate.
  - cbn [app np_dot]. now rewrite fadd_0_l.
  - cbn [app np_dot]. injection H as H. rewrite IH by exact H.
    apply fadd_assoc.
Qed.

Lemma np_dot_zeros : forall r,
  np_dot (np_zeros (length r)) (map Fin r) =f= fzero.
Proof.
  unfold np_zeros. induction r as [|q r IH]; [reflexivity|].
  cbn [length repeat map np_dot]. rewrite IH. cbn [fmul fadd fzero feq].
  ring.
Qed.

(** A row of zeros with a one in column [k] picks the value of column [k]. *)
Lemma np_dot_unit : forall r k,
  (k < length r)%nat ->
  np_dot (replace_nth k fone (np_zeros (length r))) (map Fin r)
  =f= Fin (nth k r 0).
Proof.
  induction r as [|q r IH]; intros k Hk; [cbn in Hk; lia|].
  destruct k as [|k].
  - change (np_zeros (length (q :: r))) with (fzero :: np_zeros (length r)).
    cbn [replace_nth map np_dot nth]. rewrite np_dot_zeros.
    cbn [fmul fadd fone fzero feq]. ring.
  - change (np_zeros (length (q :: r))) with (fzero :: np_zeros (length r)).
    cbn [replace_nth map np_dot nth].
    rewrite IH by (cbn in Hk; lia). cbn [fmul fadd fzero feq]. ring.
Qed.

(** The coefficients of the band of channel [k], against a finite grid of
    the same shape, add up column [k]. *)
Lemma band_coefficients_dot : forall c k X,
  (k < c)%nat -> Forall (fun r => length r = c) X ->
  np_dot (flatten (set_column (np_zeros2 (length X) c) k fone))
         (flatten (mkMatrix c (map (map Fin) X)))
  =f= Fin (Qsum (map (fun r => nth k r 0) X)).
Proof.
  intros c k X Hk HX. unfold flatten, set_column, np_zeros2.
  cbn [rows ncols]. rewrite map_repeat.
  induction HX as [|r X Hr _ IH]; [reflexivity|].
  cbn [length repeat map concat].
  rewrite np_dot_app
    by (now rewrite replace_nth_length, length_map, Hr; apply repeat_length).
  rewrite IH. subst c. rewrite np_dot_unit by exact Hk.
  cbn [fadd feq]. rewrite Qsum_cons. reflexivity.
Qed.

Section Bands.
Context {MS : ModelShell}.

Lemma generate_individual_channel_constraints_eq :
  forall model bs be ch rs ss ov delta self,
    BudgetOptimizer.__init__ model bs be ch rs ss ov = Ok self ->
    BudgetOptimizer.generate_individual_channel_constraints self delta
    = Ok (map (fun idx =>
                 let total :=
                   fdiv (nth idx
                           (np_sum_axis0
                              (BudgetOptimizer.init_spend_matrix self))
                           fzero)
                        (BudgetOptimizer.spend_scaler self) in
                 LinearConstraint.mk
                   (flatten
                      (set_column
                         (np_zeros2 (BudgetOptimizer.n_budget_steps self)
                            (BudgetOptimizer.n_optim_channels self))
                         idx fone))
                   [fmul (fsub fone delta) total]
                   [fmul (fadd fone delta) total])
              (seq 0 (BudgetOptimizer.n_optim_channels self))).
Proof.
  intros model bs be ch rs ss ov delta self H.
  apply BudgetOptimizer_init_inv in H
    as (sh & m & _ & Hl & _ & _ & _ & _ & Hm & _ & Hn & _).
  apply loc_values_shape in Hl as (_ & Hnc & _).
  unfold BudgetOptimizer.generate_individual_channel_constraints.
  apply mapM_map. intros idx Hidx. apply in_seq in Hidx.
  assert (idx < length (np_sum_axis0 (BudgetOptimizer.init_spend_matrix self)))
    %nat as Hlt
    by (rewrite np_sum_axis0_length, Hm, Hnc, <- Hn; lia).
  unfold array_div.
  rewrite (nth_error_nth' (map _ _) fzero) by now rewrite length_map.
  rewrite nth_map_lt with (d := fzero) by exact Hlt. reflexivity.
Qed.

End Bands.


Lemma set_column_zeros_shape : forall s c k,
  length (flatten (set_column (np_zeros2 s c) k fone)) = (s * c)%nat.
Proof.
  intros s c k.
  assert (well_shaped (set_column (np_zeros2 s c) k fone)) as Hws.
  { unfold well_shaped, set_column, np_zeros2, np_zeros. cbn [rows ncols].
    apply Forall_forall. intros r Hr.
    apply in_map_iff in Hr as (r0 & <- & Hin).
    apply repeat_spec in Hin. subst r0.
    now rewrite replace_nth_length, repeat_length. }
  rewrite flatten_length by exact Hws.
  unfold nrows, set_column, np_zeros2. cbn [rows ncols].
  now rewrite length_map, repeat_length.
Qed.




(* ================================================================== *)
(** ** The order of the channels *)

Lemma string_ltb_lt : forall a b,
  String.ltb a b = true <-> OrderedTypeEx.String_as_OT.lt a b.
Proof.
  intros a b. rewrite <- OrderedTypeEx.String_as_OT.cmp_lt.
  unfold String.ltb, OrderedTypeEx.String_as_OT.cmp.
  destruct (String.compare a b); split; congruence.
Qed.

Lemma string_ltb_asym : forall a b,
  String.ltb a b = true -> String.ltb b a = false.
Proof.
  intros a b H. unfold String.ltb in *.
  rewrite (String.compare_antisym b a).
  destruct (String.compare a b); cbn; congruence.
Qed.

Lemma string_ltb_trans : forall a b c,
  String.ltb a b = true -> String.ltb b c = true -> String.ltb a c = true.
Proof.
  intros a b c H1 H2. apply string_ltb_lt.
  apply string_ltb_lt in H1, H2.
  eapply OrderedTypeEx.String_as_OT.lt_trans; eassumption.
Qed.

Lemma string_le_antisym : forall a b,
  string_le a b -> string_le b a -> a = b.
Proof.
  unfold string_le, String.ltb. intros a b H1 H2.
  apply String.compare_eq_iff.
  rewrite (String.compare_antisym b a) in H1.
  destruct (String.compare a b); cbn in *; congruence.
Qed.

Lemma string_lt_le_trans : forall a b c,
  String.ltb a b = true -> string_le b c -> string_le a c.
Proof.
  unfold string_le. intros a b c H1 H2.
  destruct (String.ltb c a) eqn:E; [|reflexivity].
  rewrite (string_ltb_trans c a b E H1) in H2. discriminate.
Qed.

Lemma insert_sorted_Permutation : forall s l,
  Permutation (insert_sorted s l) (s :: l).
Proof.
  intros s. induction l as [|t l IH]; cbn [insert_sorted].
  - reflexivity.
  - destruct (String.ltb s t); [reflexivity|].
    rewrite IH. apply perm_swap.
Qed.

Lemma sort_Permutation : forall l, Permutation (sort l) l.
Proof.
  induction l as [|s l IH]; [reflexivity|].
  unfold sort in *. cbn [fold_right].
  rewrite insert_sorted_Permutation. now constructor.
Qed.

Lemma insert_sorted_StronglySorted : forall s l,
  StronglySorted string_le l -> StronglySorted string_le (insert_sorted s l).
Proof.
  intros s l H. induction H as [|t l Hl IH Ht]; cbn [insert_sorted].
  - repeat constructor.
  - destruct (String.ltb s t) eqn:E.
    + constructor; [now constructor|]. constructor.
      * now apply string_ltb_asym.
      * eapply Forall_impl; [|exact Ht]. intros x Hx.
        now apply (string_lt_le_trans s t x).
    + constructor; [exact IH|].
      rewrite (insert_sorted_Permutation s l). constructor; assumption.
Qed.

Lemma sort_StronglySorted : forall l, StronglySorted string_le (sort l).
Proof.
  induction l as [|s l IH]; [constructor|].
  unfold sort in *. cbn [fold_right].
  now apply insert_sorted_StronglySorted.
Qed.

(** Two ascending lists with the same entries are the same list. *)
Lemma StronglySorted_unique : forall l l',
  StronglySorted string_le l -> StronglySorted string_le l' ->
  Permutation l l' -> l = l'.
Proof.
  induction l as [|a l IH]; intros l' H H' Hp.
  - apply Permutation_nil in Hp. now subst.
  - destruct l' as [|b l'].
    + apply Permutation_sym, Permutation_nil in Hp. discriminate.
    + inversion H as [|? ? Hl Ha]; subst.
      inversion H' as [|? ? Hl' Hb]; subst.
      assert (a = b) as ->.
      { assert (In a (b :: l')) as Hin
          by (eapply Permutation_in; [exact Hp|now left]).
        assert (In b (a :: l)) as Hin'
          by (eapply Permutation_in;
              [apply Permutation_sym; exact Hp|now left]).
        destruct Hin as [E|Hin]; [now subst|].
        destruct Hin' as [E|Hin']; [now subst|].
        apply string_le_antisym.
        - now apply (proj1 (Forall_forall _ _) Ha).
        - now apply (proj1 (Forall_forall _ _) Hb). }
      f_equal. apply IH; try assumption.
      now apply Permutation_cons_inv in Hp.
Qed.

Lemma sort_Permutation_eq : forall l l',
  Permutation l l' -> sort l = sort l'.
Proof.
  intros l l' H. apply StronglySorted_unique.
  - apply sort_StronglySorted.
  - apply sort_StronglySorted.
  - rewrite !sort_Permutation. exact H.
Qed.

(** X13.  The full grid keeps its channels in ascending order, whatever the
    order they are given in: the channels of the instance are the given ones
    rearranged, and two constructions that differ in the order of the
    channels only give the same result.  The two aggregates keep the
    channels as given. *)
Theorem channel_order :
  forall (MS : ModelShell) model bs be ch rs ss ov,
    (forall self,
        BudgetOptimizer.__init__ model bs be ch rs ss ov = Ok self ->
        Permutation ch (BudgetOptimizer.optim_channels self)
        /\ StronglySorted string_le (BudgetOptimizer.optim_channels self))
    /\ (forall ch',
        Permutation ch ch' ->
        BudgetOptimizer.__init__ model bs be ch rs ss ov
        = BudgetOptimizer.__init__ model bs be ch' rs ss ov)
    /\ (forall w self,
        ChannelBudgetOptimizer.__init__ model bs be ch rs ss ov w
        = Ok self ->
        ChannelBudgetOptimizer.optim_channels self = ch)
    /\ (forall w l u self,
        TimeBudgetOptimizer.__init__ model bs be ch rs ss ov w l u
        = Ok self ->
        TimeBudgetOptimizer.optim_channels self = ch).
Proof.
  intros MS model bs be ch rs ss ov. split; [|split; [|split]].
  - intros self H.
    apply BudgetOptimizer_init_inv in H as (sh & m & _ & _ & -> & _).
    split.
    + apply Permutation_sym, sort_Permutation.
    + apply sort_StronglySorted.
  - intros ch' Hp. unfold BudgetOptimizer.__init__.
    now rewrite (sort_Permutation_eq ch ch' Hp).
  - intros w self H.
    now apply ChannelBudgetOptimizer_init_inv in H
      as (sh & m & _ & _ & -> & _).
  - intros w l u self H.
    now apply TimeBudgetOptimizer_init_inv in H
      as (sh & m & _ & _ & -> & _).
Qed.

Lemma channel_order_witness :
  Permutation Example.channels Example.sorted_channels
  /\ BudgetOptimizer.optim_channels Example.full_grid_instance
     = Example.sorted_channels
  /\ StronglySorted string_le
       (BudgetOptimizer.optim_channels Example.full_grid_instance)
  /\ @BudgetOptimizer.__init__ Example.shell_of_record Example.model
       "2021-01-01" "2021-01-02" Example.channels (Fin 1) (Fin 10) None
     = @BudgetOptimizer.__init__ Example.shell_of_record Example.model
         "2021-01-01" "2021-01-02" Example.sorted_channels (Fin 1) (Fin 10)
         None
  /\ ChannelBudgetOptimizer.optim_channels Example.by_channel_instance
     = Example.sorted_channels
  /\ TimeBudgetOptimizer.optim_channels Example.by_time_instance
     = Example.sorted_channels.
Proof.
  assert (Permutation Example.channels Example.sorted_channels) as Hp
    by apply perm_swap.
  destruct (channel_order Example.shell_of_record Example.model
              "2021-01-01" "2021-01-02" Example.channels (Fin 1) (Fin 10)
              None) as (Hb & He & _ & _).
  destruct (channel_order Example.shell_of_record Example.model
              "2021-01-01" "2021-01-02" Example.sorted_channels (Fin 1)
              (Fin 10) None) as (_ & _ & Hc & Ht).
  split; [exact Hp|]. split; [reflexivity|].
  split; [exact (proj2 (Hb _ Example_full_grid_ok))|].
  split; [exact (He _ Hp)|].
  split.
  - exact (Hc None _ Example_by_channel_ok).
  - exact (Ht None _ _ _ Example_by_time_ok).
Defined.
